(** * installd command core (cmds/installd/commands.cpp)

    A shallow embedding of the commands of [commands.cpp] and the
    properties stated about them.

    Conventions.
    - C strings are [string]; a nullable [const char*] is [option string].
    - [int], [uid_t], [size_t] values are [Z]; where the source relies on
      wrap-around the modulus is written out.
    - Constants and helpers that live in other files of installd
      ([installd_constants.h], [utils.cpp], [installd_deps.h]) are the
      fields of the class [InstalldDeps].
    - Plain system calls act on the file-system model of module [Fs];
      calls into external helpers (SELinux, [cp], the recursive delete of
      [utils.cpp]) are recorded in a trace and answered by an oracle that
      sees the whole history (module [Trace]). *)

From Stdlib Require Import ZArith Bool Ascii Lia.
From stdpp Require Import base option gmap strings list pretty.

Local Open Scope Z_scope.

(** ** Dependencies that are not part of commands.cpp *)

Class InstalldDeps := {
  (* installd_constants.h *)
  PKG_PATH_MAX : Z;
  FLAG_CE_STORAGE : Z;
  FLAG_DE_STORAGE : Z;
  DEXOPT_DEX2OAT_NEEDED : Z;
  DEXOPT_PATCHOAT_NEEDED : Z;
  DEXOPT_SELF_PATCHOAT_NEEDED : Z;
  DEXOPT_PUBLIC : Z;
  DEXOPT_SAFEMODE : Z;
  DEXOPT_DEBUGGABLE : Z;
  DEXOPT_BOOTCOMPLETE : Z;
  DEXOPT_USEJIT : Z;
  SECONDARY_USER_PREFIX : string;
  IDMAP_PREFIX : string;
  IDMAP_SUFFIX : string;
  (* private/android_filesystem_config.h *)
  AID_SYSTEM : Z;
  (* globals.h *)
  android_media_dir_path : string;
  (* utils.h: path builders; the [bool]-returning ones fill a buffer *)
  create_data_path : option string -> string;
  create_data_app_path : option string -> string;
  create_data_app_package_path : option string -> string -> string;
  create_data_user_path : option string -> Z -> string;
  create_data_user_package_path : option string -> Z -> string -> string;
  create_data_user_de_package_path : option string -> Z -> string -> string;
  create_cache_path : string -> string -> option string;
  calculate_oat_file_path : string -> string -> string -> option string;
  calculate_odex_file_path : string -> string -> option string;
  (* utils.h: validators, 0 means accepted *)
  validate_apk_path : string -> Z;
  validate_system_app_path : string -> Z;
  multiuser_get_uid : Z -> Z -> Z;
  get_known_users : option string -> list Z
}.

(** C truth value of an [int]. *)
Definition truthy (z : Z) : bool := negb (z =? 0).

(** [flags & bit] used as a condition. *)
Definition has_flag (flags bit : Z) : bool := truthy (Z.land flags bit).

Definition strlen (s : string) : Z := Z.of_nat (String.length s).

(** [s[0]], the terminating NUL for the empty string. *)
Definition first_char (s : string) : ascii :=
  match s with
  | EmptyString => zero
  | String c _ => c
  end.

(** [strncmp(prefix, s, strlen(prefix)) == 0]. *)
Fixpoint starts_with (prefix s : string) : bool :=
  match prefix with
  | EmptyString => true
  | String a prefix' =>
      match s with
      | EmptyString => false
      | String b s' => Ascii.eqb a b && starts_with prefix' s'
      end
  end.

(** ** System properties *)

Module Props.

(** Modelled from the spec: [get_property] of installd_deps.h is absent
    from the sources; the property store is read-only and string-valued,
    and a missing property is an absence, not an error.  The call returns
    the length of the value it stored in the buffer: the property's value
    when it is set and not empty, the default otherwise (nothing for a
    null default). *)
Definition get_property (ps : gmap string string) (key : string)
    (default_value : option string) : Z * string :=
  let dflt := match default_value with
              | Some d => (strlen d, d)
              | None => (0, "")
              end in
  match ps !! key with
  | Some v => if decide (v = "") then dflt else (strlen v, v)
  | None => dflt
  end.

(** The property is set to a non-empty value. *)
Definition present (ps : gmap string string) (key : string) : Prop :=
  exists v, ps !! key = Some v /\ v <> "".

Definition has_value (ps : gmap string string) (key v : string) : Prop :=
  ps !! key = Some v.

(** [check_boolean_property(name, default_value = false)]. *)
Definition check_boolean_property (ps : gmap string string)
    (property_name : string) (default_value : bool) : bool :=
  let '(n, tmp_property_value) := get_property ps property_name None in
  let have_property := 0 <? n in
  if negb have_property then default_value
  else bool_decide (tmp_property_value = "true").

End Props.

(** ** Swap-file policy *)

Module Swap.
Import Props.

(** The body of [ShouldUseSwapFileForDexopt] over the two file-level
    switches. *)
Definition should_use_swap (always_provide default_provide : bool)
    (ps : gmap string string) : bool :=
  if always_provide then true
  else
    let '(n, dex2oat_prop_buf) := get_property ps "dalvik.vm.dex2oat-swap" (Some "") in
    if 0 <? n then
      if bool_decide (dex2oat_prop_buf = "true") then true else false
    else if default_provide then true
    else
      let is_low_mem := check_boolean_property ps "ro.config.low_ram" false in
      if is_low_mem then true
      else default_provide.

Definition kAlwaysProvideSwapFile : bool := false.
Definition kDefaultProvideSwapFile : bool := true.

Definition ShouldUseSwapFileForDexopt (ps : gmap string string) : bool :=
  should_use_swap kAlwaysProvideSwapFile kDefaultProvideSwapFile ps.

End Swap.

(** ** Argument vectors of the child programs *)

Module Argv.
Import Props.

(** [strtok_r(_, " ", _)] iterated to exhaustion: the non-empty maximal
    runs of characters other than the delimiter, in order.  [cur] is the
    token being read. *)
Fixpoint strtok_all (delim : ascii) (s : string) (cur : option string) : list string :=
  match s with
  | EmptyString =>
      match cur with
      | Some t => [t]
      | None => []
      end
  | String c rest =>
      if bool_decide (c = delim) then
        match cur with
        | Some t => t :: strtok_all delim rest None
        | None => strtok_all delim rest None
        end
      else
        strtok_all delim rest (Some (default "" cur +:+ String c ""))
  end.

Definition split_count (str : string) : Z :=
  Z.of_nat (length (strtok_all " "%char str None)).

Definition split (buf : string) : list string := strtok_all " "%char buf None.

(** [sprintf("%d", n)]. *)
Definition fmt_d (n : Z) : string := pretty n.

Definition MAX_INSTRUCTION_SET_LEN : Z := 7.

(** [run_patchoat]: the vector handed to [execv], or [None] when the
    function returns without calling it. *)
Definition run_patchoat (input_fd oat_fd : Z) (input_file_name output_file_name : string)
    (instruction_set : string) : option (string * list string) :=
  let PATCHOAT_BIN := "/system/bin/patchoat" in
  if MAX_INSTRUCTION_SET_LEN <=? strlen instruction_set then None
  else
    let patched_image_location_arg :=
      "--patched-image-location=/system/framework/boot.art" in
    let no_lock_arg := "--no-lock-output" in
    let instruction_set_arg := "--instruction-set=" +:+ instruction_set in
    let output_oat_fd_arg := "--output-oat-fd=" +:+ fmt_d oat_fd in
    let input_oat_fd_arg := "--input-oat-fd=" +:+ fmt_d input_fd in
    Some (PATCHOAT_BIN,
          [PATCHOAT_BIN; patched_image_location_arg; no_lock_arg;
           instruction_set_arg; output_oat_fd_arg; input_oat_fd_arg]).

(** The [if / else if] chain that fills [dex2oat_compiler_filter_arg].
    Input: the three switches and what "dalvik.vm.dex2oat-filter" gave;
    output: the final [have_dex2oat_compiler_filter_flag], the argument,
    and [have_dex2oat_relocation_skip_flag]. *)
Definition compiler_filter_chain (skip_compilation vm_safe_mode use_jit : bool)
    (have_dex2oat_compiler_filter_flag : bool) (dex2oat_compiler_filter_flag : string)
    : bool * string * bool :=
  if skip_compilation then (true, "--compiler-filter=verify-none", true)
  else if vm_safe_mode then (true, "--compiler-filter=interpret-only", false)
  else if use_jit then (true, "--compiler-filter=verify-at-runtime", false)
  else if have_dex2oat_compiler_filter_flag then
    (true, "--compiler-filter=" +:+ dex2oat_compiler_filter_flag, false)
  else (false, "", false).

(** [skip_compilation] of [run_dex2oat]. *)
Definition skip_compilation_of (ps : gmap string string) : bool :=
  let '(n, vold_decrypt) := get_property ps "vold.decrypt" (Some "") in
  let have_vold_decrypt := 0 <? n in
  have_vold_decrypt &&
  (bool_decide (vold_decrypt = "trigger_restart_min_framework")
   || bool_decide (vold_decrypt = "1")).

(** [run_dex2oat]: the vector handed to [execv] (without the final NULL),
    or [None] when the function returns without calling it. *)
Definition run_dex2oat (ps : gmap string string) (zip_fd oat_fd : Z)
    (input_file_name output_file_name : string) (swap_fd : Z)
    (instruction_set : string)
    (vm_safe_mode debuggable post_bootcomplete use_jit : bool)
    (profile_files_fd reference_profile_files_fd : list Z)
    : option (string * list string) :=
  if MAX_INSTRUCTION_SET_LEN <=? strlen instruction_set then None
  else if negb (length profile_files_fd =? length reference_profile_files_fd)%nat then None
  else
    let '(n_xms, dex2oat_Xms_flag) := get_property ps "dalvik.vm.dex2oat-Xms" None in
    let have_dex2oat_Xms_flag := 0 <? n_xms in
    let '(n_xmx, dex2oat_Xmx_flag) := get_property ps "dalvik.vm.dex2oat-Xmx" None in
    let have_dex2oat_Xmx_flag := 0 <? n_xmx in
    let '(n_filter, dex2oat_compiler_filter_flag) :=
      get_property ps "dalvik.vm.dex2oat-filter" None in
    let have_dex2oat_compiler_filter_flag := 0 <? n_filter in
    let '(n_threads, dex2oat_threads_buf) :=
      get_property ps (if post_bootcomplete then "dalvik.vm.dex2oat-threads"
                       else "dalvik.vm.boot-dex2oat-threads") None in
    let have_dex2oat_threads_flag := 0 <? n_threads in
    let dex2oat_threads_arg := "-j" +:+ dex2oat_threads_buf in
    let dex2oat_isa_features_key := "dalvik.vm.isa." +:+ instruction_set +:+ ".features" in
    let '(n_features, dex2oat_isa_features) :=
      get_property ps dex2oat_isa_features_key None in
    let have_dex2oat_isa_features := 0 <? n_features in
    let dex2oat_isa_variant_key := "dalvik.vm.isa." +:+ instruction_set +:+ ".variant" in
    let '(n_variant, dex2oat_isa_variant) :=
      get_property ps dex2oat_isa_variant_key None in
    let have_dex2oat_isa_variant := 0 <? n_variant in
    let dex2oat_norelocation := "-Xnorelocate" in
    let '(n_flags, dex2oat_flags) := get_property ps "dalvik.vm.dex2oat-flags" None in
    let dex2oat_flags_count := if n_flags <=? 0 then 0 else split_count dex2oat_flags in
    let skip_compilation := skip_compilation_of ps in
    let generate_debug_info := check_boolean_property ps "debug.generate-debug-info" false in
    let DEX2OAT_BIN := "/system/bin/dex2oat" in
    let RUNTIME_ARG := "--runtime-arg" in
    let zip_fd_arg := "--zip-fd=" +:+ fmt_d zip_fd in
    let zip_location_arg := "--zip-location=" +:+ input_file_name in
    let oat_fd_arg := "--oat-fd=" +:+ fmt_d oat_fd in
    let oat_location_arg := "--oat-location=" +:+ output_file_name in
    let instruction_set_arg := "--instruction-set=" +:+ instruction_set in
    let instruction_set_variant_arg :=
      "--instruction-set-variant=" +:+ dex2oat_isa_variant in
    let instruction_set_features_arg :=
      "--instruction-set-features=" +:+ dex2oat_isa_features in
    let have_dex2oat_swap_fd := 0 <=? swap_fd in
    let dex2oat_swap_fd := "--swap-fd=" +:+ fmt_d swap_fd in
    (* use the JIT if either it's specified as a dexopt flag or if the
       property is set *)
    let use_jit := use_jit || check_boolean_property ps "debug.usejit" false in
    let dex2oat_Xms_arg := "-Xms" +:+ dex2oat_Xms_flag in
    let dex2oat_Xmx_arg := "-Xmx" +:+ dex2oat_Xmx_flag in
    let '(have_dex2oat_compiler_filter_flag, dex2oat_compiler_filter_arg,
          have_dex2oat_relocation_skip_flag) :=
      compiler_filter_chain skip_compilation vm_safe_mode use_jit
        have_dex2oat_compiler_filter_flag dex2oat_compiler_filter_flag in
    (* Check whether all apps should be compiled debuggable. *)
    let debuggable :=
      if negb debuggable then
        let '(n_dbg, prop_buf) := get_property ps "dalvik.vm.always_debuggable" (Some "0") in
        (0 <? n_dbg) && bool_decide (first_char prop_buf = "1"%char)
      else debuggable in
    let profile_args :=
      flat_map (fun '(p, r) => ["--profile-file-fd=" +:+ fmt_d p;
                                "--reference-profile-file-fd=" +:+ fmt_d r])
               (zip profile_files_fd reference_profile_files_fd) in
    Some (DEX2OAT_BIN,
          [DEX2OAT_BIN; zip_fd_arg; zip_location_arg; oat_fd_arg; oat_location_arg;
           instruction_set_arg]
          ++ (if have_dex2oat_isa_variant then [instruction_set_variant_arg] else [])
          ++ (if have_dex2oat_isa_features then [instruction_set_features_arg] else [])
          ++ (if have_dex2oat_Xms_flag then [RUNTIME_ARG; dex2oat_Xms_arg] else [])
          ++ (if have_dex2oat_Xmx_flag then [RUNTIME_ARG; dex2oat_Xmx_arg] else [])
          ++ (if have_dex2oat_compiler_filter_flag then [dex2oat_compiler_filter_arg] else [])
          ++ (if have_dex2oat_threads_flag then [dex2oat_threads_arg] else [])
          ++ (if have_dex2oat_swap_fd then [dex2oat_swap_fd] else [])
          ++ (if generate_debug_info then ["--generate-debug-info"] else [])
          ++ (if debuggable then ["--debuggable"] else [])
          ++ (if truthy dex2oat_flags_count then split dex2oat_flags else [])
          ++ (if have_dex2oat_relocation_skip_flag
              then [RUNTIME_ARG; dex2oat_norelocation] else [])
          ++ profile_args).

End Argv.

(** ** File-system model for the plain system calls *)

Module Fs.

Record inode := Inode {
  st_isdir : bool;
  st_mode : Z;
  st_uid : Z;
  st_gid : Z;
  st_atime : Z;
  st_mtime : Z
}.

(** Directory entries map a path to an inode number; a descriptor is
    identified with the inode it was opened on, so that it stays usable
    after the name is unlinked. *)
Record t := Make {
  names : gmap string nat;
  inodes : gmap nat inode;
  next_ino : nat;
  clock : Z
}.

Inductive sysret := Ok | Errno (e : Z).

Definition ENOENT : Z := 2.
Definition EEXIST : Z := 17.
Definition EISDIR : Z := 21.

Definition failed (r : sysret) : bool :=
  match r with
  | Ok => false
  | Errno _ => true
  end.

Definition stat (path : string) (fs : t) : option inode :=
  match names fs !! path with
  | Some ino => inodes fs !! ino
  | None => None
  end.

Definition exists_path (path : string) (fs : t) : Prop := is_Some (stat path fs).

(** [open(path, O_RDONLY)] as root: succeeds exactly on an existing path. *)
Definition open_rdonly (path : string) (fs : t) : option nat :=
  match names fs !! path with
  | Some ino =>
      match inodes fs !! ino with
      | Some _ => Some ino
      | None => None
      end
  | None => None
  end.

(** [unlink(path)]: removes the name of a non-directory.  The inode table
    is the store of file bodies, reached through names and through open
    descriptors (an unlinked swap file lives on behind its descriptor);
    it keeps no link count, so that a body without a name stays in the
    table.  A file is on disk when a name leads to it ([stat]). *)
Definition unlink (path : string) (fs : t) : sysret * t :=
  match names fs !! path with
  | None => (Errno ENOENT, fs)
  | Some ino =>
      match inodes fs !! ino with
      | Some nd =>
          if st_isdir nd then (Errno EISDIR, fs)
          else (Ok, Make (delete path (names fs)) (inodes fs) (next_ino fs) (clock fs))
      | None => (Ok, Make (delete path (names fs)) (inodes fs) (next_ino fs) (clock fs))
      end
  end.

(** [open(path, O_RDWR | O_CREAT | O_EXCL, mode)] as root.  It fails when
    the name is taken; whether a free name can be created (parent
    directory, free space) is decided by [creatable].  The new file
    belongs to root and carries the current time. *)
Definition open_creat_excl (creatable : bool) (path : string) (mode : Z) (fs : t)
    : option (nat * t) :=
  match names fs !! path with
  | Some _ => None
  | None =>
      if creatable then
        let ino := next_ino fs in
        Some (ino,
              Make (<[path := ino]> (names fs))
                   (<[ino := Inode false mode 0 0 (clock fs) (clock fs)]> (inodes fs))
                   (S ino) (clock fs))
      else None
  end.

Definition set_mode (mode : Z) (nd : inode) : inode :=
  Inode (st_isdir nd) mode (st_uid nd) (st_gid nd) (st_atime nd) (st_mtime nd).

Definition set_owner (uid gid : Z) (nd : inode) : inode :=
  Inode (st_isdir nd) (st_mode nd) uid gid (st_atime nd) (st_mtime nd).

Definition set_times (atime mtime : Z) (nd : inode) : inode :=
  Inode (st_isdir nd) (st_mode nd) (st_uid nd) (st_gid nd) atime mtime.

Definition set_atime (atime : Z) (nd : inode) : inode :=
  Inode (st_isdir nd) (st_mode nd) (st_uid nd) (st_gid nd) atime (st_mtime nd).

Definition on_inode (f : inode -> inode) (ino : nat) (fs : t) : t :=
  Make (names fs) (alter f ino (inodes fs)) (next_ino fs) (clock fs).

Definition fchmod (fd : nat) (mode : Z) (fs : t) : t := on_inode (set_mode mode) fd fs.

Definition fchown (fd : nat) (uid gid : Z) (fs : t) : t := on_inode (set_owner uid gid) fd fs.

(** [utime(path, {actime, modtime})]; nothing happens on a missing path. *)
Definition utime (path : string) (actime modtime : Z) (fs : t) : t :=
  match names fs !! path with
  | Some ino => on_inode (set_times actime modtime) ino fs
  | None => fs
  end.

Definition not_a_directory (path : string) (fs : t) : Prop :=
  match stat path fs with
  | Some nd => st_isdir nd = false
  | None => True
  end.

(** An output file under construction: the name [path] leads to the
    regular file [fd], which has the given mode and owner, and [fd] is
    older than every inode yet to be made. *)
Definition output_file (path : string) (fd : nat) (mode uid gid : Z) (fs : t) : Prop :=
  names fs !! path = Some fd
  /\ (fd < next_ino fs)%nat
  /\ exists nd, inodes fs !! fd = Some nd
                /\ st_isdir nd = false /\ st_mode nd = mode
                /\ st_uid nd = uid /\ st_gid nd = gid.

Definition S_IRUSR : Z := 256.  (* 0400 *)
Definition S_IWUSR : Z := 128.  (* 0200 *)
Definition S_IRGRP : Z := 32.   (* 0040 *)
Definition S_IROTH : Z := 4.    (* 0004 *)

End Fs.

(** ** rm_dex *)

Module RmDex.
Import Fs.

(** The result, the file system afterwards, and the lines logged at
    error level. *)
Definition rm_dex `{InstalldDeps} (path instruction_set : string) (fs : Fs.t)
    : Z * Fs.t * list string :=
  if truthy (validate_apk_path path) && truthy (validate_system_app_path path) then
    (-1, fs, ["invalid apk path '" +:+ path +:+ "' (bad prefix)"])
  else
    match create_cache_path path instruction_set with
    | None => (-1, fs, [])
    | Some dex_path =>
        match unlink dex_path fs with
        | (Errno errno, fs') =>
            (-1, fs',
             if negb (errno =? ENOENT) then ["Couldn't unlink " +:+ dex_path] else [])
        | (Ok, fs') => (0, fs', [])
        end
    end.

End RmDex.

(** ** dexopt *)

Module Dexopt.
Import Fs Props Argv.

Inductive outcome := Returned (rc : Z) | Exited (code : Z).

(** How the forked child ends: [exit(code)] before or instead of the
    exec, or the [execv] of a compiler. *)
Inductive child_end := ChildExit (code : Z) | ChildExec (bin : string) (argv : list string).

(** What the surroundings decide during one call. *)
Record env := Env {
  props : gmap string string;
  (* the pairs [open_profile_files] pushes on its two vectors; the
     reference profiles it creates and chowns on its way are not part of
     [Fs.t], so that what is said of the whole disk is said of calls
     without profiles *)
  profile_files : list (Z * Z);
  creatable : string -> bool;
  fchmod_fails : bool;
  fchown_fails : bool;
  setgid_fails : bool;
  setuid_fails : bool;
  capset_fails : bool;
  set_sched_policy_fails : bool;
  setpriority_fails : bool;
  flock_fails : bool;
  (* [wait_child] on the forked child, a failed [fork] included *)
  wait_child : child_end -> Z;
  (* time stamps a running compiler leaves on its output and its input *)
  child_out_times : Z * Z;
  child_in_atime : Z
}.

Definition SetDex2OatAndPatchOatScheduling (e : env) (set_to_bg : bool) : option Z :=
  if set_to_bg then
    if set_sched_policy_fails e then Some 70
    else if setpriority_fails e then Some 71
    else None
  else None.

(** The [pid == 0] branch of [dexopt]. *)
Definition dexopt_child `{InstalldDeps} (e : env) (dexopt_needed : Z)
    (input_fd out_fd : Z) (input_file out_path : string) (swap_fd : Z)
    (instruction_set : string) (vm_safe_mode debuggable boot_complete use_jit : bool)
    (profile_files_fd reference_profile_files_fd : list Z) : child_end :=
  if setgid_fails e then ChildExit 64
  else if setuid_fails e then ChildExit 65
  else if capset_fails e then ChildExit 66
  else
    match SetDex2OatAndPatchOatScheduling e boot_complete with
    | Some code => ChildExit code
    | None =>
        if flock_fails e then ChildExit 67
        else if (dexopt_needed =? DEXOPT_PATCHOAT_NEEDED)
                || (dexopt_needed =? DEXOPT_SELF_PATCHOAT_NEEDED) then
          match run_patchoat input_fd out_fd input_file out_path instruction_set with
          | Some (bin, argv) => ChildExec bin argv
          | None => ChildExit 68
          end
        else if dexopt_needed =? DEXOPT_DEX2OAT_NEEDED then
          match run_dex2oat (props e) input_fd out_fd input_file out_path swap_fd
                  instruction_set vm_safe_mode debuggable boot_complete use_jit
                  profile_files_fd reference_profile_files_fd with
          | Some (bin, argv) => ChildExec bin argv
          | None => ChildExit 68
          end
        else ChildExit 73
    end.

(** What a compiler that was exec'ed does to the files it holds open. *)
Definition child_effects (e : env) (ce : child_end) (input_fd out_fd : nat) (fs : Fs.t)
    : Fs.t :=
  match ce with
  | ChildExit _ => fs
  | ChildExec _ _ =>
      on_inode (set_times (fst (child_out_times e)) (snd (child_out_times e))) out_fd
        (on_inode (set_atime (child_in_atime e)) input_fd fs)
  end.

(** Output path derivation; [None] is a [return -1]. *)
Definition dexopt_out_path `{InstalldDeps} (oat_dir : option string)
    (apk_path instruction_set : string) : option string :=
  match oat_dir with
  | Some dir =>
      if negb (bool_decide (first_char dir = "!"%char)) then
        if truthy (validate_apk_path dir) then None
        else calculate_oat_file_path dir apk_path instruction_set
      else create_cache_path apk_path instruction_set
  | None => create_cache_path apk_path instruction_set
  end.

Inductive input_choice := InputFile (input_file : string) | InputFail | InputExit (code : Z).

(** The [switch (dexopt_needed)]. *)
Definition dexopt_input_file `{InstalldDeps} (dexopt_needed : Z)
    (apk_path instruction_set out_path : string) : input_choice :=
  if dexopt_needed =? DEXOPT_DEX2OAT_NEEDED then InputFile apk_path
  else if dexopt_needed =? DEXOPT_PATCHOAT_NEEDED then
    match calculate_odex_file_path apk_path instruction_set with
    | Some in_odex_path => InputFile in_odex_path
    | None => InputFail
    end
  else if dexopt_needed =? DEXOPT_SELF_PATCHOAT_NEEDED then InputFile out_path
  else InputExit 72.

Definition swap_file_name_of (out_path : string) : string := out_path +:+ ".swap".

(** "Create a swap file if necessary": the resulting [swap_fd] and file
    system. *)
Definition dexopt_swap `{InstalldDeps} (e : env) (out_path : string) (fs : Fs.t)
    : Z * Fs.t :=
  if Swap.ShouldUseSwapFileForDexopt (props e) then
    let out_len := strlen out_path in
    if out_len + strlen ".swap" + 1 <=? PKG_PATH_MAX then
      let swap_file_name := swap_file_name_of out_path in
      let fs := snd (unlink swap_file_name fs) in
      match open_creat_excl (creatable e swap_file_name) swap_file_name 384 fs with
      | None => (-1, fs)
      | Some (swap_fd, fs) => (Z.of_nat swap_fd, snd (unlink swap_file_name fs))
      end
    else (-1, fs)
  else (-1, fs).

(** The code after the label [fail]. *)
Definition dexopt_fail (out_fd : option nat) (out_path : string) (fs : Fs.t)
    : outcome * Fs.t :=
  match out_fd with
  | Some _ => (Returned (-1), snd (unlink out_path fs))
  | None => (Returned (-1), fs)
  end.

Definition dexopt `{InstalldDeps} (e : env) (apk_path : string) (uid : Z)
    (pkgname instruction_set : string) (dexopt_needed : Z) (oat_dir : option string)
    (dexopt_flags : Z) (volume_uuid : option string) (use_profiles : bool)
    (fs : Fs.t) : outcome * Fs.t :=
  let is_public := has_flag dexopt_flags DEXOPT_PUBLIC in
  let vm_safe_mode := has_flag dexopt_flags DEXOPT_SAFEMODE in
  let debuggable := has_flag dexopt_flags DEXOPT_DEBUGGABLE in
  let boot_complete := has_flag dexopt_flags DEXOPT_BOOTCOMPLETE in
  let use_jit := has_flag dexopt_flags DEXOPT_USEJIT in
  let profile_files_fd := if use_profiles then (profile_files e).*1 else [] in
  let reference_profile_files_fd := if use_profiles then (profile_files e).*2 else [] in
  if use_profiles && bool_decide (profile_files_fd = []) then
    (* Skip profile guided compilation because no profiles were found. *)
    (Returned 0, fs)
  (* LOG_FATAL on unknown flag bits logs only in a release build *)
  else if PKG_PATH_MAX - 8 <=? strlen apk_path then (Returned (-1), fs)
  else
    match dexopt_out_path oat_dir apk_path instruction_set with
    | None => (Returned (-1), fs)
    | Some out_path =>
        match dexopt_input_file dexopt_needed apk_path instruction_set out_path with
        | InputFail => (Returned (-1), fs)
        | InputExit code => (Exited code, fs)
        | InputFile input_file =>
            let input_stat := default (Inode false 0 0 0 0 0) (stat input_file fs) in
            match open_rdonly input_file fs with
            | None => (Returned (-1), fs)
            | Some input_fd =>
                let fs := snd (unlink out_path fs) in
                match open_creat_excl (creatable e out_path) out_path 420 fs with
                | None => dexopt_fail None out_path fs
                | Some (out_fd, fs) =>
                    if fchmod_fails e then dexopt_fail (Some out_fd) out_path fs
                    else
                      let fs :=
                        fchmod out_fd
                          (Z.lor (Z.lor (Z.lor S_IRUSR S_IWUSR) S_IRGRP)
                                 (if is_public then S_IROTH else 0)) fs in
                      if fchown_fails e then dexopt_fail (Some out_fd) out_path fs
                      else
                        let fs := fchown out_fd AID_SYSTEM uid fs in
                        let '(swap_fd, fs) := dexopt_swap e out_path fs in
                        let ce :=
                          dexopt_child e dexopt_needed (Z.of_nat input_fd) (Z.of_nat out_fd)
                            input_file out_path swap_fd instruction_set vm_safe_mode
                            debuggable boot_complete use_jit
                            profile_files_fd reference_profile_files_fd in
                        let fs := child_effects e ce input_fd out_fd fs in
                        let res := wait_child e ce in
                        if res =? 0 then
                          let fs := utime out_path (st_atime input_stat)
                                      (st_mtime input_stat) fs in
                          (Returned 0, fs)
                        else dexopt_fail (Some out_fd) out_path fs
                end
            end
        end
    end.

End Dexopt.

(** ** Calls into external helpers: traces *)

Module Trace.

(** One call that leaves the file.  Apart from [Log] and [Access] every
    event may change what is stored under the path it names. *)
Inductive event :=
  | Log (msg : string)
  | ForkExecvp (argv : list string)
  | SelinuxRestorecon (path : string) (flags : Z)
  | SelinuxRestoreconPkgdir (path : string) (seinfo : option string) (uid flags : Z)
  | SelinuxSetfilecon (path pkgname : string) (seinfo : option string) (uid : Z)
  | FsPrepareDir (path : string) (mode uid gid : Z)
  | FsPrepareDirStrict (path : string) (mode uid gid : Z)
  | Access (path : string)
  | DeleteDirContents (path : string) (also_delete_dir : bool).

#[global] Instance event_eq_dec : EqDecision event.
Proof. solve_decision. Defined.

(** The answer to a call may depend on everything that happened before. *)
Definition oracle := list event -> event -> Z.

(** Computations that extend the history. *)
Definition M (A : Type) : Type := list event -> A * list event.

Definition ret {A} (a : A) : M A := fun tr => (a, tr).

Definition bind {A B} (m : M A) (k : A -> M B) : M B :=
  fun tr => let '(a, tr') := m tr in k a tr'.

Definition call (o : oracle) (e : event) : M Z := fun tr => (o tr e, tr ++ [e]).

Definition log (msg : string) : M unit := fun tr => (tt, tr ++ [Log msg]).

(** The paths under which an event may create, change or delete
    something.  [cp] writes below its last argument. *)
Definition writes (e : event) : list string :=
  match e with
  | Log _ => []
  | ForkExecvp argv => [List.last argv ""]
  | SelinuxRestorecon path _ => [path]
  | SelinuxRestoreconPkgdir path _ _ _ => [path]
  | SelinuxSetfilecon path _ _ _ => [path]
  | FsPrepareDir path _ _ _ => [path]
  | FsPrepareDirStrict path _ _ _ => [path]
  | Access _ => []
  | DeleteDirContents path _ => [path]
  end.

Definition is_log (e : event) : bool :=
  match e with
  | Log _ => true
  | _ => false
  end.

(** [m] only appends to the history, and its result and the appended
    events satisfy [R]. *)
Definition runs {A} (m : M A) (R : A -> list event -> Prop) : Prop :=
  forall tr, exists new, (m tr).2 = tr ++ new /\ R (m tr).1 new.

(** [m] only appends events that satisfy [P]. *)
Definition emits {A} (P : event -> Prop) (m : M A) : Prop :=
  runs m (fun _ new => Forall P new).

End Trace.

Declare Scope trace_scope.
Delimit Scope trace_scope with trace.
Notation "'let*' x ':=' m 'in' k" := (Trace.bind m (fun x => k))
  (at level 10, x name, m at level 100, k at level 200) : trace_scope.

(** ** App-data lifecycle *)

Module AppData.
Import Trace.
Local Open Scope trace_scope.

(* selinux/android.h *)
Definition SELINUX_ANDROID_RESTORECON_RECURSE : Z := 4.

Definition create_app_data `{InstalldDeps} (o : oracle) (uuid : option string)
    (pkgname : string) (userid flags appid : Z) (seinfo : option string) : M Z :=
  let uid := multiuser_get_uid userid appid in
  let de_part : M Z :=
    if has_flag flags FLAG_DE_STORAGE then
      let path := create_data_user_de_package_path uuid userid pkgname in
      let* r := call o (FsPrepareDirStrict path 489 uid uid) in
      if r =? -1 then
        let* _ := log ("Failed to prepare " +:+ path) in ret (-1)
      else
        let* r := call o (SelinuxSetfilecon path pkgname seinfo uid) in
        if r <? 0 then
          let* _ := log ("Failed to setfilecon " +:+ path) in ret (-1)
        else ret 0
    else ret 0 in
  if has_flag flags FLAG_CE_STORAGE then
    let path := create_data_user_package_path uuid userid pkgname in
    let* r := call o (FsPrepareDirStrict path 489 uid uid) in
    if negb (r =? 0) then
      let* _ := log ("Failed to prepare " +:+ path) in ret (-1)
    else
      let* r := call o (SelinuxSetfilecon path pkgname seinfo uid) in
      if r <? 0 then
        let* _ := log ("Failed to setfilecon " +:+ path) in ret (-1)
      else de_part
  else de_part.

Definition restorecon_app_data `{InstalldDeps} (o : oracle) (uuid : option string)
    (pkgName : option string) (userid flags appid : Z) (seinfo : option string) : M Z :=
  let seflags := SELINUX_ANDROID_RESTORECON_RECURSE in
  match pkgName, seinfo with
  | Some pkgName, Some _ =>
      let uid := multiuser_get_uid userid appid in
      let ce_part : M Z :=
        if has_flag flags FLAG_CE_STORAGE then
          let path := create_data_user_package_path uuid userid pkgName in
          let* r := call o (SelinuxRestoreconPkgdir path seinfo uid seflags) in
          if r <? 0 then
            let* _ := log ("restorecon failed for " +:+ path) in ret (-1)
          else ret 0
        else ret 0 in
      let de_part : M unit :=
        if has_flag flags FLAG_DE_STORAGE then
          let path := create_data_user_de_package_path uuid userid pkgName in
          let* r := call o (SelinuxRestoreconPkgdir path seinfo uid seflags) in
          if r <? 0 then
            (* TODO: include result once 25796509 is fixed *)
            log ("restorecon failed for " +:+ path)
          else ret tt
        else ret tt in
      let* res := ce_part in
      let* _ := de_part in
      ret res
  | _, _ =>
      let* _ := log "Package name or seinfo tag is null when trying to restorecon." in
      ret (-1)
  end.

End AppData.

(** ** move_complete_app *)

Module Move.
Import Trace AppData.
Local Open Scope trace_scope.

Definition kCpPath : string := "/system/bin/cp".

Definition cp_argv (from to_parent : string) : list string :=
  [kCpPath; "-F"; "-p"; "-R"; "-P"; "-d"; from; to_parent].

(** "Copy app": [true] when control reaches the loop, [false] on
    [goto fail]. *)
Definition copy_app `{InstalldDeps} (o : oracle) (from_uuid to_uuid : option string)
    (data_app_name : string) : M bool :=
  let from := create_data_app_package_path from_uuid data_app_name in
  let to := create_data_app_package_path to_uuid data_app_name in
  let to_parent := create_data_app_path to_uuid in
  let* rc := call o (ForkExecvp (cp_argv from to_parent)) in
  if negb (rc =? 0) then
    let* _ := log ("Failed copying " +:+ from +:+ " to " +:+ to) in ret false
  else
    let* r := call o (SelinuxRestorecon to SELINUX_ANDROID_RESTORECON_RECURSE) in
    if negb (r =? 0) then
      let* _ := log ("Failed to restorecon " +:+ to) in ret false
    else ret true.

(** "Copy private data for all known users": [true] when the loop runs
    to its end, [false] on [goto fail]. *)
Fixpoint copy_users `{InstalldDeps} (o : oracle) (from_uuid to_uuid : option string)
    (package_name : string) (appid : Z) (seinfo : option string) (users : list Z)
    : M bool :=
  match users with
  | [] => ret true
  | user :: rest =>
      let from := create_data_user_package_path from_uuid user package_name in
      let to := create_data_user_package_path to_uuid user package_name in
      let to_parent := create_data_user_path to_uuid user in
      let* a := call o (Access from) in
      if negb (a =? 0) then
        (* Data source may not exist for all users; that's okay *)
        let* _ := log ("Missing source " +:+ from) in
        copy_users o from_uuid to_uuid package_name appid seinfo rest
      else
        let user_path := create_data_user_path to_uuid user in
        let* r := call o (FsPrepareDir user_path 505 AID_SYSTEM AID_SYSTEM) in
        if negb (r =? 0) then
          let* _ := log ("Failed to prepare user target " +:+ user_path) in ret false
        else
          let* r := create_app_data o to_uuid package_name user
                 (Z.lor FLAG_CE_STORAGE FLAG_DE_STORAGE) appid seinfo in
          if negb (r =? 0) then
            let* _ := log ("Failed to create package target " +:+ to) in ret false
          else
            let* rc := call o (ForkExecvp (cp_argv from to_parent)) in
            if negb (rc =? 0) then
              let* _ := log ("Failed copying " +:+ from +:+ " to " +:+ to) in ret false
            else
              let* r := restorecon_app_data o to_uuid (Some package_name) user
                     (Z.lor FLAG_CE_STORAGE FLAG_DE_STORAGE) appid seinfo in
              if negb (r =? 0) then
                let* _ := log "Failed to restorecon" in ret false
              else copy_users o from_uuid to_uuid package_name appid seinfo rest
  end.

(** One [delete_dir_contents(to, 1, NULL)] of the label [fail]. *)
Definition rollback_one (o : oracle) (to : string) : M unit :=
  let* r := call o (DeleteDirContents to true) in
  if negb (r =? 0) then log ("Failed to rollback " +:+ to) else ret tt.

Fixpoint rollback_users `{InstalldDeps} (o : oracle) (to_uuid : option string)
    (package_name : string) (users : list Z) : M unit :=
  match users with
  | [] => ret tt
  | user :: rest =>
      let* _ := rollback_one o (create_data_user_package_path to_uuid user package_name) in
      rollback_users o to_uuid package_name rest
  end.

(** The code after the label [fail]. *)
Definition move_fail `{InstalldDeps} (o : oracle) (to_uuid : option string)
    (package_name data_app_name : string) (users : list Z) : M Z :=
  let* _ := rollback_one o (create_data_app_package_path to_uuid data_app_name) in
  let* _ := rollback_users o to_uuid package_name users in
  ret (-1).

Definition move_complete_app `{InstalldDeps} (o : oracle) (from_uuid to_uuid : option string)
    (package_name data_app_name : string) (appid : Z) (seinfo : option string) : M Z :=
  let users := get_known_users from_uuid in
  let* ok := copy_app o from_uuid to_uuid data_app_name in
  if ok then
    let* ok := copy_users o from_uuid to_uuid package_name appid seinfo users in
    if ok then ret 0
    else move_fail o to_uuid package_name data_app_name users
  else move_fail o to_uuid package_name data_app_name users.

(** The source of a move: the app directory and the per-user package
    directories on the volume moved from. *)
Definition source_paths `{InstalldDeps} (from_uuid : option string)
    (package_name data_app_name : string) : list string :=
  create_data_app_package_path from_uuid data_app_name
  :: map (fun user => create_data_user_package_path from_uuid user package_name)
         (get_known_users from_uuid).

(** The places on the volume moved to that the call names. *)
Definition destination_roots `{InstalldDeps} (from_uuid to_uuid : option string)
    (package_name data_app_name : string) : list string :=
  create_data_app_path to_uuid
  :: create_data_app_package_path to_uuid data_app_name
  :: flat_map (fun user => [create_data_user_path to_uuid user;
                            create_data_user_package_path to_uuid user package_name;
                            create_data_user_de_package_path to_uuid user package_name])
              (get_known_users from_uuid).

(** [path] is [root] or lies below it, read on the spelling of the
    paths. *)
Definition beneath (root path : string) : bool := starts_with root path.

(** The deletions that the label [fail] asks for, in order. *)
Definition rollback_targets `{InstalldDeps} (from_uuid to_uuid : option string)
    (package_name data_app_name : string) : list string :=
  create_data_app_package_path to_uuid data_app_name
  :: map (fun user => create_data_user_package_path to_uuid user package_name)
         (get_known_users from_uuid).

Definition deletions (tr : list event) : list string :=
  omap (fun e => match e with
                 | DeleteDirContents path _ => Some path
                 | _ => None
                 end) tr.

(** The per-user package directories of both storage classes on the
    volume moved to. *)
Definition destination_package_dirs `{InstalldDeps} (from_uuid to_uuid : option string)
    (package_name : string) : list string :=
  flat_map (fun user => [create_data_user_package_path to_uuid user package_name;
                         create_data_user_de_package_path to_uuid user package_name])
           (get_known_users from_uuid).

(** An event of the copying phase: it writes only to [allowed] places
    and deletes nothing. *)
Definition copy_event (allowed : list string) (e : event) : Prop :=
  (forall w, w ∈ writes e -> w ∈ allowed)
  /\ match e with DeleteDirContents _ _ => False | _ => True end.

(** An event of the label [fail]: a recursive delete, or a warning. *)
Definition rollback_event (e : event) : Prop :=
  match e with
  | Log _ => True
  | DeleteDirContents _ true => True
  | _ => False
  end.

(** [path] was handed to a call that creates or changes it. *)
Definition written (tr : list event) (path : string) : Prop :=
  exists e, e ∈ tr /\ path ∈ writes e /\
            match e with DeleteDirContents _ _ => False | _ => True end.

End Move.

(** ** free_cache *)

Module Cache.

Record dirent := Dirent { d_name : string; d_type : Z }.

(* dirent.h, limits.h *)
Definition DT_DIR : Z := 4.
Definition PATH_MAX : Z := 4096.

(** What the surroundings decide during one call: the two answers of
    [data_disk_free], and for each directory what [opendir] followed by
    [readdir] until exhaustion yields ([None]: [opendir] fails). *)
Record env := Env {
  disk_free_before : Z;
  disk_free_after : Z;
  readdir_all : string -> option (list dirent)
}.

(** The calls into the cache collector of utils.cpp and the warnings. *)
Inductive event :=
  | StartCacheCollection
  | AddCacheFiles (basepath cachedir : string)
  | Warn (msg : string)
  | ClearCacheFiles (data_path : string) (free_size : Z)
  | FinishCacheCollection.

(** [name[n]]; [None] stands for the terminating NUL. *)
Definition char_at (n : nat) (name : string) : option ascii := String.get n name.

Definition has_subdir (e : env) (basepath dir : string) : bool :=
  match readdir_all e basepath with
  | Some entries =>
      existsb (fun de => (d_type de =? DT_DIR) && bool_decide (d_name de = dir)) entries
  | None => false
  end.

(** Modelled from the spec: [lookup_media_dir] of utils.cpp is absent from
    the sources.  A per-user media directory takes part when it "contains
    both Android/ and Android/data/": the call succeeds when [basepath]
    has the directory [dir], and then leaves the path of that directory in
    the buffer ([Some]); it fails and leaves the buffer alone otherwise. *)
Definition lookup_media_dir (e : env) (basepath dir : string) : option string :=
  if has_subdir e basepath dir then Some (basepath +:+ "/" +:+ dir) else None.

(** The always-skipped names of the first loop: "." and "..". *)
Definition skip_dot_names (name : string) : bool :=
  bool_decide (char_at 0 name = Some "."%char)
  && (bool_decide (char_at 1 name = None)
      || (bool_decide (char_at 1 name = Some "."%char)
          && bool_decide (char_at 2 name = None))).

(** One turn of the loop over the secondary users.  [base] is the part of
    [tmpdir] before [dirpos]; [tmpdir] is the buffer as the turn finds
    it.  Result: the calls made and the buffer afterwards. *)
Definition sweep_user_entry (base tmpdir : string) (de : dirent) : list event * string :=
  if d_type de =? DT_DIR then
    let name := d_name de in
    if skip_dot_names name then ([], tmpdir)
    else if strlen name + strlen base <? PATH_MAX - 1 then
      let tmpdir := base +:+ name in
      ([AddCacheFiles tmpdir "cache"], tmpdir)
    else ([Warn ("Path exceeds limit: " +:+ tmpdir +:+ name)], tmpdir)
  else ([], tmpdir).

(** "skip any dir that doesn't start with a number, so not a user". *)
Definition not_a_user (name : string) : bool :=
  match char_at 0 name with
  | Some c =>
      (nat_of_ascii c <? nat_of_ascii "0"%char)%nat
      || (nat_of_ascii "9"%char <? nat_of_ascii c)%nat
  | None => true
  end.

(** One turn of the loop over the media directory. *)
Definition sweep_media_entry (e : env) (base tmpdir : string) (de : dirent)
    : list event * string :=
  if d_type de =? DT_DIR then
    let name := d_name de in
    if not_a_user name then ([], tmpdir)
    else if strlen name + strlen base <? PATH_MAX - 1 then
      let tmpdir := base +:+ name in
      match lookup_media_dir e tmpdir "Android" with
      | Some tmpdir =>
          match lookup_media_dir e tmpdir "data" with
          | Some tmpdir => ([AddCacheFiles tmpdir "cache"], tmpdir)
          | None => ([], tmpdir)
          end
      | None => ([], tmpdir)
      end
    else ([Warn ("Path exceeds limit: " +:+ tmpdir +:+ name)], tmpdir)
  else ([], tmpdir).

(** [while ((de = readdir(d)))] around a loop body. *)
Fixpoint sweep (body : string -> dirent -> list event * string) (tmpdir : string)
    (entries : list dirent) : list event :=
  match entries with
  | [] => []
  | de :: rest =>
      let '(evs, tmpdir) := body tmpdir de in
      evs ++ sweep body tmpdir rest
  end.

Definition sweep_dir (e : env) (body : string -> dirent -> list event * string)
    (tmpdir : string) : list event :=
  match readdir_all e tmpdir with
  | Some entries => sweep body tmpdir entries
  | None => []
  end.

Definition secondary_users_dir `{InstalldDeps} (uuid : option string) : string :=
  create_data_path uuid +:+ "/" +:+ SECONDARY_USER_PREFIX.

Definition free_cache `{InstalldDeps} (e : env) (uuid : option string) (free_size : Z)
    : Z * list event :=
  let data_path := create_data_path uuid in
  let avail := disk_free_before e in
  if avail <? 0 then (-1, [])
  else if free_size <=? avail then (0, [])
  else
    (* Special case for owner on internal storage *)
    let owner :=
      match uuid with
      | None => [AddCacheFiles (create_data_user_path None 0) "cache"]
      | Some _ => []
      end in
    (* Search for other users and add any cache files from them. *)
    let tmpdir := secondary_users_dir uuid in
    let users := sweep_dir e (sweep_user_entry tmpdir) tmpdir in
    (* Collect cache files on external storage for all users *)
    let tmpdir := android_media_dir_path in
    let media := sweep_dir e (sweep_media_entry e tmpdir) tmpdir in
    (if free_size <=? disk_free_after e then 0 else -1,
     [StartCacheCollection] ++ owner ++ users ++ media
     ++ [ClearCacheFiles data_path free_size; FinishCacheCollection]).

(** The roots handed to [add_cache_files]. *)
Definition roots (evs : list event) : list string :=
  omap (fun ev => match ev with
                  | AddCacheFiles basepath _ => Some basepath
                  | _ => None
                  end) evs.

Definition warnings (evs : list event) : list string :=
  omap (fun ev => match ev with
                  | Warn msg => Some msg
                  | _ => None
                  end) evs.

Definition is_digit (c : ascii) : bool :=
  (nat_of_ascii "0"%char <=? nat_of_ascii c)%nat && (nat_of_ascii c <=? nat_of_ascii "9"%char)%nat.

(** The name begins with a digit. *)
Definition starts_with_digit (name : string) : bool :=
  match char_at 0 name with
  | Some c => is_digit c
  | None => false
  end.

Fixpoint all_digits (s : string) : bool :=
  match s with
  | EmptyString => true
  | String c rest => is_digit c && all_digits rest
  end.

(** A name that is a number. *)
Definition numeric_name (name : string) : bool :=
  negb (bool_decide (name = "")) && all_digits name.

(** The set of roots in the words of the specification: user 0 on
    internal storage, the numeric-named directories under the data root,
    and the numeric-named directories under the media root that have
    [Android/] and [Android/data/]. *)
Definition roots_as_specified `{InstalldDeps} (e : env) (uuid : option string)
    : list string :=
  let owner :=
    match uuid with
    | None => [create_data_user_path None 0]
    | Some _ => []
    end in
  let users :=
    map (fun de => secondary_users_dir uuid +:+ d_name de)
        (filter (fun de => d_type de = DT_DIR /\ numeric_name (d_name de) = true)
                (default [] (readdir_all e (secondary_users_dir uuid)))) in
  let media :=
    map (fun de => android_media_dir_path +:+ d_name de +:+ "/Android/data")
        (filter (fun de => d_type de = DT_DIR /\ numeric_name (d_name de) = true
                           /\ has_subdir e (android_media_dir_path +:+ d_name de) "Android" = true
                           /\ has_subdir e (android_media_dir_path +:+ d_name de +:+ "/Android")
                                "data" = true)
                (default [] (readdir_all e android_media_dir_path))) in
  owner ++ users ++ media.

End Cache.

(** ** idmap path flattening *)

Module Idmap.

Definition slash_to_at (c : ascii) : ascii :=
  if bool_decide (c = "/"%char) then "@"%char else c.

Definition len (s : list ascii) : Z := Z.of_nat (length s).

(** [flatten_path(prefix, suffix, overlay_path, idmap_path, N)] on
    character arrays.  [SIZE_MAX] is the largest [size_t]; sums of
    [size_t] wrap at [SIZE_MAX + 1].  [None] is the result -1; [Some s] is
    the result 0 with the string [s] left in [idmap_path]. *)
Definition flatten_path (SIZE_MAX : Z) (prefix suffix : list ascii)
    (overlay_path : option (list ascii)) (idmap_path_is_null : bool) (N : Z)
    : option (list ascii) :=
  let wrap z := z mod (SIZE_MAX + 1) in
  match overlay_path with
  | None => None
  | Some overlay_path =>
      if idmap_path_is_null then None
      else
        let len_overlay_path := len overlay_path in
        (* will access overlay_path + 1 further below; requires absolute path *)
        if (len_overlay_path <? 2)
           || negb (bool_decide (head overlay_path = Some "/"%char)) then None
        else
          let len_idmap_root := len prefix in
          let len_suffix := len suffix in
          if (SIZE_MAX - len_idmap_root <? len_overlay_path)
             || (SIZE_MAX - wrap (len_idmap_root + len_overlay_path) <? len_suffix) then
            (* additions below would cause overflow *)
            None
          else if N <? wrap (wrap (len_idmap_root + len_overlay_path) + len_suffix) then None
          else
            (* snprintf(idmap_path, N, "%s%s%s", prefix, overlay_path + 1, suffix) *)
            let written := take (Z.to_nat (N - 1)) (prefix ++ drop 1 overlay_path ++ suffix) in
            (* the loop from idmap_path + len_idmap_root to the terminator *)
            Some (take (Z.to_nat len_idmap_root) written
                  ++ map slash_to_at (drop (Z.to_nat len_idmap_root) written))
  end.

Definition chars (s : string) : list ascii := String.list_ascii_of_string s.

End Idmap.

(** ** The compiler filter in the words of the specification *)

Module FilterSpec.

(** "vold.decrypt indicates a restricted boot". *)
Definition restricted_boot (ps : gmap string string) : bool :=
  bool_decide (ps !! "vold.decrypt" = Some "trigger_restart_min_framework")
  || bool_decide (ps !! "vold.decrypt" = Some "1").

(** First match wins: restricted boot, SAFEMODE, USEJIT, the property
    "dalvik.vm.dex2oat-filter", nothing. *)
Definition compiler_filter_as_specified (ps : gmap string string)
    (SAFEMODE USEJIT : bool) : option string :=
  if restricted_boot ps then Some "verify-none"
  else if SAFEMODE then Some "interpret-only"
  else if USEJIT then Some "verify-at-runtime"
  else
    match ps !! "dalvik.vm.dex2oat-filter" with
    | Some v => if bool_decide (v = "") then None else Some v
    | None => None
    end.

Definition filter_args (choice : option string) : list string :=
  match choice with
  | Some f => ["--compiler-filter=" +:+ f]
  | None => []
  end.

Definition is_compiler_filter_arg (arg : string) : bool :=
  starts_with "--compiler-filter=" arg.

(** The tokens of "dalvik.vm.dex2oat-flags", which are passed on as they
    are. *)
Definition extra_flags (ps : gmap string string) : list string :=
  Argv.split (default "" (ps !! "dalvik.vm.dex2oat-flags")).

End FilterSpec.

(** ** An example device *)

Module Example.

Definition map_string (f : ascii -> ascii) (s : string) : string :=
  String.string_of_list_ascii (map f (String.list_ascii_of_string s)).

(** The part of [s] after the last [c]; [acc] is the answer so far. *)
Fixpoint after_last (c : ascii) (s acc : string) : string :=
  match s with
  | EmptyString => acc
  | String x rest =>
      if bool_decide (x = c) then after_last c rest rest else after_last c rest acc
  end.

Fixpoint after_first (c : ascii) (s : string) : option string :=
  match s with
  | EmptyString => None
  | String x rest => if bool_decide (x = c) then Some rest else after_first c rest
  end.

Definition before_last (c : ascii) (s : string) : string :=
  match after_first c (String.rev s) with
  | Some r => String.rev r
  | None => s
  end.

Definition basename (path : string) : string := after_last "/"%char path path.

Definition dirname (path : string) : string := before_last "/"%char path.

Definition strip_extension (name : string) : string := before_last "."%char name.

Definition data_root (uuid : option string) : string :=
  match uuid with
  | None => "/data"
  | Some u => "/mnt/expand/" +:+ u
  end.

Definition accept_prefix (prefix path : string) : Z :=
  if starts_with prefix path then 0 else -1.

(** Modelled from the spec: the constants of installd_constants.h and the
    path builders and validators of utils.cpp are absent from the
    sources.  The layout is the one of the on-disk layout section
    ([/data/app/<apk_dir>], [/data/user/<u>/<pkg>],
    [/data/user_de/<u>/<pkg>], [/data/media/<u>],
    [/data/dalvik-cache/<isa>/...]), the cache path is the flat
    [<dalvik_cache>/<isa>/<escaped apk>] of scenario 3, the oat path is
    [oat_dir/<isa>/<basename>.odex], the uid of scenario 1 is
    [user * 100000 + appid], and the idmap prefix and suffix are those of
    scenario 6.  The device knows the users 0 and 10. *)
#[export] Instance device : InstalldDeps := {
  PKG_PATH_MAX := 256;
  FLAG_CE_STORAGE := 2;
  FLAG_DE_STORAGE := 1;
  DEXOPT_DEX2OAT_NEEDED := 1;
  DEXOPT_PATCHOAT_NEEDED := 2;
  DEXOPT_SELF_PATCHOAT_NEEDED := 3;
  DEXOPT_PUBLIC := 2;
  DEXOPT_SAFEMODE := 4;
  DEXOPT_DEBUGGABLE := 8;
  DEXOPT_BOOTCOMPLETE := 16;
  DEXOPT_USEJIT := 32;
  SECONDARY_USER_PREFIX := "user/";
  IDMAP_PREFIX := "/data/resource-cache/";
  IDMAP_SUFFIX := "@idmap";
  AID_SYSTEM := 1000;
  android_media_dir_path := "/data/media/";
  create_data_path := data_root;
  create_data_app_path := fun uuid => data_root uuid +:+ "/app";
  create_data_app_package_path := fun uuid name => data_root uuid +:+ "/app/" +:+ name;
  create_data_user_path := fun uuid user => data_root uuid +:+ "/user/" +:+ pretty user;
  create_data_user_package_path := fun uuid user pkg =>
    data_root uuid +:+ "/user/" +:+ pretty user +:+ "/" +:+ pkg;
  create_data_user_de_package_path := fun uuid user pkg =>
    data_root uuid +:+ "/user_de/" +:+ pretty user +:+ "/" +:+ pkg;
  create_cache_path := fun apk isa =>
    match apk with
    | String "/" rest =>
        Some ("/data/dalvik-cache/" +:+ isa +:+ "/"
              +:+ map_string Idmap.slash_to_at rest +:+ "@classes.dex")
    | _ => None
    end;
  calculate_oat_file_path := fun oat_dir apk isa =>
    Some (oat_dir +:+ "/" +:+ isa +:+ "/" +:+ strip_extension (basename apk) +:+ ".odex");
  calculate_odex_file_path := fun apk isa =>
    Some (dirname apk +:+ "/oat/" +:+ isa +:+ "/"
          +:+ strip_extension (basename apk) +:+ ".odex");
  validate_apk_path := accept_prefix "/data/app/";
  validate_system_app_path := accept_prefix "/system/app/";
  multiuser_get_uid := fun user appid => user * 100000 + appid;
  get_known_users := fun _ => [0; 10]
}.

(** A file system with the package [/data/app/a.apk] (inode 1) and a
    stale compiled file for it (inode 2). *)
Definition apk_inode : Fs.inode := Fs.Inode false 420 1000 1000 1111 2222.

Definition stale_inode : Fs.inode := Fs.Inode false 420 1000 10042 3333 4444.

Definition out_name : string := "/data/dalvik-cache/arm64/data@app@a.apk@classes.dex".

Definition disk_with_apk : Fs.t :=
  Fs.Make {[ "/data/app/a.apk" := 1%nat ]} {[ 1%nat := apk_inode ]} 2 5000.

Definition disk_with_stale_output : Fs.t :=
  Fs.Make {[ out_name := 2%nat ]} {[ 2%nat := stale_inode ]} 3 5000.

Definition disk_with_apk_and_stale_output : Fs.t :=
  Fs.Make (<[ "/data/app/a.apk" := 1%nat ]> {[ out_name := 2%nat ]})
          (<[ 1%nat := apk_inode ]> {[ 2%nat := stale_inode ]}) 3 5000.

Definition disk_with_stale_swap : Fs.t :=
  Fs.Make (<[ "/data/app/a.apk" := 1%nat ]> {[ out_name +:+ ".swap" := 2%nat ]})
          (<[ 1%nat := apk_inode ]> {[ 2%nat := stale_inode ]}) 3 5000.

(** A package whose name leaves room for the output path in the path
    buffer, but not for the output path followed by [.swap]; a swap file
    of an earlier run lies next to where its output goes. *)
Definition long_apk : string :=
  "/data/app/" +:+ String.string_of_list_ascii (replicate 202 "a"%char) +:+ ".apk".

Definition long_out : string :=
  "/data/dalvik-cache/arm64/data@app@"
  +:+ String.string_of_list_ascii (replicate 202 "a"%char) +:+ ".apk@classes.dex".

Definition disk_with_long_apk : Fs.t :=
  Fs.Make (<[ long_apk := 1%nat ]> {[ long_out +:+ ".swap" := 2%nat ]})
          (<[ 1%nat := apk_inode ]> {[ 2%nat := stale_inode ]}) 3 5000.

(** Surroundings in which nothing fails and the compiler reports
    [status]. *)
Definition calm (ps : gmap string string) (status : Z) : Dexopt.env :=
  Dexopt.Env ps [] (fun _ => true) false false false false false false false false
    (fun _ => status) (6000, 6000) 6000.

(** Directory listings of the example device: under [/data/user/] the
    entries of two users ([0] is a symbolic link), a [lost+found], a
    hidden directory and a directory with a very long name; under
    [/data/media/] two users, of which only [0] has [Android/data]. *)
Definition long_name : string := String.string_of_list_ascii (replicate 4090 "9"%char).

Definition DT_LNK : Z := 10.

Definition listing (path : string) : option (list Cache.dirent) :=
  if bool_decide (path = "/data/user/") then
    Some [Cache.Dirent "." Cache.DT_DIR; Cache.Dirent ".." Cache.DT_DIR;
          Cache.Dirent "0" DT_LNK; Cache.Dirent "10" Cache.DT_DIR;
          Cache.Dirent "lost+found" Cache.DT_DIR; Cache.Dirent ".trash" Cache.DT_DIR;
          Cache.Dirent long_name Cache.DT_DIR]
  else if bool_decide (path = "/data/media/") then
    Some [Cache.Dirent "." Cache.DT_DIR; Cache.Dirent ".." Cache.DT_DIR;
          Cache.Dirent "0" Cache.DT_DIR; Cache.Dirent "11" Cache.DT_DIR;
          Cache.Dirent "obb" Cache.DT_DIR]
  else if bool_decide (path = "/data/media/0") then
    Some [Cache.Dirent "Android" Cache.DT_DIR; Cache.Dirent "SomeOther" Cache.DT_DIR]
  else if bool_decide (path = "/data/media/0/Android") then
    Some [Cache.Dirent "data" Cache.DT_DIR]
  else if bool_decide (path = "/data/media/11") then
    Some [Cache.Dirent "Music" Cache.DT_DIR]
  else None.

(** 10 bytes free before the sweep, 200 after. *)
Definition low_disk : Cache.env := Cache.Env 10 200 listing.

(** A helper oracle: every call succeeds except the listed ones. *)
Definition failing (bad : list Trace.event) : Trace.oracle :=
  fun _ e => if bool_decide (e ∈ bad) then -1 else 0.

End Example.

(** ** Further commands

    The remaining commands that can be told with the two models above.
    [get_app_size], [linklib], [movefiles] and the profile helpers need
    more of the file system than is modelled here and are left out. *)

(** Constants and helpers of installd_constants.h, globals.h and utils.h
    that only the commands below use. *)
Class InstalldMoreDeps := {
  AID_INSTALL : Z;
  FLAG_CLEAR_CACHE_ONLY : Z;
  FLAG_CLEAR_CODE_CACHE_ONLY : Z;
  CACHE_DIR_POSTFIX : string;
  CODE_CACHE_DIR_POSTFIX : string;
  DALVIK_CACHE : string;
  android_data_dir_path : string;
  create_data_user_de_path : option string -> Z -> string;
  create_data_media_path : option string -> Z -> string;
  (* fills a buffer and returns 0, or fails *)
  create_user_config_path : Z -> option string;
  validate_apk_path_subdirs : string -> Z
}.

(** [snprintf(buf, n, ...)]: at most [n - 1] characters of the formatted
    text arrive in the buffer. *)
Definition snprintf (n : Z) (text : string) : string :=
  String.substring 0 (Z.to_nat (n - 1)) text.

Module Lifecycle.
Import Trace.
Local Open Scope trace_scope.

(** Modelled from the spec: the [std::string] overloads of
    [delete_dir_contents] live in utils.cpp, which is absent.  The first
    deletes "the contents (preserving the top directory)", the second
    "contents and the top directory". *)
Definition delete_dir_contents (o : oracle) (pathname : string) : M Z :=
  call o (DeleteDirContents pathname false).

Definition delete_dir_contents_and_dir (o : oracle) (pathname : string) : M Z :=
  call o (DeleteDirContents pathname true).

Definition clear_suffix `{InstalldMoreDeps} (flags : Z) : string :=
  if has_flag flags FLAG_CLEAR_CACHE_ONLY then CACHE_DIR_POSTFIX
  else if has_flag flags FLAG_CLEAR_CODE_CACHE_ONLY then CODE_CACHE_DIR_POSTFIX
  else "".

(** The body shared by the two storage classes of [clear_app_data]:
    [if (access(path, F_OK) == 0) res |= delete_dir_contents(path)]. *)
Definition clear_one (o : oracle) (path : string) (res : Z) : M Z :=
  let* a := call o (Access path) in
  if a =? 0 then
    let* r := delete_dir_contents o path in
    ret (Z.lor res r)
  else ret res.

Definition clear_app_data `{InstalldDeps} `{InstalldMoreDeps} (o : oracle)
    (uuid : option string) (pkgname : string) (userid flags : Z) : M Z :=
  let suffix := clear_suffix flags in
  let res := 0 in
  let* res :=
    (if has_flag flags FLAG_CE_STORAGE then
       clear_one o (create_data_user_package_path uuid userid pkgname +:+ suffix) res
     else ret res) in
  let* res :=
    (if has_flag flags FLAG_DE_STORAGE then
       clear_one o (create_data_user_de_package_path uuid userid pkgname +:+ suffix) res
     else ret res) in
  ret res.

Definition destroy_app_data `{InstalldDeps} (o : oracle) (uuid : option string)
    (pkgname : string) (userid flags : Z) : M Z :=
  let res := 0 in
  let* res :=
    (if has_flag flags FLAG_CE_STORAGE then
       let* r := delete_dir_contents_and_dir o
                   (create_data_user_package_path uuid userid pkgname) in
       ret (Z.lor res r)
     else ret res) in
  let* res :=
    (if has_flag flags FLAG_DE_STORAGE then
       let* r := delete_dir_contents_and_dir o
                   (create_data_user_de_package_path uuid userid pkgname) in
       ret (Z.lor res r)
     else ret res) in
  ret res.

Definition delete_user `{InstalldDeps} `{InstalldMoreDeps} (o : oracle)
    (uuid : option string) (userid : Z) : M Z :=
  let res := 0 in
  let data_path := create_data_user_path uuid userid in
  let data_de_path := create_data_user_de_path uuid userid in
  let media_path := create_data_media_path uuid userid in
  let* r := delete_dir_contents_and_dir o data_path in
  let res := Z.lor res r in
  let* r := delete_dir_contents_and_dir o data_de_path in
  let res := Z.lor res r in
  let* r := delete_dir_contents_and_dir o media_path in
  let res := Z.lor res r in
  (* Config paths only exist on internal storage *)
  match uuid with
  | None =>
      match create_user_config_path userid with
      | None => ret (-1)
      | Some config_path =>
          let* r := call o (DeleteDirContents config_path true) in
          if negb (r =? 0) then ret (-1) else ret res
      end
  | Some _ => ret res
  end.

(** [S_IRWXU | S_IRWXG | S_IXOTH], 0771. *)
Definition oat_dir_mode : Z := Z.lor (Z.lor 448 56) 1.

Definition create_oat_dir `{InstalldDeps} `{InstalldMoreDeps} (o : oracle)
    (oat_dir instruction_set : string) : M Z :=
  if truthy (validate_apk_path oat_dir) then
    let* _ := log ("invalid apk path '" +:+ oat_dir +:+ "' (bad prefix)") in
    ret (-1)
  else
    let* r := call o (FsPrepareDir oat_dir oat_dir_mode AID_SYSTEM AID_INSTALL) in
    if truthy r then ret (-1)
    else
      let* r := call o (SelinuxRestorecon oat_dir 0) in
      if truthy r then
        let* _ := log ("cannot restorecon dir '" +:+ oat_dir +:+ "'") in
        ret (-1)
      else
        let oat_instr_dir := snprintf PKG_PATH_MAX (oat_dir +:+ "/" +:+ instruction_set) in
        let* r := call o (FsPrepareDir oat_instr_dir oat_dir_mode AID_SYSTEM AID_INSTALL) in
        if truthy r then ret (-1) else ret 0.

Definition rm_package_dir `{InstalldDeps} (o : oracle) (apk_path : string) : M Z :=
  if truthy (validate_apk_path apk_path) then
    let* _ := log ("invalid apk path '" +:+ apk_path +:+ "' (bad prefix)") in
    ret (-1)
  else call o (DeleteDirContents apk_path true).

(** The events that change the disk. *)
Definition mutations (tr : list event) : list event :=
  List.filter (fun e => match e with
                        | Log _ | Access _ => false
                        | _ => true
                        end) tr.

End Lifecycle.

Module Boot.
Import Fs.

Definition boot_marker_path `{InstalldMoreDeps} (instruction_set : string) : string :=
  android_data_dir_path +:+ "/" +:+ DALVIK_CACHE +:+ "/" +:+ instruction_set
  +:+ "/.booting".

(** [mark_boot_complete].  The marker path is written by [sprintf] into
    [char boot_marker_path[PKG_PATH_MAX]] without a check: a path that
    does not fit with its terminator is written past the end of the
    buffer, after which the call has no defined result ([None]). *)
Definition mark_boot_complete `{InstalldDeps} `{InstalldMoreDeps}
    (instruction_set : string) (fs : Fs.t) : option (Z * Fs.t) :=
  let boot_marker_path := boot_marker_path instruction_set in
  if PKG_PATH_MAX <=? strlen boot_marker_path then None
  else
    Some match unlink boot_marker_path fs with
         | (Errno _, fs) => (-1, fs)
         | (Ok, fs) => (0, fs)
         end.

(** [link(from, to)] as root: a second name for the file behind [from].
    Whether the new name can be made where it is asked for (parent
    directory, same file system) is decided by [linkable]. *)
Definition link (linkable : bool) (from to : string) (fs : Fs.t) : sysret * Fs.t :=
  match names fs !! from with
  | None => (Errno ENOENT, fs)
  | Some ino =>
      match names fs !! to with
      | Some _ => (Errno EEXIST, fs)
      | None =>
          if linkable then
            (Ok, Make (<[to := ino]> (names fs)) (inodes fs) (next_ino fs) (clock fs))
          else (Errno ENOENT, fs)
      end
  end.

Definition link_file `{InstalldDeps} `{InstalldMoreDeps} (linkable : bool)
    (relative_path from_base to_base : string) (fs : Fs.t) : Z * Fs.t :=
  let from_path := snprintf PKG_PATH_MAX (from_base +:+ "/" +:+ relative_path) in
  let to_path := snprintf PKG_PATH_MAX (to_base +:+ "/" +:+ relative_path) in
  if truthy (validate_apk_path_subdirs from_path) then (-1, fs)
  else if truthy (validate_apk_path_subdirs to_path) then (-1, fs)
  else
    match link linkable from_path to_path fs with
    | (Errno _, fs) => (-1, fs)
    | (Ok, fs) => (0, fs)
    end.

End Boot.

Module IdmapCmd.
Import Fs Dexopt.

(** [run_idmap]: the arguments of [execl]. *)
Definition run_idmap (target_apk overlay_apk : string) (idmap_fd : Z)
    : string * list string :=
  let IDMAP_BIN := "/system/bin/idmap" in
  let idmap_str := snprintf 32 (Argv.fmt_d idmap_fd) in
  (IDMAP_BIN, [IDMAP_BIN; "--fd"; target_apk; overlay_apk; idmap_str]).

(** The [pid == 0] branch of [idmap]. *)
Definition idmap_child (e : env) (target_apk overlay_apk : string) (idmap_fd : Z)
    : child_end :=
  if setgid_fails e then ChildExit 1
  else if setuid_fails e then ChildExit 1
  else if flock_fails e then ChildExit 1
  else
    let '(bin, argv) := run_idmap target_apk overlay_apk idmap_fd in
    ChildExec bin argv.

(** The path of the idmap file: [flatten_path] on the characters of the
    constants and of the overlay path, [PATH_MAX] being the size of the
    buffer. *)
Definition idmap_path_of `{InstalldDeps} (SIZE_MAX : Z) (overlay_apk : option string)
    : option string :=
  String.string_of_list_ascii <$>
    Idmap.flatten_path SIZE_MAX (Idmap.chars IDMAP_PREFIX) (Idmap.chars IDMAP_SUFFIX)
      (Idmap.chars <$> overlay_apk) false Cache.PATH_MAX.

(** The code after the label [fail]. *)
Definition idmap_fail (idmap_fd : option nat) (idmap_path : string) (fs : Fs.t)
    : Z * Fs.t :=
  match idmap_fd with
  | Some _ => (-1, snd (unlink idmap_path fs))
  | None => (-1, fs)
  end.

(** [idmap]; of the surroundings [e] the compiler-only parts are not
    used.  A running [idmap] stamps the file it writes. *)
Definition idmap `{InstalldDeps} (SIZE_MAX : Z) (e : env) (target_apk : string)
    (overlay_apk : option string) (uid : Z) (fs : Fs.t) : Z * Fs.t :=
  match idmap_path_of SIZE_MAX overlay_apk with
  | None => (-1, fs)
  | Some idmap_path =>
      let fs := snd (unlink idmap_path fs) in
      match open_creat_excl (creatable e idmap_path) idmap_path 420 fs with
      | None => idmap_fail None idmap_path fs
      | Some (idmap_fd, fs) =>
          if fchown_fails e then idmap_fail (Some idmap_fd) idmap_path fs
          else
            let fs := fchown idmap_fd AID_SYSTEM uid fs in
            if fchmod_fails e then idmap_fail (Some idmap_fd) idmap_path fs
            else
              let fs :=
                fchmod idmap_fd (Z.lor (Z.lor (Z.lor S_IRUSR S_IWUSR) S_IRGRP) S_IROTH) fs in
              let ce := idmap_child e target_apk (default "" overlay_apk)
                          (Z.of_nat idmap_fd) in
              let fs :=
                match ce with
                | ChildExit _ => fs
                | ChildExec _ _ =>
                    on_inode (set_times (fst (child_out_times e)) (snd (child_out_times e)))
                      idmap_fd fs
                end in
              let status := wait_child e ce in
              if negb (status =? 0) then idmap_fail (Some idmap_fd) idmap_path fs
              else (0, fs)
      end
  end.

End IdmapCmd.

Module ArgvSize.
Import Props Argv.

(** The number of slots of the array [argv] that [run_dex2oat] declares,
    from the same readings of the properties. *)
Definition run_dex2oat_argv_slots (ps : gmap string string) (swap_fd : Z)
    (instruction_set : string)
    (vm_safe_mode debuggable post_bootcomplete use_jit : bool)
    (profile_files_fd reference_profile_files_fd : list Z) : Z :=
  let have_dex2oat_Xms_flag := 0 <? (get_property ps "dalvik.vm.dex2oat-Xms" None).1 in
  let have_dex2oat_Xmx_flag := 0 <? (get_property ps "dalvik.vm.dex2oat-Xmx" None).1 in
  let '(n_filter, dex2oat_compiler_filter_flag) :=
    get_property ps "dalvik.vm.dex2oat-filter" None in
  let have_dex2oat_threads_flag :=
    0 <? (get_property ps (if post_bootcomplete then "dalvik.vm.dex2oat-threads"
                           else "dalvik.vm.boot-dex2oat-threads") None).1 in
  let have_dex2oat_isa_features :=
    0 <? (get_property ps ("dalvik.vm.isa." +:+ instruction_set +:+ ".features") None).1 in
  let have_dex2oat_isa_variant :=
    0 <? (get_property ps ("dalvik.vm.isa." +:+ instruction_set +:+ ".variant") None).1 in
  let '(n_flags, dex2oat_flags) := get_property ps "dalvik.vm.dex2oat-flags" None in
  let dex2oat_flags_count := if n_flags <=? 0 then 0 else split_count dex2oat_flags in
  let generate_debug_info := check_boolean_property ps "debug.generate-debug-info" false in
  let have_dex2oat_swap_fd := 0 <=? swap_fd in
  let use_jit := use_jit || check_boolean_property ps "debug.usejit" false in
  let '(have_dex2oat_compiler_filter_flag, _, have_dex2oat_relocation_skip_flag) :=
    compiler_filter_chain (skip_compilation_of ps) vm_safe_mode use_jit
      (0 <? n_filter) dex2oat_compiler_filter_flag in
  let debuggable :=
    if negb debuggable then
      let '(n_dbg, prop_buf) := get_property ps "dalvik.vm.always_debuggable" (Some "0") in
      (0 <? n_dbg) && bool_decide (first_char prop_buf = "1"%char)
    else debuggable in
  7  (* program name, mandatory arguments and the final NULL *)
  + (if have_dex2oat_isa_variant then 1 else 0)
  + (if have_dex2oat_isa_features then 1 else 0)
  + (if have_dex2oat_Xms_flag then 2 else 0)
  + (if have_dex2oat_Xmx_flag then 2 else 0)
  + (if have_dex2oat_compiler_filter_flag then 1 else 0)
  + (if have_dex2oat_threads_flag then 1 else 0)
  + (if have_dex2oat_swap_fd then 1 else 0)
  + (if have_dex2oat_relocation_skip_flag then 2 else 0)
  + (if generate_debug_info then 1 else 0)
  + (if debuggable then 1 else 0)
  + dex2oat_flags_count
  + Z.of_nat (length profile_files_fd)
  + Z.of_nat (length reference_profile_files_fd).

(** The tokens joined by single blanks. *)
Fixpoint join_tokens (tokens : list string) : string :=
  match tokens with
  | [] => ""
  | [t] => t
  | t :: rest => t +:+ " " +:+ join_tokens rest
  end.

Definition space_free (s : string) : Prop :=
  Forall (fun c => c <> " "%char) (String.list_ascii_of_string s).

End ArgvSize.

Module MoreExamples.

(** Modelled from the spec: the further constants on the example device,
    with the layout [/data/user_de/<u>], [/data/media/<u>] and the cache
    directory names of the app-data layout. *)
#[export] Instance more_device : InstalldMoreDeps := {
  AID_INSTALL := 1012;
  FLAG_CLEAR_CACHE_ONLY := 256;
  FLAG_CLEAR_CODE_CACHE_ONLY := 512;
  CACHE_DIR_POSTFIX := "/cache";
  CODE_CACHE_DIR_POSTFIX := "/code_cache";
  DALVIK_CACHE := "dalvik-cache";
  android_data_dir_path := "/data";
  create_data_user_de_path := fun uuid user =>
    Example.data_root uuid +:+ "/user_de/" +:+ pretty user;
  create_data_media_path := fun uuid user =>
    Example.data_root uuid +:+ "/media/" +:+ pretty user;
  create_user_config_path := fun user => Some ("/data/misc/user/" +:+ pretty user);
  validate_apk_path_subdirs := Example.accept_prefix "/data/app/"
}.

Definition marker_inode : Fs.inode := Fs.Inode false 420 0 0 100 100.

Definition booting_disk : Fs.t :=
  Fs.Make {[ "/data/dalvik-cache/arm64/.booting" := 1%nat ]} {[ 1%nat := marker_inode ]}
          2 5000.

Definition disk_with_split : Fs.t :=
  Fs.Make {[ "/data/app/com.x-1/base.apk" := 1%nat ]} {[ 1%nat := Example.apk_inode ]}
          2 5000.

End MoreExamples.

(** ** What a call leaves alone *)

Module Frame.
Import Fs.

(** Everything [stat] reports of a file except its access time. *)
Definition same_file (nd nd' : inode) : Prop :=
  st_isdir nd' = st_isdir nd /\ st_mode nd' = st_mode nd
  /\ st_uid nd' = st_uid nd /\ st_gid nd' = st_gid nd
  /\ st_mtime nd' = st_mtime nd.

(** The files with an inode number below [n] are all still there, changed
    at most in their access time. *)
Definition keeps_files (n : nat) (fs fs' : t) : Prop :=
  forall i nd, (i < n)%nat -> inodes fs !! i = Some nd ->
    exists nd', inodes fs' !! i = Some nd' /\ same_file nd nd'.

End Frame.

Module MoveProtocol.
Import Trace.

(** The argument vectors handed to [android_fork_execvp], in order. *)
Definition copies (tr : list event) : list (list string) :=
  omap (fun e => match e with
                 | ForkExecvp argv => Some argv
                 | _ => None
                 end) tr.

End MoveProtocol.

Module CacheProtocol.
Import Cache.

(** A call that adds a root to the collection, or a warning. *)
Definition collecting (ev : event) : Prop :=
  (exists basepath, ev = AddCacheFiles basepath "cache") \/ (exists msg, ev = Warn msg).

End CacheProtocol.

(** * Properties *)

(* naive_solver clears hypotheses that are already gone *)
#[local] Set Warnings "-clear-no-such-hyp".

(** ** Properties of the property store *)

Section PropsFacts.
Import Props.

Lemma strlen_pos_iff (v : string) : (0 <? strlen v) = negb (bool_decide (v = "")).
Proof.
  destruct v as [|c v]; [reflexivity|].
  unfold strlen. cbn [String.length].
  destruct (0 <? Z.of_nat (S (String.length v))) eqn:E; [reflexivity|].
  apply Z.ltb_ge in E. lia.
Qed.

(** With a null or empty default, the length returned by [get_property]
    is positive exactly for a property that is set and not empty, and the
    buffer then holds its value. *)
Lemma get_property_present (ps : gmap string string) (key : string)
    (dflt : option string) :
  dflt = None \/ dflt = Some "" ->
  match ps !! key with
  | Some v => if bool_decide (v = "") then get_property ps key dflt = (0, "")
              else get_property ps key dflt = (strlen v, v) /\ (0 <? strlen v) = true
  | None => get_property ps key dflt = (0, "")
  end.
Proof.
  intros Hd. unfold get_property.
  destruct (ps !! key) as [v|] eqn:E.
  - case_bool_decide as Hv.
    + rewrite decide_True by done. by destruct Hd as [-> | ->].
    + rewrite decide_False by done. split; [done|].
      rewrite strlen_pos_iff. by rewrite bool_decide_false.
  - by destruct Hd as [-> | ->].
Qed.

Lemma check_boolean_property_true (ps : gmap string string) (key : string) :
  check_boolean_property ps key false = true <-> ps !! key = Some "true".
Proof.
  unfold check_boolean_property.
  pose proof (get_property_present ps key None (or_introl eq_refl)) as Hg.
  destruct (ps !! key) as [v|] eqn:E.
  - case_bool_decide as Hv.
    + rewrite Hg. simpl. subst v. split; [done|]. intros [=].
    + destruct Hg as [-> Hpos]. rewrite Hpos. simpl.
      rewrite bool_decide_eq_true. split; [by intros ->|by intros [=]].
  - rewrite Hg. simpl. split; done.
Qed.

End PropsFacts.

(** ** Swap-file policy *)

(** The policy function over its two switches: the always-override; else
    "dalvik.vm.dex2oat-swap" present and equal to "true" (present with
    another value: no swap); else, the property being absent, the
    compile-time default; else "ro.config.low_ram" equal to "true". *)
Lemma should_use_swap_iff (always_provide default_provide : bool)
    (ps : gmap string string) :
  Swap.should_use_swap always_provide default_provide ps = true <->
    always_provide = true
    \/ (always_provide = false
        /\ ps !! "dalvik.vm.dex2oat-swap" = Some "true")
    \/ (always_provide = false
        /\ ~ Props.present ps "dalvik.vm.dex2oat-swap"
        /\ default_provide = true)
    \/ (always_provide = false
        /\ ~ Props.present ps "dalvik.vm.dex2oat-swap"
        /\ default_provide = false
        /\ ps !! "ro.config.low_ram" = Some "true").
Proof.
  unfold Swap.should_use_swap, Props.present.
  destruct always_provide; [naive_solver|].
  pose proof (get_property_present ps "dalvik.vm.dex2oat-swap" (Some "")
                (or_intror eq_refl)) as Hg.
  pose proof (check_boolean_property_true ps "ro.config.low_ram") as Hlow.
  destruct (ps !! "dalvik.vm.dex2oat-swap") as [v|] eqn:E.
  - case_bool_decide as Hv.
    + rewrite Hg. simpl. subst v.
      destruct default_provide; [naive_solver|].
      destruct (Props.check_boolean_property ps "ro.config.low_ram" false);
        naive_solver.
    + destruct Hg as [-> ->].
      case_bool_decide as Ht; naive_solver.
  - rewrite Hg. simpl.
    destruct default_provide; [naive_solver|].
    destruct (Props.check_boolean_property ps "ro.config.low_ram" false);
      naive_solver.
Qed.

(** ** restorecon_app_data *)

Section RestoreconFacts.
Context `{InstalldDeps}.
Import Trace AppData.

(** C9: with both storage classes enabled, the result is -1 when the
    re-labelling of the CE directory fails and 0 when it succeeds,
    whatever the re-labelling of the DE directory answers; a failure on
    the DE directory only adds a line to the log. *)
Theorem restorecon_app_data_ce_de (o : oracle) (uuid : option string)
    (pkgName : string) (userid flags appid : Z) (seinfo : string) (tr : list event) :
  has_flag flags FLAG_CE_STORAGE = true ->
  has_flag flags FLAG_DE_STORAGE = true ->
  let uid := multiuser_get_uid userid appid in
  let ce_path := create_data_user_package_path uuid userid pkgName in
  let de_path := create_data_user_de_package_path uuid userid pkgName in
  let ce := SelinuxRestoreconPkgdir ce_path (Some seinfo) uid
              SELINUX_ANDROID_RESTORECON_RECURSE in
  let de := SelinuxRestoreconPkgdir de_path (Some seinfo) uid
              SELINUX_ANDROID_RESTORECON_RECURSE in
  let after_ce :=
    tr ++ [ce] ++ (if o tr ce <? 0 then [Log ("restorecon failed for " +:+ ce_path)]
                   else []) in
  let run := restorecon_app_data o uuid (Some pkgName) userid flags appid (Some seinfo) tr in
  (o tr ce < 0 -> run.1 = -1)
  /\ (0 <= o tr ce -> run.1 = 0)
  /\ run.2 = after_ce ++ [de]
             ++ (if o after_ce de <? 0 then [Log ("restorecon failed for " +:+ de_path)]
                 else []).
Proof.
  intros Hce Hde. cbv zeta.
  unfold restorecon_app_data, bind, call, log, ret. rewrite Hce, Hde.
  destruct (o tr _ <? 0) eqn:E1; cbn -[Z.ltb].
  - apply Z.ltb_lt in E1.
    rewrite <- !(assoc_L (++)). cbn -[Z.ltb].
    destruct (o _ _ <? 0) eqn:E2; cbn; (split; [done|split; [lia|]]);
      by rewrite <- ?(assoc_L (++)).
  - apply Z.ltb_ge in E1.
    destruct (o _ _ <? 0) eqn:E2; cbn; (split; [lia|split; [done|]]);
      by rewrite <- ?(assoc_L (++)).
Qed.

End RestoreconFacts.

(** ** rm_dex *)

Section RmDexFacts.
Context `{InstalldDeps}.

(** C10: for a valid apk path whose cache path has no entry on disk,
    [rm_dex] returns -1; the failed [unlink] changes nothing and, the
    error being ENOENT, logs nothing. *)
Theorem rm_dex_missing_is_failure (path instruction_set dex_path : string) (fs : Fs.t) :
  validate_apk_path path = 0 \/ validate_system_app_path path = 0 ->
  create_cache_path path instruction_set = Some dex_path ->
  Fs.names fs !! dex_path = None ->
  Fs.unlink dex_path fs = (Fs.Errno Fs.ENOENT, fs)
  /\ RmDex.rm_dex path instruction_set fs = (-1, fs, []).
Proof.
  intros Hvalid Hpath Hmissing.
  assert (Hu : Fs.unlink dex_path fs = (Fs.Errno Fs.ENOENT, fs)).
  { unfold Fs.unlink. by rewrite Hmissing. }
  split; [done|].
  unfold RmDex.rm_dex. rewrite Hpath, Hu.
  assert (truthy (validate_apk_path path) && truthy (validate_system_app_path path) = false)
    as ->.
  { unfold truthy. destruct Hvalid as [-> | ->]; simpl; [done|].
    by rewrite andb_false_r. }
  reflexivity.
Qed.

End RmDexFacts.

Section AppDataWitnesses.
Import Example.

(** On the example device: user 10, both classes, the DE re-labelling
    fails and the call still returns 0 with the failure in the log. *)
Lemma restorecon_app_data_ce_de_witness :
  let de := Trace.SelinuxRestoreconPkgdir "/data/user_de/10/com.x" (Some "platform")
              1010123 AppData.SELINUX_ANDROID_RESTORECON_RECURSE in
  let run := AppData.restorecon_app_data (failing [de]) None (Some "com.x")
               10 3 10123 (Some "platform") [] in
  has_flag 3 FLAG_CE_STORAGE = true
  /\ has_flag 3 FLAG_DE_STORAGE = true
  /\ run.1 = 0
  /\ last run.2 = Some (Trace.Log "restorecon failed for /data/user_de/10/com.x").
Proof.
  cbv zeta.
  split; [reflexivity|]. split; [reflexivity|].
  pose proof (restorecon_app_data_ce_de
                (failing
                   [Trace.SelinuxRestoreconPkgdir "/data/user_de/10/com.x"
                      (Some "platform") 1010123 AppData.SELINUX_ANDROID_RESTORECON_RECURSE])
                None "com.x" 10 3 10123 "platform" [] eq_refl eq_refl) as Hthm.
  cbv zeta in Hthm. destruct Hthm as (_ & Hzero & Htrace).
  split.
  - apply Hzero. vm_compute. discriminate.
  - rewrite Htrace. vm_compute. reflexivity.
Defined.

(** On the example device: the cache file of [/data/app/a.apk] is not
    there. *)
Lemma rm_dex_missing_is_failure_witness :
  (validate_apk_path "/data/app/a.apk" = 0
   \/ validate_system_app_path "/data/app/a.apk" = 0)
  /\ create_cache_path "/data/app/a.apk" "arm64" = Some out_name
  /\ Fs.names disk_with_apk !! out_name = None
  /\ RmDex.rm_dex "/data/app/a.apk" "arm64" disk_with_apk = (-1, disk_with_apk, []).
Proof.
  assert (H1 : validate_apk_path "/data/app/a.apk" = 0
               \/ validate_system_app_path "/data/app/a.apk" = 0)
    by (left; reflexivity).
  assert (H2 : create_cache_path "/data/app/a.apk" "arm64" = Some out_name)
    by reflexivity.
  assert (H3 : Fs.names disk_with_apk !! out_name = None) by (vm_compute; reflexivity).
  split; [exact H1|]. split; [exact H2|]. split; [exact H3|].
  exact (proj2 (rm_dex_missing_is_failure "/data/app/a.apk" "arm64" out_name
                  disk_with_apk H1 H2 H3)).
Defined.

End AppDataWitnesses.

(** ** flatten_path *)

Section FlattenFacts.
Import Idmap.

Lemma slash_to_at_no_slash (s : list ascii) :
  Forall (fun c => c <> "/"%char) s -> map slash_to_at s = s.
Proof.
  induction 1 as [|c s Hc _ IH]; [reflexivity|].
  cbn [map]. rewrite IH. unfold slash_to_at. by rewrite bool_decide_false.
Qed.

Lemma slash_to_at_result (s : list ascii) :
  Forall (fun c => c <> "/"%char) (map slash_to_at s).
Proof.
  induction s as [|c s IH]; constructor; [|done].
  unfold slash_to_at. case_bool_decide; [discriminate|done].
Qed.

(** What a successful call leaves in the buffer, whatever the suffix:
    the prefix, then the rest of the path and the suffix with every '/'
    turned into '@'. *)
Lemma flatten_path_success (SIZE_MAX : Z) (prefix suffix rest : list ascii) (N : Z) :
  rest <> [] ->
  len prefix + len ("/"%char :: rest) + len suffix <= SIZE_MAX ->
  len prefix + len ("/"%char :: rest) + len suffix <= N ->
  flatten_path SIZE_MAX prefix suffix (Some ("/"%char :: rest)) false N
  = Some (prefix ++ map slash_to_at (rest ++ suffix)).
Proof.
  intros Hrest Hmax HN. unfold flatten_path, len in *.
  destruct rest as [|c rest]; [done|].
  cbn [length] in *.
  assert (HltA : (Z.of_nat (S (S (length rest))) <? 2) = false) by (apply Z.ltb_ge; lia).
  rewrite HltA. cbn [head]. rewrite bool_decide_true by done. cbn [negb orb].
  rewrite !Z.mod_small by lia.
  assert (Hov : (SIZE_MAX - Z.of_nat (length prefix) <? Z.of_nat (S (S (length rest))))
                || (SIZE_MAX - (Z.of_nat (length prefix) + Z.of_nat (S (S (length rest))))
                    <? Z.of_nat (length suffix)) = false).
  { apply orb_false_iff. split; apply Z.ltb_ge; lia. }
  rewrite Hov.
  assert (HN' : (N <? Z.of_nat (length prefix) + Z.of_nat (S (S (length rest)))
                      + Z.of_nat (length suffix)) = false) by (apply Z.ltb_ge; lia).
  rewrite HN'. cbn [drop].
  rewrite (take_ge (prefix ++ _)); last first.
  { rewrite !length_app. cbn [length]. lia. }
  rewrite Nat2Z.id, take_app_length, drop_app_length. reflexivity.
Qed.

(** C8: for an absolute overlay path the buffer receives the prefix, the
    path without its leading '/' and with every '/' replaced by '@', and
    the suffix ('/'-free, as the idmap suffix is); the result is -1 for
    every input that is not an absolute path of length at least 2, when
    the sum of the lengths exceeds [SIZE_MAX], and when it exceeds the
    size of the buffer. *)
Theorem flatten_path_spec (SIZE_MAX : Z) (prefix suffix : list ascii) (N : Z) :
  (forall rest : list ascii,
      rest <> [] ->
      Forall (fun c => c <> "/"%char) suffix ->
      len prefix + len ("/"%char :: rest) + len suffix <= SIZE_MAX ->
      len prefix + len ("/"%char :: rest) + len suffix <= N ->
      flatten_path SIZE_MAX prefix suffix (Some ("/"%char :: rest)) false N
      = Some (prefix ++ map slash_to_at rest ++ suffix))
  /\ (forall (overlay_path : option (list ascii)) (null_buffer : bool),
        match overlay_path with
        | None => True
        | Some p => len p < 2 \/ head p <> Some "/"%char
        end ->
        flatten_path SIZE_MAX prefix suffix overlay_path null_buffer N = None)
  /\ (forall (overlay_path : list ascii) (null_buffer : bool),
        len prefix <= SIZE_MAX -> len overlay_path <= SIZE_MAX -> len suffix <= SIZE_MAX ->
        SIZE_MAX < len prefix + len overlay_path + len suffix ->
        flatten_path SIZE_MAX prefix suffix (Some overlay_path) null_buffer N = None)
  /\ (forall (overlay_path : list ascii) (null_buffer : bool),
        len prefix + len overlay_path + len suffix <= SIZE_MAX ->
        N < len prefix + len overlay_path + len suffix ->
        flatten_path SIZE_MAX prefix suffix (Some overlay_path) null_buffer N = None).
Proof.
  repeat split.
  - intros rest Hrest Hsuffix Hmax HN.
    rewrite flatten_path_success by done.
    by rewrite map_app, (slash_to_at_no_slash suffix).
  - intros [p|] null_buffer Hbad; [|reflexivity].
    unfold flatten_path. destruct null_buffer; [reflexivity|].
    destruct Hbad as [Hshort | Hhead].
    + assert ((len p <? 2) = true) as -> by (apply Z.ltb_lt; lia). reflexivity.
    + rewrite (bool_decide_false _ Hhead). cbn [negb]. by rewrite orb_true_r.
  - intros p null_buffer Hp Ho Hs Hsum.
    unfold flatten_path. destruct null_buffer; [reflexivity|].
    destruct (_ || _); [reflexivity|].
    destruct (SIZE_MAX - len prefix <? len p) eqn:E1; [reflexivity|].
    apply Z.ltb_ge in E1. cbn [orb].
    assert (0 <= len prefix /\ 0 <= len p) as [? ?] by (unfold len; lia).
    rewrite (Z.mod_small (len prefix + len p)) by lia.
    assert ((SIZE_MAX - (len prefix + len p) <? len suffix) = true) as ->
      by (apply Z.ltb_lt; lia).
    reflexivity.
  - intros p null_buffer Hmax HN.
    unfold flatten_path. destruct null_buffer; [reflexivity|].
    destruct (_ || _); [reflexivity|].
    destruct (_ || _); [reflexivity|].
    assert (0 <= len prefix /\ 0 <= len p /\ 0 <= len suffix) as (? & ? & ?)
      by (unfold len; lia).
    rewrite (Z.mod_small (len prefix + len p)) by lia.
    rewrite Z.mod_small by lia.
    assert ((N <? len prefix + len p + len suffix) = true) as -> by (apply Z.ltb_lt; lia).
    reflexivity.
Qed.

(** The example of the specification, with the prefix and suffix of the
    example device and a 64-bit [size_t]; a relative path, a sum that
    overflows a (small) [size_t], and a buffer that is too small. *)
Lemma flatten_path_spec_witness :
  flatten_path (2 ^ 64 - 1) (chars "/data/resource-cache/") (chars "@idmap")
    (Some (chars "/a/b/c.apk")) false Cache.PATH_MAX
  = Some (chars "/data/resource-cache/a@b@c.apk@idmap")
  /\ flatten_path (2 ^ 64 - 1) (chars "/data/resource-cache/") (chars "@idmap")
       (Some (chars "a/b/c.apk")) false Cache.PATH_MAX = None
  /\ flatten_path 31 (chars "/data/resource-cache/") (chars "@idmap")
       (Some (chars "/a/b/c.apk")) false Cache.PATH_MAX = None
  /\ flatten_path (2 ^ 64 - 1) (chars "/data/resource-cache/") (chars "@idmap")
       (Some (chars "/a/b/c.apk")) false 36 = None.
Proof.
  split; [|split; [|split]].
  - apply (proj1 (flatten_path_spec (2 ^ 64 - 1) (chars "/data/resource-cache/")
                    (chars "@idmap") Cache.PATH_MAX) (chars "a/b/c.apk")).
    + discriminate.
    + vm_compute. repeat constructor; discriminate.
    + vm_compute. discriminate.
    + vm_compute. discriminate.
  - apply (proj1 (proj2 (flatten_path_spec (2 ^ 64 - 1) (chars "/data/resource-cache/")
                           (chars "@idmap") Cache.PATH_MAX))
             (Some (chars "a/b/c.apk")) false).
    right. vm_compute. discriminate.
  - apply (proj1 (proj2 (proj2 (flatten_path_spec 31 (chars "/data/resource-cache/")
                                  (chars "@idmap") Cache.PATH_MAX)))
             (chars "/a/b/c.apk") false); vm_compute; (discriminate || reflexivity).
  - apply (proj2 (proj2 (proj2 (flatten_path_spec (2 ^ 64 - 1)
                                  (chars "/data/resource-cache/") (chars "@idmap") 36)))
             (chars "/a/b/c.apk") false); vm_compute; (discriminate || reflexivity).
Defined.

End FlattenFacts.

(** ** The dex2oat argument vector *)

Section ArgvFacts.
Import Props Argv FilterSpec.

Lemma skip_compilation_restricted (ps : gmap string string) :
  skip_compilation_of ps = restricted_boot ps.
Proof.
  unfold skip_compilation_of, restricted_boot.
  pose proof (get_property_present ps "vold.decrypt" (Some "") (or_intror eq_refl)) as Hg.
  destruct (ps !! "vold.decrypt") as [v|] eqn:E.
  - case_bool_decide as Hv.
    + rewrite Hg. subst v. reflexivity.
    + destruct Hg as [-> ->]. cbn [andb].
      f_equal; apply bool_decide_ext; split; congruence.
  - rewrite Hg. reflexivity.
Qed.

(** The chain of [run_dex2oat] picks the filter by first match. *)
Lemma compiler_filter_chain_spec (ps : gmap string string) (safe jit : bool) :
  let '(n, v) := get_property ps "dalvik.vm.dex2oat-filter" None in
  let '(have, arg, noreloc) :=
    compiler_filter_chain (skip_compilation_of ps) safe jit (0 <? n) v in
  (if have then [arg] else []) = filter_args (compiler_filter_as_specified ps safe jit)
  /\ noreloc = restricted_boot ps.
Proof.
  pose proof (get_property_present ps "dalvik.vm.dex2oat-filter" None (or_introl eq_refl))
    as Hg.
  rewrite skip_compilation_restricted.
  unfold compiler_filter_chain, compiler_filter_as_specified.
  destruct (ps !! "dalvik.vm.dex2oat-filter") as [v|] eqn:E.
  - case_bool_decide as Hv.
    + rewrite Hg. by destruct (restricted_boot ps), safe, jit.
    + destruct Hg as [-> ->]. by destruct (restricted_boot ps), safe, jit.
  - rewrite Hg. by destruct (restricted_boot ps), safe, jit.
Qed.

(** The tokens of "dalvik.vm.dex2oat-flags" are appended as they are. *)
Lemma dex2oat_flags_tokens (ps : gmap string string) :
  let '(n_flags, dex2oat_flags) := get_property ps "dalvik.vm.dex2oat-flags" None in
  (if truthy (if n_flags <=? 0 then 0 else split_count dex2oat_flags)
   then split dex2oat_flags else []) = extra_flags ps.
Proof.
  pose proof (get_property_present ps "dalvik.vm.dex2oat-flags" None (or_introl eq_refl))
    as Hg.
  unfold extra_flags.
  destruct (ps !! "dalvik.vm.dex2oat-flags") as [v|] eqn:E; cbn [default from_option id].
  - case_bool_decide as Hv.
    + rewrite Hg. subst v. reflexivity.
    + destruct Hg as [-> Hpos].
      assert ((strlen v <=? 0) = false) as ->.
      { apply Z.leb_gt. by apply Z.ltb_lt. }
      unfold truthy, split_count, split.
      destruct (strtok_all _ v None) as [|t ts]; reflexivity.
  - rewrite Hg. reflexivity.
Qed.

Lemma filter_slot_none {A} (f : A -> bool) (b : bool) (l : list A) :
  List.forallb (fun x => negb (f x)) l = true ->
  List.filter f (if b then l else []) = [].
Proof.
  intros Hl. destruct b; [|reflexivity].
  induction l as [|x l IH]; [reflexivity|].
  cbn in *. apply andb_true_iff in Hl as [Hx Hl].
  destruct (f x); [discriminate|]. by apply IH.
Qed.

Lemma decompose_here {A} (mid after : list A) :
  exists before after', mid ++ after = before ++ mid ++ after'.
Proof. by exists [], after. Qed.

Lemma decompose_skip {A} (x l mid : list A) :
  (exists before after, l = before ++ mid ++ after) ->
  exists before after, x ++ l = before ++ mid ++ after.
Proof.
  intros (before & after & ->). exists (x ++ before), after.
  by rewrite (assoc_L (++)).
Qed.

Lemma filter_args_kept (choice : option string) :
  List.filter is_compiler_filter_arg (filter_args choice) = filter_args choice.
Proof. destruct choice; reflexivity. Qed.

Lemma filter_profile_args (f : string -> bool) (pairs : list (Z * Z)) :
  (forall s, f ("--profile-file-fd=" +:+ s) = false) ->
  (forall s, f ("--reference-profile-file-fd=" +:+ s) = false) ->
  List.filter f
    (flat_map (fun '(p, r) => ["--profile-file-fd=" +:+ fmt_d p;
                               "--reference-profile-file-fd=" +:+ fmt_d r]) pairs) = [].
Proof.
  intros Hp Hr. induction pairs as [|[p r] pairs IH]; [reflexivity|].
  cbn [flat_map]. rewrite List.filter_app, IH.
  cbn [List.filter]. by rewrite Hp, Hr.
Qed.

End ArgvFacts.

Section Dex2oatFilter.
Import Props Argv FilterSpec.

(** C4 as the code has it: the compiler filter is chosen by first match
    among restricted boot ([verify-none], and [--runtime-arg
    -Xnorelocate] is added), SAFEMODE ([interpret-only]), USEJIT or the
    property "debug.usejit" being "true" ([verify-at-runtime]), the
    property "dalvik.vm.dex2oat-filter" when present, and no argument
    otherwise.  Apart from what "dalvik.vm.dex2oat-flags" passes through,
    the vector has no other [--compiler-filter=] or [-Xnorelocate]
    argument. *)
Theorem run_dex2oat_compiler_filter (ps : gmap string string) (zip_fd oat_fd : Z)
    (input_file_name output_file_name : string) (swap_fd : Z) (instruction_set : string)
    (vm_safe_mode debuggable post_bootcomplete use_jit : bool)
    (profile_files_fd reference_profile_files_fd : list Z) :
  strlen instruction_set < MAX_INSTRUCTION_SET_LEN ->
  length profile_files_fd = length reference_profile_files_fd ->
  let choice :=
    compiler_filter_as_specified ps vm_safe_mode
      (use_jit || check_boolean_property ps "debug.usejit" false) in
  exists argv,
    run_dex2oat ps zip_fd oat_fd input_file_name output_file_name swap_fd instruction_set
      vm_safe_mode debuggable post_bootcomplete use_jit
      profile_files_fd reference_profile_files_fd
    = Some ("/system/bin/dex2oat", argv)
    /\ List.filter is_compiler_filter_arg argv
       = filter_args choice ++ List.filter is_compiler_filter_arg (extra_flags ps)
    /\ List.filter (String.eqb "-Xnorelocate") argv
       = List.filter (String.eqb "-Xnorelocate") (extra_flags ps)
         ++ (if restricted_boot ps then ["-Xnorelocate"] else [])
    /\ (restricted_boot ps = true ->
        exists before after,
          argv = before ++ ["--runtime-arg"; "-Xnorelocate"] ++ after).
Proof.
  intros Hisa Hlen choice. unfold run_dex2oat.
  assert ((MAX_INSTRUCTION_SET_LEN <=? strlen instruction_set) = false) as ->
    by (apply Z.leb_gt; lia).
  rewrite Hlen, Nat.eqb_refl. cbn [negb].
  pose proof (compiler_filter_chain_spec ps vm_safe_mode
                (use_jit || check_boolean_property ps "debug.usejit" false)) as Hchain.
  pose proof (dex2oat_flags_tokens ps) as Hflags.
  destruct (get_property ps "dalvik.vm.dex2oat-Xms" None) as [n_xms xms].
  destruct (get_property ps "dalvik.vm.dex2oat-Xmx" None) as [n_xmx xmx].
  destruct (get_property ps "dalvik.vm.dex2oat-filter" None) as [n_filter filter].
  destruct (get_property ps (if post_bootcomplete then _ else _) None) as [n_thr thr].
  destruct (get_property ps ("dalvik.vm.isa." +:+ instruction_set +:+ ".features") None)
    as [n_feat feat].
  destruct (get_property ps ("dalvik.vm.isa." +:+ instruction_set +:+ ".variant") None)
    as [n_var var].
  destruct (get_property ps "dalvik.vm.dex2oat-flags" None) as [n_flags flags].
  destruct (compiler_filter_chain _ _ _ _ _) as [[have arg] noreloc].
  destruct Hchain as [Hslot ->]. rewrite Hflags, Hslot. fold choice.
  eexists. split; [reflexivity|].
  split; [|split].
  - rewrite !List.filter_app, filter_args_kept.
    rewrite !filter_slot_none by reflexivity.
    rewrite filter_profile_args by reflexivity.
    replace (List.filter _ [_; _; _; _; _; _]) with (@nil string) by reflexivity.
    cbn [app]. by rewrite app_nil_r.
  - rewrite !List.filter_app.
    rewrite !filter_slot_none by reflexivity.
    rewrite filter_profile_args by reflexivity.
    assert (List.filter (String.eqb "-Xnorelocate") (filter_args choice) = []) as ->
      by (destruct choice; reflexivity).
    replace (List.filter _ [_; _; _; _; _; _]) with (@nil string) by reflexivity.
    cbn [app]. rewrite app_nil_r. f_equal.
    by destruct (restricted_boot ps).
  - intros ->. do 11 apply decompose_skip. apply decompose_here.
Qed.

(** With the file's reading of the properties, a device that sets
    "debug.usejit" and a filter, a caller that sets no flag. *)
Lemma run_dex2oat_compiler_filter_witness :
  let ps : gmap string string :=
    <["debug.usejit" := "true"]> {["dalvik.vm.dex2oat-filter" := "speed"]} in
  strlen "arm64" < MAX_INSTRUCTION_SET_LEN
  /\ length ([] : list Z) = length ([] : list Z)
  /\ exists argv,
       run_dex2oat ps 3 4 "/data/app/a.apk" Example.out_name (-1) "arm64"
         false false true false [] []
       = Some ("/system/bin/dex2oat", argv)
       /\ List.filter is_compiler_filter_arg argv = ["--compiler-filter=verify-at-runtime"].
Proof.
  cbv zeta. split; [reflexivity|]. split; [reflexivity|].
  destruct (run_dex2oat_compiler_filter
              (<["debug.usejit" := "true"]> {["dalvik.vm.dex2oat-filter" := "speed"]})
              3 4 "/data/app/a.apk" Example.out_name (-1) "arm64"
              false false true false [] [] eq_refl eq_refl)
    as (argv & Hrun & Hfilter & _).
  exists argv. split; [exact Hrun|].
  rewrite Hfilter. vm_compute. reflexivity.
Defined.

(** C4 as stated fails: with neither restricted boot nor SAFEMODE nor
    the USEJIT flag and with "dalvik.vm.dex2oat-filter" set to "speed",
    the statement asks for [--compiler-filter=speed]; the property
    "debug.usejit" makes the code choose [verify-at-runtime]. *)
Lemma run_dex2oat_filter_counterexample :
  let ps : gmap string string :=
    <["debug.usejit" := "true"]> {["dalvik.vm.dex2oat-filter" := "speed"]} in
  let SAFEMODE := false in
  let USEJIT := false in
  compiler_filter_as_specified ps SAFEMODE USEJIT = Some "speed"
  /\ exists argv,
       run_dex2oat ps 3 4 "/data/app/a.apk" Example.out_name (-1) "arm64"
         SAFEMODE false true USEJIT [] []
       = Some ("/system/bin/dex2oat", argv)
       /\ (List.filter is_compiler_filter_arg argv
           <> filter_args (compiler_filter_as_specified ps SAFEMODE USEJIT))
       /\ ("--compiler-filter=speed" ∉ argv)
       /\ ("--compiler-filter=verify-at-runtime" ∈ argv).
Proof.
  cbv zeta. split; [vm_compute; reflexivity|].
  eexists. split; [vm_compute; reflexivity|].
  split; [vm_compute; discriminate|].
  split.
  - intros Hin. apply list_elem_of_In in Hin. cbn in Hin.
    repeat (destruct Hin as [Hin|Hin]; [discriminate Hin|]). exact Hin.
  - apply list_elem_of_In. cbn. tauto.
Qed.

End Dex2oatFilter.

(** ** free_cache *)

Section CacheFacts.
Context `{InstalldDeps}.
Import Cache.

Lemma skip_dot_names_iff (name : string) :
  skip_dot_names name = true <-> name = "." \/ name = "..".
Proof.
  unfold skip_dot_names, char_at. split.
  - destruct name as [|a [|b [|c name]]]; cbn [String.get];
      repeat case_bool_decide; simplify_eq; cbn; try discriminate; auto.
  - intros [-> | ->]; reflexivity.
Qed.

Lemma skip_dot_names_false (name : string) :
  skip_dot_names name = false <-> name <> "." /\ name <> "..".
Proof.
  pose proof (skip_dot_names_iff name) as Hiff.
  destruct (skip_dot_names name); split.
  - discriminate.
  - intros [H1 H2]. destruct (proj1 Hiff eq_refl); done.
  - intros _.
    split; intros Heq;
      [assert (false = true) by (apply Hiff; by left)
      |assert (false = true) by (apply Hiff; by right)]; done.
  - done.
Qed.

Lemma not_a_user_iff (name : string) :
  not_a_user name = false <-> starts_with_digit name = true.
Proof.
  unfold not_a_user, starts_with_digit, is_digit.
  destruct (char_at 0 name) as [c|]; [|done].
  rewrite orb_false_iff, andb_true_iff, !Nat.ltb_ge, !Nat.leb_le. tauto.
Qed.

Lemma not_a_user_dot (name : string) :
  char_at 0 name = Some "."%char -> not_a_user name = true.
Proof. unfold not_a_user. intros ->. reflexivity. Qed.

Lemma lookup_media_dir_Some (e : env) (basepath dir tmpdir : string) :
  lookup_media_dir e basepath dir = Some tmpdir <->
  has_subdir e basepath dir = true /\ tmpdir = basepath +:+ "/" +:+ dir.
Proof.
  unfold lookup_media_dir. destruct (has_subdir e basepath dir); split.
  - by intros [= <-].
  - by intros [_ ->].
  - discriminate.
  - by intros [[=] _].
Qed.

(** The roots added by a loop are those added by its turns. *)
Lemma roots_sweep (body : string -> dirent -> list event * string)
    (P : dirent -> Prop) (r : string) (entries : list dirent) (tmpdir : string) :
  (forall buf de, r ∈ roots (body buf de).1 <-> P de) ->
  r ∈ roots (sweep body tmpdir entries) <-> exists de, de ∈ entries /\ P de.
Proof.
  intros Hbody. revert tmpdir.
  induction entries as [|de entries IH]; intros tmpdir.
  - cbn. split; [by intros ?%elem_of_nil|]. by intros (? & ?%elem_of_nil & _).
  - cbn [sweep]. specialize (Hbody tmpdir de).
    destruct (body tmpdir de) as [evs tmpdir']. cbn [fst] in Hbody.
    unfold roots in *. rewrite omap_app, elem_of_app, IH, Hbody. split.
    + intros [Hde|(de' & Hin & Hde')].
      * exists de. split; [apply elem_of_cons; by left|done].
      * exists de'. split; [apply elem_of_cons; by right|done].
    + intros (de' & [->|Hin]%elem_of_cons & Hde'); [by left|].
      right. by exists de'.
Qed.

Lemma roots_user_entry (base tmpdir r : string) (de : dirent) :
  r ∈ roots (sweep_user_entry base tmpdir de).1 <->
  d_type de = DT_DIR
  /\ d_name de <> "." /\ d_name de <> ".."
  /\ strlen (d_name de) + strlen base < PATH_MAX - 1
  /\ r = base +:+ d_name de.
Proof.
  unfold sweep_user_entry.
  pose proof (skip_dot_names_false (d_name de)) as Hdot.
  destruct (d_type de =? DT_DIR) eqn:Hty;
    [apply Z.eqb_eq in Hty|apply Z.eqb_neq in Hty].
  - destruct (skip_dot_names (d_name de)).
    + cbn. rewrite elem_of_nil. split; [done|].
      intros (_ & H1 & H2 & _). assert (true = false) by (apply Hdot; done). done.
    + destruct (proj1 Hdot eq_refl) as [H1 H2].
      destruct (strlen (d_name de) + strlen base <? PATH_MAX - 1) eqn:Hfit;
        [apply Z.ltb_lt in Hfit|apply Z.ltb_ge in Hfit]; cbn.
      * rewrite list_elem_of_singleton. naive_solver.
      * rewrite elem_of_nil. split; [done|]. intros (_ & _ & _ & ? & _). lia.
  - cbn. rewrite elem_of_nil. naive_solver.
Qed.

Lemma roots_media_entry (e : env) (base tmpdir r : string) (de : dirent) :
  r ∈ roots (sweep_media_entry e base tmpdir de).1 <->
  d_type de = DT_DIR
  /\ starts_with_digit (d_name de) = true
  /\ strlen (d_name de) + strlen base < PATH_MAX - 1
  /\ has_subdir e (base +:+ d_name de) "Android" = true
  /\ has_subdir e ((base +:+ d_name de) +:+ "/Android") "data" = true
  /\ r = ((base +:+ d_name de) +:+ "/Android") +:+ "/data".
Proof.
  unfold sweep_media_entry, lookup_media_dir.
  pose proof (not_a_user_iff (d_name de)) as Hdig.
  destruct (d_type de =? DT_DIR) eqn:Hty;
    [apply Z.eqb_eq in Hty|apply Z.eqb_neq in Hty]; [|cbn; rewrite elem_of_nil; naive_solver].
  destruct (not_a_user (d_name de)).
  { cbn. rewrite elem_of_nil. split; [done|]. intros (_ & Hd & _).
    apply Hdig in Hd. discriminate. }
  assert (Hd : starts_with_digit (d_name de) = true) by (by apply Hdig).
  destruct (strlen (d_name de) + strlen base <? PATH_MAX - 1) eqn:Hfit;
    [apply Z.ltb_lt in Hfit|apply Z.ltb_ge in Hfit].
  - change ("/" +:+ "Android") with "/Android".
    change ("/" +:+ "data") with "/data".
    destruct (has_subdir e (base +:+ d_name de) "Android") eqn:H1.
    + destruct (has_subdir e ((base +:+ d_name de) +:+ "/Android") "data") eqn:H2.
      * cbn. rewrite list_elem_of_singleton. naive_solver.
      * cbn. rewrite elem_of_nil. naive_solver.
    + cbn. rewrite elem_of_nil. naive_solver.
  - cbn. rewrite elem_of_nil. split; [done|]. intros (_ & _ & ? & _). lia.
Qed.

End CacheFacts.

Section FreeCacheRoots.
Context `{InstalldDeps}.
Import Cache.

(** C6 as the code has it: when [free_cache] must evict, the roots handed
    to the collector are exactly: user 0's data directory (internal
    storage only); under the secondary-user directory of the data root
    every directory other than "." and ".." (no test that the name is a
    number); under the media root every directory whose name begins with
    a digit and that has [Android/] and [Android/data/], the root being
    that [Android/data]; always provided the path fits the buffer.  Media
    directories without both subdirectories are left out. *)
Theorem free_cache_roots (e : env) (uuid : option string) (free_size : Z) (r : string) :
  0 <= disk_free_before e < free_size ->
  r ∈ roots (free_cache e uuid free_size).2 <->
    (uuid = None /\ r = create_data_user_path None 0)
    \/ (exists de,
          de ∈ default [] (readdir_all e (secondary_users_dir uuid))
          /\ d_type de = DT_DIR
          /\ d_name de <> "." /\ d_name de <> ".."
          /\ strlen (d_name de) + strlen (secondary_users_dir uuid) < PATH_MAX - 1
          /\ r = secondary_users_dir uuid +:+ d_name de)
    \/ (exists de,
          de ∈ default [] (readdir_all e android_media_dir_path)
          /\ d_type de = DT_DIR
          /\ starts_with_digit (d_name de) = true
          /\ strlen (d_name de) + strlen android_media_dir_path < PATH_MAX - 1
          /\ has_subdir e (android_media_dir_path +:+ d_name de) "Android" = true
          /\ has_subdir e ((android_media_dir_path +:+ d_name de) +:+ "/Android") "data"
             = true
          /\ r = ((android_media_dir_path +:+ d_name de) +:+ "/Android") +:+ "/data").
Proof.
  intros [Hlo Hhi]. unfold free_cache.
  assert ((disk_free_before e <? 0) = false) as -> by (apply Z.ltb_ge; lia).
  assert ((free_size <=? disk_free_before e) = false) as -> by (apply Z.leb_gt; lia).
  cbn [snd]. unfold roots at 1.
  rewrite !omap_app, !elem_of_app. fold (roots (sweep_dir e
    (sweep_user_entry (secondary_users_dir uuid)) (secondary_users_dir uuid))).
  fold (roots (sweep_dir e (sweep_media_entry e android_media_dir_path)
                 android_media_dir_path)).
  assert (Husers : forall r, r ∈ roots (sweep_dir e
                     (sweep_user_entry (secondary_users_dir uuid))
                     (secondary_users_dir uuid)) <->
            exists de, de ∈ default [] (readdir_all e (secondary_users_dir uuid))
              /\ (d_type de = DT_DIR /\ d_name de <> "." /\ d_name de <> ".."
                  /\ strlen (d_name de) + strlen (secondary_users_dir uuid) < PATH_MAX - 1
                  /\ r = secondary_users_dir uuid +:+ d_name de)).
  { intros r'. unfold sweep_dir.
    destruct (readdir_all e (secondary_users_dir uuid)) as [entries|]; cbn [default from_option id].
    - apply roots_sweep. intros buf de. apply roots_user_entry.
    - cbn. rewrite elem_of_nil. split; [done|]. by intros (? & ?%elem_of_nil & _). }
  assert (Hmedia : forall r, r ∈ roots (sweep_dir e
                     (sweep_media_entry e android_media_dir_path)
                     android_media_dir_path) <->
            exists de, de ∈ default [] (readdir_all e android_media_dir_path)
              /\ (d_type de = DT_DIR
                  /\ starts_with_digit (d_name de) = true
                  /\ strlen (d_name de) + strlen android_media_dir_path < PATH_MAX - 1
                  /\ has_subdir e (android_media_dir_path +:+ d_name de) "Android" = true
                  /\ has_subdir e ((android_media_dir_path +:+ d_name de) +:+ "/Android")
                       "data" = true
                  /\ r = ((android_media_dir_path +:+ d_name de) +:+ "/Android")
                         +:+ "/data")).
  { intros r'. unfold sweep_dir.
    destruct (readdir_all e android_media_dir_path) as [entries|]; cbn [default from_option id].
    - apply roots_sweep. intros buf de. apply roots_media_entry.
    - cbn. rewrite elem_of_nil. split; [done|]. by intros (? & ?%elem_of_nil & _). }
  rewrite Husers, Hmedia. clear Husers Hmedia.
  assert (Hfixed : forall l : list event,
             l = [StartCacheCollection]
             \/ l = [ClearCacheFiles (create_data_path uuid) free_size;
                     FinishCacheCollection] ->
             r ∈ roots l <-> False).
  { intros l [-> | ->]; cbn; apply elem_of_nil. }
  fold (roots [StartCacheCollection]).
  fold (roots [ClearCacheFiles (create_data_path uuid) free_size; FinishCacheCollection]).
  rewrite !Hfixed by auto.
  destruct uuid as [u|].
  - change (omap _ []) with (@nil string). rewrite elem_of_nil. intuition discriminate.
  - change (omap _ [AddCacheFiles ?p _]) with [p].
    rewrite list_elem_of_singleton. intuition auto.
Qed.

(** Every call of a loop is made by one of its turns, and every turn's
    calls are in the loop's. *)
Lemma sweep_event_origin (body : string -> dirent -> list event * string)
    (tmpdir : string) (entries : list dirent) (ev : event) :
  ev ∈ sweep body tmpdir entries ->
  exists de buf, de ∈ entries /\ ev ∈ (body buf de).1.
Proof.
  revert tmpdir. induction entries as [|de entries IH]; intros tmpdir; cbn [sweep].
  - by intros ?%elem_of_nil.
  - destruct (body tmpdir de) as [evs tmpdir'] eqn:Hbody.
    intros [Hev|Hev]%elem_of_app.
    + exists de, tmpdir. split; [apply elem_of_cons; by left|]. by rewrite Hbody.
    + destruct (IH _ Hev) as (de' & buf & Hin & Hev').
      exists de', buf. split; [apply elem_of_cons; by right|done].
Qed.

Lemma sweep_event_made (body : string -> dirent -> list event * string)
    (tmpdir : string) (entries : list dirent) (de : dirent) :
  de ∈ entries ->
  exists buf, forall ev, ev ∈ (body buf de).1 -> ev ∈ sweep body tmpdir entries.
Proof.
  revert tmpdir. induction entries as [|de' entries IH]; intros tmpdir; cbn [sweep].
  - by intros ?%elem_of_nil.
  - destruct (body tmpdir de') as [evs tmpdir'] eqn:Hbody.
    intros [->|Hin]%elem_of_cons.
    + exists tmpdir. intros ev Hev. rewrite Hbody in Hev. apply elem_of_app. by left.
    + destruct (IH tmpdir' Hin) as (buf & Hbuf).
      exists buf. intros ev Hev. apply elem_of_app. right. by apply Hbuf.
Qed.

Lemma sweep_dir_default (e : env) (body : string -> dirent -> list event * string)
    (tmpdir : string) :
  sweep_dir e body tmpdir = sweep body tmpdir (default [] (readdir_all e tmpdir)).
Proof. unfold sweep_dir. by destruct (readdir_all e tmpdir). Qed.

(** The calls of one turn of the loop over the secondary users. *)
Lemma user_entry_events (base buf : string) (de : dirent) (ev : event) :
  ev ∈ (sweep_user_entry base buf de).1 <->
  d_type de = DT_DIR /\ d_name de <> "." /\ d_name de <> ".."
  /\ ((strlen (d_name de) + strlen base < PATH_MAX - 1
       /\ ev = AddCacheFiles (base +:+ d_name de) "cache")
      \/ (PATH_MAX - 1 <= strlen (d_name de) + strlen base
          /\ ev = Warn ("Path exceeds limit: " +:+ buf +:+ d_name de))).
Proof.
  unfold sweep_user_entry.
  pose proof (skip_dot_names_false (d_name de)) as Hdot.
  destruct (d_type de =? DT_DIR) eqn:Hty;
    [apply Z.eqb_eq in Hty|apply Z.eqb_neq in Hty];
    [|cbn; rewrite elem_of_nil; naive_solver].
  destruct (skip_dot_names (d_name de)).
  { cbn. rewrite elem_of_nil. split; [done|].
    intros (_ & H1 & H2 & _). assert (true = false) by (apply Hdot; done). done. }
  destruct (proj1 Hdot eq_refl) as [H1 H2].
  destruct (strlen (d_name de) + strlen base <? PATH_MAX - 1) eqn:Hfit;
    [apply Z.ltb_lt in Hfit|apply Z.ltb_ge in Hfit]; cbn;
    rewrite list_elem_of_singleton; split.
  - intros ->. do 3 (split; [done|]). left. by split.
  - intros (_ & _ & _ & [[_ ->]|[? _]]); [done|lia].
  - intros ->. do 3 (split; [done|]). right. by split.
  - intros (_ & _ & _ & [[? _]|[_ ->]]); [lia|done].
Qed.

(** The calls of one turn of the loop over the media directory. *)
Lemma media_entry_events (e : env) (base buf : string) (de : dirent) (ev : event) :
  ev ∈ (sweep_media_entry e base buf de).1 <->
  d_type de = DT_DIR /\ starts_with_digit (d_name de) = true
  /\ ((strlen (d_name de) + strlen base < PATH_MAX - 1
       /\ has_subdir e (base +:+ d_name de) "Android" = true
       /\ has_subdir e ((base +:+ d_name de) +:+ "/Android") "data" = true
       /\ ev = AddCacheFiles (((base +:+ d_name de) +:+ "/Android") +:+ "/data") "cache")
      \/ (PATH_MAX - 1 <= strlen (d_name de) + strlen base
          /\ ev = Warn ("Path exceeds limit: " +:+ buf +:+ d_name de))).
Proof.
  unfold sweep_media_entry, lookup_media_dir.
  pose proof (not_a_user_iff (d_name de)) as Hdig.
  destruct (d_type de =? DT_DIR) eqn:Hty;
    [apply Z.eqb_eq in Hty|apply Z.eqb_neq in Hty];
    [|cbn; rewrite elem_of_nil; naive_solver].
  destruct (not_a_user (d_name de)).
  { cbn. rewrite elem_of_nil. split; [done|]. intros (_ & Hd & _).
    apply Hdig in Hd. discriminate. }
  assert (Hd : starts_with_digit (d_name de) = true) by (by apply Hdig).
  destruct (strlen (d_name de) + strlen base <? PATH_MAX - 1) eqn:Hfit;
    [apply Z.ltb_lt in Hfit|apply Z.ltb_ge in Hfit].
  - change ("/" +:+ "Android") with "/Android".
    change ("/" +:+ "data") with "/data".
    destruct (has_subdir e (base +:+ d_name de) "Android") eqn:H1.
    + destruct (has_subdir e ((base +:+ d_name de) +:+ "/Android") "data") eqn:H2.
      * cbn. rewrite list_elem_of_singleton. split.
        -- intros ->. do 2 (split; [done|]). left. by repeat split.
        -- intros (_ & _ & [(_ & _ & _ & ->)|[? _]]); [done|lia].
      * cbn. rewrite elem_of_nil. split; [done|].
        intros (_ & _ & [(_ & _ & ? & _)|[? _]]); [done|lia].
    + cbn. rewrite elem_of_nil. split; [done|].
      intros (_ & _ & [(_ & ? & _)|[? _]]); [done|lia].
  - cbn. rewrite list_elem_of_singleton. split.
    + intros ->. do 2 (split; [done|]). right. by split.
    + intros (_ & _ & [(? & _)|[_ ->]]); [lia|done].
Qed.


End FreeCacheRoots.

Section FreeCacheExamples.
Import Example Cache.

(** On the example device, asked for 100 bytes: the roots are user 0,
    user 10, [lost+found], the hidden directory, and the [Android/data]
    of media user 0. *)
Lemma free_cache_roots_witness :
  0 <= disk_free_before low_disk < 100
  /\ roots (free_cache low_disk None 100).2
     = ["/data/user/0"; "/data/user/10"; "/data/user/lost+found"; "/data/user/.trash";
        "/data/media/0/Android/data"]
  /\ ("/data/media/0/Android/data" ∈ roots (free_cache low_disk None 100).2).
Proof.
  assert (Hlow : 0 <= disk_free_before low_disk < 100) by (cbn; lia).
  split; [exact Hlow|]. split; [vm_compute; reflexivity|].
  apply (proj2 (free_cache_roots low_disk None 100 "/data/media/0/Android/data" Hlow)).
  right. right. exists (Dirent "0" DT_DIR).
  repeat split; try (vm_compute; reflexivity).
  apply list_elem_of_In. vm_compute. tauto.
Defined.

(** C6 as stated fails: [lost+found] under the secondary-user directory
    is not named by a number, yet its [cache/] subtrees take part. *)
Lemma free_cache_roots_counterexample :
  numeric_name "lost+found" = false
  /\ ("/data/user/lost+found" ∈ roots (free_cache low_disk None 100).2)
  /\ ("/data/user/lost+found" ∉ roots_as_specified low_disk None)
  /\ roots (free_cache low_disk None 100).2 <> roots_as_specified low_disk None.
Proof.
  split; [reflexivity|]. split; [|split].
  - apply list_elem_of_In. vm_compute. tauto.
  - intros Hin. apply list_elem_of_In in Hin. vm_compute in Hin.
    repeat (destruct Hin as [Hin|Hin]; [discriminate Hin|]). exact Hin.
  - vm_compute. discriminate.
Qed.



End FreeCacheExamples.

(** ** Reasoning about traces *)

Section TraceFacts.
Import Trace.

Lemma runs_ret {A} (a : A) (R : A -> list event -> Prop) : R a [] -> runs (ret a) R.
Proof. intros HR tr. exists []. cbn. by rewrite app_nil_r. Qed.

Lemma runs_bind {A B} (m : M A) (k : A -> M B) (R1 : A -> list event -> Prop)
    (R : B -> list event -> Prop) :
  runs m R1 ->
  (forall a new1, R1 a new1 -> runs (k a) (fun b new2 => R b (new1 ++ new2))) ->
  runs (bind m k) R.
Proof.
  intros Hm Hk tr. unfold bind.
  destruct (Hm tr) as (new1 & Htr1 & HR1).
  destruct (m tr) as [a tr1]. cbn in Htr1, HR1. subst tr1.
  destruct (Hk a new1 HR1 (tr ++ new1)) as (new2 & Htr2 & HR2).
  exists (new1 ++ new2). by rewrite Htr2, (assoc_L (++)).
Qed.

Lemma runs_call (o : oracle) (e : event) (R : Z -> list event -> Prop) :
  (forall z, R z [e]) -> runs (call o e) R.
Proof. intros HR tr. exists [e]. cbn. auto. Qed.

Lemma runs_log (msg : string) (R : unit -> list event -> Prop) :
  R tt [Log msg] -> runs (log msg) R.
Proof. intros HR tr. exists [Log msg]. cbn. auto. Qed.

Lemma runs_weaken {A} (m : M A) (R R' : A -> list event -> Prop) :
  runs m R -> (forall a new, R a new -> R' a new) -> runs m R'.
Proof. intros Hm HR tr. destruct (Hm tr) as (new & ? & ?). exists new. auto. Qed.

Lemma emits_ret {A} (P : event -> Prop) (a : A) : emits P (ret a).
Proof. apply runs_ret. constructor. Qed.

Lemma emits_bind {A B} (P : event -> Prop) (m : M A) (k : A -> M B) :
  emits P m -> (forall a, emits P (k a)) -> emits P (bind m k).
Proof.
  intros Hm Hk. eapply runs_bind; [exact Hm|].
  intros a new1 H1. eapply runs_weaken; [apply Hk|].
  intros b new2 H2. cbn. by apply Forall_app.
Qed.

Lemma emits_call (P : event -> Prop) (o : oracle) (e : event) :
  P e -> emits P (call o e).
Proof. intros He. apply runs_call. intros _. by constructor. Qed.

Lemma emits_log (P : event -> Prop) (msg : string) : P (Log msg) -> emits P (log msg).
Proof. intros He. apply runs_log. by constructor. Qed.

End TraceFacts.

(** One step through a computation that only emits [P]-events. *)
Ltac emits_step :=
  first
    [ apply emits_ret
    | apply emits_log
    | apply emits_call
    | apply emits_bind; [|intros ?]
    | match goal with
      | |- Trace.emits _ (if ?c then _ else _) => destruct c
      | |- Trace.emits _ (match ?c with Some _ => _ | None => _ end) => destruct c
      end ].

(** ** move_complete_app *)

Section MoveFacts.
Context `{InstalldDeps}.
Import Trace AppData Move.

Variable o : oracle.
Variables from_uuid to_uuid : option string.
Variables package_name data_app_name : string.
Variable appid : Z.
Variable seinfo : option string.

Local Abbreviation allowed :=
  (destination_roots from_uuid to_uuid package_name data_app_name).

Lemma allowed_app_parent : create_data_app_path to_uuid ∈ allowed.
Proof. unfold destination_roots. apply elem_of_cons. by left. Qed.

Lemma allowed_app_package :
  create_data_app_package_path to_uuid data_app_name ∈ allowed.
Proof.
  unfold destination_roots. apply elem_of_cons. right.
  apply elem_of_cons. by left.
Qed.

Lemma allowed_user (user : Z) (path : string) :
  user ∈ get_known_users from_uuid ->
  path ∈ [create_data_user_path to_uuid user;
          create_data_user_package_path to_uuid user package_name;
          create_data_user_de_package_path to_uuid user package_name] ->
  path ∈ allowed.
Proof.
  intros Huser Hpath. unfold destination_roots.
  do 2 (apply elem_of_cons; right).
  apply list_elem_of_In, List.in_flat_map. exists user.
  split; by apply list_elem_of_In.
Qed.

Lemma copy_event_log (msg : string) : copy_event allowed (Log msg).
Proof. split; [|done]. by intros w ?%elem_of_nil. Qed.

Lemma copy_event_access (path : string) : copy_event allowed (Access path).
Proof. split; [|done]. by intros w ?%elem_of_nil. Qed.

Lemma copy_event_on (e : event) (path : string) :
  writes e = [path] ->
  match e with DeleteDirContents _ _ => False | _ => True end ->
  path ∈ allowed ->
  copy_event allowed e.
Proof.
  intros Hw Hnd Hin. split; [|done].
  intros w. rewrite Hw. by intros ->%list_elem_of_singleton.
Qed.

Local Hint Resolve copy_event_log copy_event_access : core.

Lemma create_app_data_emits (user flags : Z) :
  user ∈ get_known_users from_uuid ->
  emits (copy_event allowed) (create_app_data o to_uuid package_name user flags appid seinfo).
Proof.
  intros Huser. unfold create_app_data. cbv zeta.
  repeat emits_step; auto;
    (eapply copy_event_on; [reflexivity|done|]);
    (apply (allowed_user user); [done|]);
    rewrite !elem_of_cons; auto.
Qed.

Lemma restorecon_app_data_emits (user flags : Z) :
  user ∈ get_known_users from_uuid ->
  emits (copy_event allowed)
    (restorecon_app_data o to_uuid (Some package_name) user flags appid seinfo).
Proof.
  intros Huser. unfold restorecon_app_data. cbv zeta.
  destruct seinfo as [si|]; repeat emits_step; auto;
    (eapply copy_event_on; [reflexivity|done|]);
    (apply (allowed_user user); [done|]);
    rewrite !elem_of_cons; auto.
Qed.

Lemma copy_app_emits :
  emits (copy_event allowed) (copy_app o from_uuid to_uuid data_app_name).
Proof.
  unfold copy_app. cbv zeta.
  repeat emits_step; auto;
    (eapply copy_event_on; [reflexivity|done|]);
    auto using allowed_app_parent, allowed_app_package.
Qed.

Lemma copy_users_emits (users : list Z) :
  (forall user, user ∈ users -> user ∈ get_known_users from_uuid) ->
  emits (copy_event allowed)
    (copy_users o from_uuid to_uuid package_name appid seinfo users).
Proof.
  induction users as [|user rest IH]; intros Hknown.
  - apply emits_ret.
  - assert (Huser : user ∈ get_known_users from_uuid)
      by (apply Hknown, elem_of_cons; by left).
    assert (Hrest : emits (copy_event allowed)
                      (copy_users o from_uuid to_uuid package_name appid seinfo rest)).
    { apply IH. intros u Hu. apply Hknown, elem_of_cons. by right. }
    cbn [copy_users]. cbv zeta.
    apply emits_bind; [apply emits_call; auto|]. intros a.
    destruct (negb (a =? 0)).
    { apply emits_bind; [apply emits_log; auto|]. intros _. exact Hrest. }
    apply emits_bind.
    { apply emits_call. eapply copy_event_on; [reflexivity|done|].
      apply (allowed_user user); [done|]. rewrite !elem_of_cons; auto. }
    intros r1. destruct (negb (r1 =? 0)); [repeat emits_step; auto|].
    apply emits_bind; [by apply create_app_data_emits|].
    intros r2. destruct (negb (r2 =? 0)); [repeat emits_step; auto|].
    apply emits_bind.
    { apply emits_call. eapply copy_event_on; [reflexivity|done|].
      apply (allowed_user user); [done|]. rewrite !elem_of_cons; auto. }
    intros rc. destruct (negb (rc =? 0)); [repeat emits_step; auto|].
    apply emits_bind; [by apply restorecon_app_data_emits|].
    intros r3. destruct (negb (r3 =? 0)); [repeat emits_step; auto|].
    exact Hrest.
Qed.

Lemma deletions_app (l1 l2 : list event) :
  deletions (l1 ++ l2) = deletions l1 ++ deletions l2.
Proof. apply omap_app. Qed.

Lemma deletions_cons (e : event) (l : list event) :
  deletions (e :: l)
  = match e with
    | DeleteDirContents path _ => path :: deletions l
    | _ => deletions l
    end.
Proof. by destruct e. Qed.

Lemma copy_events_delete_nothing (new : list event) :
  Forall (copy_event allowed) new -> deletions new = [].
Proof.
  induction 1 as [|e new [_ He] _ IH]; [reflexivity|].
  rewrite deletions_cons, IH. by destruct e.
Qed.

Lemma rollback_one_runs (to : string) :
  runs (rollback_one o to)
       (fun _ new => Forall rollback_event new /\ deletions new = [to]).
Proof.
  unfold rollback_one.
  eapply runs_bind; [apply (runs_call _ _ (fun _ new => new = [DeleteDirContents to true]));
                     done|].
  intros r new1 ->. destruct (negb (r =? 0)).
  - apply runs_log. split; [by repeat constructor|reflexivity].
  - apply runs_ret. split; [by repeat constructor|reflexivity].
Qed.

Lemma rollback_users_runs (users : list Z) :
  runs (rollback_users o to_uuid package_name users)
       (fun _ new =>
          Forall rollback_event new
          /\ deletions new
             = map (fun user => create_data_user_package_path to_uuid user package_name)
                   users).
Proof.
  induction users as [|user rest IH].
  - apply runs_ret. split; [constructor|reflexivity].
  - cbn [rollback_users].
    eapply runs_bind; [apply rollback_one_runs|].
    intros _ new1 [Hev1 Hdel1].
    eapply runs_weaken; [exact IH|].
    intros _ new2 [Hev2 Hdel2]. cbn beta. split; [by apply Forall_app|].
    by rewrite deletions_app, Hdel1, Hdel2.
Qed.

Lemma move_fail_runs :
  runs (move_fail o to_uuid package_name data_app_name (get_known_users from_uuid))
       (fun r new =>
          r = -1 /\ Forall rollback_event new
          /\ deletions new = rollback_targets from_uuid to_uuid package_name data_app_name).
Proof.
  unfold move_fail.
  eapply runs_bind; [apply rollback_one_runs|].
  intros _ new1 [Hev1 Hdel1].
  eapply runs_bind; [apply rollback_users_runs|].
  intros _ new2 [Hev2 Hdel2].
  apply runs_ret. rewrite app_nil_r.
  split; [reflexivity|]. split; [by apply Forall_app|].
  unfold rollback_targets. by rewrite deletions_app, Hdel1, Hdel2.
Qed.

(** The shape of every run: a copying phase that deletes nothing and
    writes only to the destination, followed on failure by the rollback. *)
Lemma move_complete_app_runs :
  runs (move_complete_app o from_uuid to_uuid package_name data_app_name appid seinfo)
       (fun r new =>
          exists before rb,
            new = before ++ rb
            /\ Forall (copy_event allowed) before
            /\ ((r = 0 /\ rb = [])
                \/ (r = -1 /\ Forall rollback_event rb
                    /\ deletions rb
                       = rollback_targets from_uuid to_uuid package_name data_app_name))).
Proof.
  unfold move_complete_app. cbv zeta.
  eapply runs_bind; [apply copy_app_emits|].
  intros ok1 new1 Hcopy1. destruct ok1.
  - eapply runs_bind; [by apply copy_users_emits|].
    intros ok2 new2 Hcopy2. destruct ok2.
    + apply runs_ret. exists (new1 ++ new2), [].
      rewrite !app_nil_r. split; [done|]. split; [by apply Forall_app|]. by left.
    + eapply runs_weaken; [apply move_fail_runs|].
      intros r rb (-> & Hev & Hdel). exists (new1 ++ new2), rb.
      rewrite (assoc_L (++)). split; [done|]. split; [by apply Forall_app|]. by right.
  - eapply runs_weaken; [apply move_fail_runs|].
    intros r rb (-> & Hev & Hdel). exists new1, rb. split; [done|]. split; [done|].
    by right.
Qed.

Lemma rollback_targets_allowed (path : string) :
  path ∈ rollback_targets from_uuid to_uuid package_name data_app_name -> path ∈ allowed.
Proof.
  unfold rollback_targets. intros [->|Hin]%elem_of_cons.
  - apply allowed_app_package.
  - apply list_elem_of_fmap in Hin as (user & -> & Huser).
    apply (allowed_user user); [done|]. rewrite !elem_of_cons; auto.
Qed.

Lemma rollback_event_writes (rb : list event) (e : event) (w : string) :
  Forall rollback_event rb -> e ∈ rb -> w ∈ writes e -> w ∈ deletions rb.
Proof.
  intros Hev He Hw. rewrite Forall_forall in Hev. specialize (Hev e He).
  unfold deletions. apply list_elem_of_omap. exists e. split; [done|].
  destruct e as [| | | | | | | |path []]; try done.
  - by apply elem_of_nil in Hw.
  - cbn in Hw. by apply list_elem_of_singleton in Hw as ->.
Qed.

Lemma starts_with_comparable (a b path : string) :
  starts_with a path = true -> starts_with b path = true ->
  starts_with a b = true \/ starts_with b a = true.
Proof.
  revert b path. induction a as [|x a IH]; intros b path Ha Hb; [by left|].
  destruct b as [|z b]; [by right|].
  destruct path as [|y path]; [discriminate|].
  cbn [starts_with] in *.
  apply andb_true_iff in Ha as [Hx Ha]. apply andb_true_iff in Hb as [Hz Hb].
  apply Ascii.eqb_eq in Hx, Hz. subst x z. rewrite !Ascii.eqb_refl. cbn [andb].
  by apply (IH b path).
Qed.

(** Places of which neither is, or lies below, the other have nothing
    below them in common. *)
Lemma beneath_apart (w s path : string) :
  beneath w s = false -> beneath s w = false ->
  beneath w path = true -> beneath s path = false.
Proof.
  unfold beneath. intros Hws Hsw Hw.
  destruct (starts_with s path) eqn:Hs; [|done].
  destruct (starts_with_comparable w s path Hw Hs); congruence.
Qed.


End MoveFacts.

Section MoveExamples.
Import Example Trace Move.



End MoveExamples.

(** ** The file-system model *)

Section FsFacts.
Import Fs.

Lemma length_append (a b : string) :
  String.length (a +:+ b) = (String.length a + String.length b)%nat.
Proof. induction a as [|c a IH]; simpl; [done|]. by f_equal. Qed.

Lemma swap_name_differs (out_path : string) :
  Dexopt.swap_file_name_of out_path <> out_path.
Proof.
  unfold Dexopt.swap_file_name_of. intros Heq.
  apply (f_equal String.length) in Heq. rewrite length_append in Heq. cbn in Heq. lia.
Qed.

Lemma unlink_inodes (path : string) (fs : t) :
  inodes (unlink path fs).2 = inodes fs /\ next_ino (unlink path fs).2 = next_ino fs.
Proof.
  unfold unlink. destruct (names fs !! path) as [ino|]; [|done].
  destruct (inodes fs !! ino) as [nd|]; [destruct (st_isdir nd)|]; done.
Qed.

Lemma unlink_names_other (path other : string) (fs : t) :
  path <> other -> names (unlink path fs).2 !! other = names fs !! other.
Proof.
  intros Hne. unfold unlink. destruct (names fs !! path) as [ino|]; [|done].
  destruct (inodes fs !! ino) as [nd|]; [destruct (st_isdir nd)|]; cbn;
    by rewrite ?lookup_delete_ne.
Qed.

(** [unlink] never adds a name. *)
Lemma unlink_names_sub (path other : string) (fs : t) (ino : nat) :
  names (unlink path fs).2 !! other = Some ino -> names fs !! other = Some ino.
Proof.
  destruct (decide (path = other)) as [->|Hne]; [|by rewrite unlink_names_other].
  unfold unlink. destruct (names fs !! other) as [i|] eqn:E; [|cbn; by rewrite E].
  destruct (inodes fs !! i) as [nd|]; [destruct (st_isdir nd)|]; cbn;
    rewrite ?lookup_delete_eq, ?E; done.
Qed.

(** After [unlink], a name that did not denote a directory is gone. *)
Lemma unlink_gone (path : string) (fs : t) :
  not_a_directory path fs -> names (unlink path fs).2 !! path = None.
Proof.
  unfold not_a_directory, stat, unlink.
  destruct (names fs !! path) as [ino|] eqn:E; [|cbn; by rewrite E].
  destruct (inodes fs !! ino) as [nd|]; cbn.
  - intros ->. cbn. apply lookup_delete_eq.
  - intros _. apply lookup_delete_eq.
Qed.

Lemma open_creat_excl_Some (creatable : bool) (path : string) (mode : Z) (fs fs' : t)
    (fd : nat) :
  open_creat_excl creatable path mode fs = Some (fd, fs') ->
  fd = next_ino fs
  /\ names fs !! path = None
  /\ names fs' = <[path := fd]> (names fs)
  /\ inodes fs' = <[fd := Inode false mode 0 0 (clock fs) (clock fs)]> (inodes fs)
  /\ next_ino fs' = S fd.
Proof.
  unfold open_creat_excl. destruct (names fs !! path); [done|].
  destruct creatable; [|done]. by intros [= <- <-].
Qed.

Lemma open_creat_excl_None_names (creatable : bool) (path : string) (mode : Z) (fs : t) :
  open_creat_excl creatable path mode fs = None ->
  names fs !! path = None \/ is_Some (names fs !! path).
Proof. intros _. destruct (names fs !! path); eauto. Qed.

Lemma open_rdonly_stat (path : string) (fs : t) (fd : nat) :
  open_rdonly path fs = Some fd -> is_Some (stat path fs).
Proof.
  unfold open_rdonly, stat. destruct (names fs !! path) as [ino|]; [|done].
  destruct (inodes fs !! ino); [eauto|done].
Qed.

Lemma open_rdonly_None (path : string) (fs : t) :
  open_rdonly path fs = None -> stat path fs = None.
Proof.
  unfold open_rdonly, stat. destruct (names fs !! path) as [ino|]; [|done].
  by destruct (inodes fs !! ino).
Qed.

Lemma output_file_created (creatable : bool) (path : string) (mode : Z) (fs fs' : t)
    (fd : nat) :
  open_creat_excl creatable path mode fs = Some (fd, fs') ->
  output_file path fd mode 0 0 fs'.
Proof.
  intros (-> & _ & Hn & Hi & Hnext)%open_creat_excl_Some.
  unfold output_file. rewrite Hn, Hi, Hnext, !lookup_insert_eq.
  split; [done|]. split; [lia|]. eexists. split; [reflexivity|done].
Qed.

Lemma output_file_fchmod (path : string) (fd : nat) (mode mode' uid gid : Z) (fs : t) :
  output_file path fd mode uid gid fs ->
  output_file path fd mode' uid gid (fchmod fd mode' fs).
Proof.
  intros (Hn & Hlt & nd & Hi & Hd & _ & Hu & Hg).
  unfold output_file, fchmod, on_inode. cbn.
  split; [done|]. split; [done|].
  exists (set_mode mode' nd). rewrite lookup_alter_eq, Hi. by destruct nd.
Qed.

Lemma output_file_fchown (path : string) (fd : nat) (mode uid gid uid' gid' : Z) (fs : t) :
  output_file path fd mode uid gid fs ->
  output_file path fd mode uid' gid' (fchown fd uid' gid' fs).
Proof.
  intros (Hn & Hlt & nd & Hi & Hd & Hm & _ & _).
  unfold output_file, fchown, on_inode. cbn.
  split; [done|]. split; [done|].
  exists (set_owner uid' gid' nd). rewrite lookup_alter_eq, Hi. by destruct nd.
Qed.

(** Time stamps set through any descriptor leave mode and owner alone. *)
Lemma output_file_touched (path : string) (fd fd' : nat) (mode uid gid : Z) (fs : t)
    (f : inode -> inode) :
  (forall nd, st_isdir (f nd) = st_isdir nd /\ st_mode (f nd) = st_mode nd
              /\ st_uid (f nd) = st_uid nd /\ st_gid (f nd) = st_gid nd) ->
  output_file path fd mode uid gid fs ->
  output_file path fd mode uid gid (on_inode f fd' fs).
Proof.
  intros Hf (Hn & Hlt & nd & Hi & Hd & Hm & Hu & Hg).
  unfold output_file, on_inode. cbn.
  split; [done|]. split; [done|].
  destruct (decide (fd' = fd)) as [->|Hne].
  - exists (f nd). rewrite lookup_alter_eq, Hi.
    destruct (Hf nd) as (-> & -> & -> & ->). done.
  - exists nd. by rewrite lookup_alter_ne.
Qed.

Lemma output_file_unlink_other (path other : string) (fd : nat) (mode uid gid : Z)
    (fs : t) :
  other <> path ->
  output_file path fd mode uid gid fs ->
  output_file path fd mode uid gid (unlink other fs).2.
Proof.
  intros Hne (Hn & Hlt & Hnd).
  destruct (unlink_inodes other fs) as [Hi Hnext].
  unfold output_file. rewrite Hi, Hnext, unlink_names_other by done. done.
Qed.

Lemma output_file_creat_other (creatable : bool) (path other : string) (fd fd' : nat)
    (mode uid gid mode' : Z) (fs fs' : t) :
  other <> path ->
  output_file path fd mode uid gid fs ->
  open_creat_excl creatable other mode' fs = Some (fd', fs') ->
  output_file path fd mode uid gid fs'.
Proof.
  intros Hne (Hn & Hlt & Hnd) (-> & _ & Hn' & Hi' & Hnext')%open_creat_excl_Some.
  unfold output_file. rewrite Hn', Hi', Hnext', lookup_insert_ne by done.
  split; [done|]. split; [lia|].
  rewrite lookup_insert_ne by lia. done.
Qed.

Lemma output_file_utime (path : string) (fd : nat) (mode uid gid actime modtime : Z)
    (fs : t) :
  output_file path fd mode uid gid fs ->
  stat path (utime path actime modtime fs)
  = Some (Inode false mode uid gid actime modtime).
Proof.
  intros (Hn & Hlt & nd & Hi & Hd & Hm & Hu & Hg).
  unfold utime, stat. rewrite Hn. cbn. rewrite Hn, lookup_alter_eq, Hi. cbn.
  unfold set_times. by rewrite Hd, Hm, Hu, Hg.
Qed.

End FsFacts.

(** ** dexopt *)

Section DexoptFacts.
Context `{InstalldDeps}.
Import Fs Dexopt.

Lemma dexopt_swap_keeps_output (e : env) (out_path : string) (fd : nat)
    (mode uid gid : Z) (fs : Fs.t) :
  output_file out_path fd mode uid gid fs ->
  output_file out_path fd mode uid gid (dexopt_swap e out_path fs).2.
Proof.
  intros Hout. unfold dexopt_swap.
  pose proof (swap_name_differs out_path) as Hne.
  destruct (Swap.ShouldUseSwapFileForDexopt (props e)); [|exact Hout].
  destruct (_ <=? PKG_PATH_MAX); [|exact Hout].
  apply (output_file_unlink_other _ _ _ _ _ _ _ Hne) in Hout.
  destruct (open_creat_excl _ _ _ _) as [[swap_fd fs2]|] eqn:Hcreat; [|exact Hout].
  cbn [snd]. apply output_file_unlink_other; [done|].
  by eapply output_file_creat_other.
Qed.

Lemma child_effects_keeps_output (e : env) (ce : child_end) (input_fd out_fd : nat)
    (out_path : string) (fd : nat) (mode uid gid : Z) (fs : Fs.t) :
  output_file out_path fd mode uid gid fs ->
  output_file out_path fd mode uid gid (child_effects e ce input_fd out_fd fs).
Proof.
  intros Hout. unfold child_effects. destruct ce; [exact Hout|].
  apply output_file_touched; [by intros []|].
  apply output_file_touched; [by intros []|]. done.
Qed.

(** C1: a call that goes on to fork the compiler and returns 0 leaves the
    derived output path naming a regular file of mode 0644 with the
    PUBLIC flag and 0640 without it, owned by [(AID_SYSTEM, uid)], whose
    access and modification times are those the selected input file had
    when the call began. *)
Theorem dexopt_success_output (e : env) (apk_path : string) (uid : Z)
    (pkgname instruction_set : string) (dexopt_needed : Z) (oat_dir : option string)
    (dexopt_flags : Z) (volume_uuid : option string) (use_profiles : bool)
    (fs fs' : Fs.t) :
  dexopt e apk_path uid pkgname instruction_set dexopt_needed oat_dir dexopt_flags
    volume_uuid use_profiles fs = (Returned 0, fs') ->
  (use_profiles = true -> profile_files e <> []) ->
  exists out_path input_file input_stat,
    dexopt_out_path oat_dir apk_path instruction_set = Some out_path
    /\ dexopt_input_file dexopt_needed apk_path instruction_set out_path
       = InputFile input_file
    /\ stat input_file fs = Some input_stat
    /\ stat out_path fs'
       = Some (Inode false (if has_flag dexopt_flags DEXOPT_PUBLIC then 420 else 416)
                 AID_SYSTEM uid (st_atime input_stat) (st_mtime input_stat)).
Proof.
  intros Hrun Hfork. unfold dexopt in Hrun. cbv zeta in Hrun.
  destruct (use_profiles && _) eqn:Hskip.
  { apply andb_true_iff in Hskip as [-> Hempty].
    apply bool_decide_eq_true in Hempty. apply fmap_nil_inv in Hempty.
    by destruct (Hfork eq_refl). }
  destruct (_ <=? strlen apk_path); [discriminate|].
  destruct (dexopt_out_path oat_dir apk_path instruction_set) as [out_path|] eqn:Hout;
    [|discriminate].
  destruct (dexopt_input_file _ _ _ _) as [input_file| |code] eqn:Hin; try discriminate.
  destruct (open_rdonly input_file fs) as [input_fd|] eqn:Hopen; [|discriminate].
  destruct (open_rdonly_stat _ _ _ Hopen) as [input_stat Hstat].
  rewrite Hstat in Hrun. cbn [default from_option id] in Hrun.
  destruct (open_creat_excl _ out_path 420 _) as [[out_fd fs1]|] eqn:Hcreat;
    [|discriminate].
  destruct (fchmod_fails e); [discriminate|].
  destruct (fchown_fails e); [discriminate|].
  destruct (dexopt_swap e out_path _) as [swap_fd fs2] eqn:Hswap.
  destruct (wait_child e _ =? 0); [|discriminate].
  injection Hrun as <-.
  exists out_path, input_file, input_stat.
  split; [done|]. split; [done|]. split; [done|].
  apply output_file_utime with (fd := out_fd).
  apply child_effects_keeps_output.
  replace fs2 with (dexopt_swap e out_path
                      (fchown out_fd AID_SYSTEM uid
                         (fchmod out_fd
                            (Z.lor (Z.lor (Z.lor S_IRUSR S_IWUSR) S_IRGRP)
                               (if has_flag dexopt_flags DEXOPT_PUBLIC
                                then S_IROTH else 0)) fs1))).2
    by (by rewrite Hswap).
  apply dexopt_swap_keeps_output.
  apply output_file_fchown with (uid := 0) (gid := 0).
  replace (if has_flag dexopt_flags DEXOPT_PUBLIC then 420 else 416)
    with (Z.lor (Z.lor (Z.lor S_IRUSR S_IWUSR) S_IRGRP)
            (if has_flag dexopt_flags DEXOPT_PUBLIC then S_IROTH else 0))
    by (by destruct (has_flag dexopt_flags DEXOPT_PUBLIC)).
  apply output_file_fchmod with (mode := 420).
  by eapply output_file_created.
Qed.

Lemma output_file_unlinked (path : string) (fd : nat) (mode uid gid : Z) (fs : Fs.t) :
  output_file path fd mode uid gid fs -> names (unlink path fs).2 !! path = None.
Proof.
  intros (Hn & _ & nd & Hi & Hd & _). apply unlink_gone.
  unfold not_a_directory, stat. by rewrite Hn, Hi.
Qed.

Lemma creat_names_other (creatable : bool) (path other : string) (mode : Z)
    (fs fs' : Fs.t) (fd : nat) :
  path <> other ->
  open_creat_excl creatable path mode fs = Some (fd, fs') ->
  names fs' !! other = names fs !! other.
Proof.
  intros Hne (_ & _ & -> & _)%open_creat_excl_Some. by rewrite lookup_insert_ne.
Qed.

Lemma child_effects_names (e : env) (ce : child_end) (input_fd out_fd : nat) (fs : Fs.t) :
  names (child_effects e ce input_fd out_fd fs) = names fs.
Proof. by destruct ce. Qed.

(** The swap step leaves no swap file of its own behind. *)
Lemma dexopt_swap_leaves_no_swap (e : env) (out_path : string) (fs : Fs.t) (ino : nat) :
  names (dexopt_swap e out_path fs).2 !! swap_file_name_of out_path = Some ino ->
  names fs !! swap_file_name_of out_path = Some ino.
Proof.
  unfold dexopt_swap.
  destruct (Swap.ShouldUseSwapFileForDexopt (props e)); [|done].
  destruct (_ <=? PKG_PATH_MAX); [|done].
  destruct (open_creat_excl _ _ _ _) as [[swap_fd fs2]|] eqn:Hcreat; cbn [snd].
  - apply output_file_created in Hcreat.
    by rewrite (output_file_unlinked _ _ _ _ _ _ Hcreat).
  - apply unlink_names_sub.
Qed.


Lemma dexopt_swap_names_other (e : env) (out_path other : string) (fs : Fs.t) :
  other <> swap_file_name_of out_path ->
  names (dexopt_swap e out_path fs).2 !! other = names fs !! other.
Proof.
  intros Hne. unfold dexopt_swap.
  destruct (Swap.ShouldUseSwapFileForDexopt (props e)); [|done].
  destruct (_ <=? PKG_PATH_MAX); [|done].
  destruct (open_creat_excl _ _ _ _) as [[swap_fd fs2]|] eqn:Hcreat; cbn [snd].
  - rewrite unlink_names_other by (by apply not_eq_sym).
    rewrite (creat_names_other _ _ _ _ _ _ _ (not_eq_sym Hne) Hcreat).
    by apply unlink_names_other, not_eq_sym.
  - by apply unlink_names_other, not_eq_sym.
Qed.

Lemma utime_names (path : string) (actime modtime : Z) (fs : Fs.t) :
  names (utime path actime modtime fs) = names fs.
Proof. unfold utime. by destruct (names fs !! path). Qed.

(** At and below the fresh output file nothing that was a non-directory
    before has become a directory. *)
Lemma not_a_directory_kept (path out_path : string) (fd : nat) (mode uid gid : Z)
    (fs fs1 : Fs.t) :
  output_file out_path fd mode uid gid fs1 ->
  names fs1 !! path = names fs !! path ->
  (forall i, i <> fd -> inodes fs1 !! i = inodes fs !! i) ->
  not_a_directory path fs -> not_a_directory path fs1.
Proof.
  intros (_ & _ & nd & Hnd & Hreg & _) Hnames Hinodes.
  unfold not_a_directory, stat. rewrite Hnames.
  destruct (names fs !! path) as [i|]; [|done].
  destruct (decide (i = fd)) as [->|Hne]; [by rewrite Hnd|].
  by rewrite Hinodes.
Qed.

Lemma dexopt_swap_skipped (e : env) (out_path : string) (fs : Fs.t) :
  ~ (Swap.ShouldUseSwapFileForDexopt (props e) = true
     /\ strlen out_path + strlen ".swap" + 1 <= PKG_PATH_MAX) ->
  dexopt_swap e out_path fs = (-1, fs).
Proof.
  intros Hno. unfold dexopt_swap.
  destruct (Swap.ShouldUseSwapFileForDexopt (props e)); [|done].
  destruct (_ <=? PKG_PATH_MAX) eqn:Hfits; [|done].
  apply Z.leb_le in Hfits. by destruct Hno.
Qed.

Lemma dexopt_swap_attempted (e : env) (out_path : string) (fs : Fs.t) :
  Swap.ShouldUseSwapFileForDexopt (props e) = true ->
  strlen out_path + strlen ".swap" + 1 <= PKG_PATH_MAX ->
  not_a_directory (swap_file_name_of out_path) fs ->
  names (dexopt_swap e out_path fs).2 !! swap_file_name_of out_path = None
  /\ (creatable e (swap_file_name_of out_path) = true ->
      exists swap_fd : nat,
        (dexopt_swap e out_path fs).1 = Z.of_nat swap_fd
        /\ inodes (dexopt_swap e out_path fs).2 !! swap_fd
           = Some (Inode false 384 0 0 (clock fs) (clock fs)))
  /\ (creatable e (swap_file_name_of out_path) = false ->
      (dexopt_swap e out_path fs).1 = -1).
Proof.
  intros Hpolicy Hfits Hnd. unfold dexopt_swap. rewrite Hpolicy.
  rewrite (proj2 (Z.leb_le _ _) Hfits).
  pose proof (unlink_gone _ _ Hnd) as Hgone.
  destruct (unlink_inodes (swap_file_name_of out_path) fs) as [Hinodes Hnext].
  unfold open_creat_excl. rewrite Hgone.
  destruct (creatable e (swap_file_name_of out_path)); cbn [fst snd].
  - split; [|split; [intros _|discriminate]].
    + apply unlink_gone. unfold not_a_directory, stat. cbn.
      by rewrite !lookup_insert_eq.
    + eexists. split; [reflexivity|].
      match goal with
      | |- inodes (unlink ?p ?fs2).2 !! _ = _ =>
          destruct (unlink_inodes p fs2) as [-> _]
      end.
      cbn. rewrite lookup_insert_eq. f_equal. f_equal.
      all: unfold unlink; by repeat case_match.
  - split; [done|]. split; [discriminate|done].
Qed.


End DexoptFacts.

Section DexoptExamples.
Import Example Fs Dexopt.

(** Scenario 3 of the specification on the example device: the package
    [/data/app/a.apk], uid 10042, [arm64], compilation needed, no oat
    directory, PUBLIC, no profiles. *)
Lemma dexopt_success_output_witness :
  let run := dexopt (calm ∅ 0) "/data/app/a.apk" 10042 "com.x" "arm64"
               DEXOPT_DEX2OAT_NEEDED None DEXOPT_PUBLIC None false disk_with_apk in
  run.1 = Returned 0
  /\ (false = true -> profile_files (calm ∅ 0) <> [])
  /\ stat out_name run.2 = Some (Inode false 420 1000 10042 1111 2222).
Proof.
  cbv zeta.
  assert (Hrun : dexopt (calm ∅ 0) "/data/app/a.apk" 10042 "com.x" "arm64"
                   DEXOPT_DEX2OAT_NEEDED None DEXOPT_PUBLIC None false disk_with_apk
                 = (Returned 0,
                    (dexopt (calm ∅ 0) "/data/app/a.apk" 10042 "com.x" "arm64"
                       DEXOPT_DEX2OAT_NEEDED None DEXOPT_PUBLIC None false
                       disk_with_apk).2)).
  { vm_compute. reflexivity. }
  assert (Hfork : false = true -> profile_files (calm ∅ 0) <> []) by discriminate.
  split; [by rewrite Hrun|]. split; [exact Hfork|].
  destruct (dexopt_success_output _ _ _ _ _ _ _ _ _ _ _ _ Hrun Hfork)
    as (out_path & input_file & input_stat & Hout & Hin & Hstat & Hres).
  vm_compute in Hout. injection Hout as <-.
  vm_compute in Hin. injection Hin as <-.
  vm_compute in Hstat. injection Hstat as <-.
  exact Hres.
Defined.





End DexoptExamples.

(** * Further properties *)

(** ** App-data lifecycle *)

Section LifecycleFacts.
Context `{InstalldDeps} `{InstalldMoreDeps}.
Import Trace AppData Lifecycle.

Lemma lor_zero (a b : Z) : Z.lor a b = 0 <-> a = 0 /\ b = 0.
Proof. apply Z.lor_eq_0_iff. Qed.

(** Histories written as one list. *)
Ltac flatten_histories :=
  repeat match goal with
         | H : context [(?a ++ ?b) ++ ?c] |- _ => rewrite <- (assoc_L (++) a b c) in H
         | |- context [(?a ++ ?b) ++ ?c] => rewrite <- (assoc_L (++) a b c)
         end;
  cbn [app] in *.

(** X1: [create_app_data] prepares each enabled class strictly with mode
    0751 and owner [(uid, uid)] and then labels it, CE before DE; a
    prepare has failed when it answers other than 0 (CE) or -1 (DE), a
    labelling when it answers below 0.  The call returns 0 exactly when
    no step failed, having made all of them; otherwise it returns -1
    having stopped at the first step that failed, which is followed by
    one log line and by no further call. *)
Theorem create_app_data_steps (o : oracle) (uuid : option string) (pkgname : string)
    (userid flags appid : Z) (seinfo : option string) (tr : list event) :
  let uid := multiuser_get_uid userid appid in
  let steps (path : string) (prepare_fails : Z -> bool) : list (event * (Z -> bool)) :=
    [(FsPrepareDirStrict path 489 uid uid, prepare_fails);
     (SelinuxSetfilecon path pkgname seinfo uid, fun r => r <? 0)] in
  let expected :=
    (if has_flag flags FLAG_CE_STORAGE
     then steps (create_data_user_package_path uuid userid pkgname)
                (fun r => negb (r =? 0))
     else [])
    ++ (if has_flag flags FLAG_DE_STORAGE
        then steps (create_data_user_de_package_path uuid userid pkgname)
                   (fun r => r =? -1)
        else []) in
  let calls := expected.*1 in
  let failed (k : nat) :=
    match expected !! k with
    | Some (call, fails) => fails (o (tr ++ take k calls) call)
    | None => false
    end in
  let run := create_app_data o uuid pkgname userid flags appid seinfo tr in
  (run.1 = 0 /\ run.2 = tr ++ calls /\ forall k, failed k = false)
  \/ (run.1 = -1
      /\ exists k msg,
           failed k = true
           /\ (forall j, (j < k)%nat -> failed j = false)
           /\ run.2 = tr ++ take (S k) calls ++ [Log msg]).
Proof.
  cbv zeta. unfold create_app_data, bind, call, log, ret.
  set (uid := multiuser_get_uid userid appid).
  set (ce := create_data_user_package_path uuid userid pkgname).
  set (de := create_data_user_de_package_path uuid userid pkgname).
  destruct (has_flag flags FLAG_CE_STORAGE), (has_flag flags FLAG_DE_STORAGE);
    cbn [app fmap list_fmap fst snd];
    repeat match goal with
           | |- context [if ?c then _ else _] => destruct c eqn:?
           end;
    cbn [fst snd]; flatten_histories;
    first
      [ left; split; [reflexivity|]; split; [by rewrite ?app_nil_r|];
        intros [|[|[|[|k]]]]; cbn; rewrite ?app_nil_r; done
      | right; split; [reflexivity|];
        first
          [ exists 0%nat; eexists; split; [cbn; by rewrite ?app_nil_r|];
            split; [intros j Hj; lia|reflexivity]
          | exists 1%nat; eexists; split; [cbn; by rewrite ?app_nil_r|];
            split; [intros [|j] Hj; [cbn; by rewrite ?app_nil_r|lia]|reflexivity]
          | exists 2%nat; eexists; split; [cbn; by rewrite ?app_nil_r|];
            split; [intros [|[|j]] Hj; [cbn; by rewrite ?app_nil_r..|lia]|reflexivity]
          | exists 3%nat; eexists; split; [cbn; by rewrite ?app_nil_r|];
            split; [intros [|[|[|j]]] Hj; [cbn; by rewrite ?app_nil_r..|lia]|reflexivity]
          ] ].
Qed.

(** X2: [clear_app_data] deletes only the contents of the per-class
    package directory (or of its cache or code-cache subdirectory), never
    the directory itself and nothing else; when [access] finds neither
    directory, it deletes nothing and returns 0. *)
Theorem clear_app_data_missing_is_success (o : oracle) (uuid : option string)
    (pkgname : string) (userid flags : Z) (tr : list event) :
  let ce := create_data_user_package_path uuid userid pkgname +:+ clear_suffix flags in
  let de := create_data_user_de_package_path uuid userid pkgname +:+ clear_suffix flags in
  let run := clear_app_data o uuid pkgname userid flags tr in
  exists new,
    run.2 = tr ++ new
    /\ Forall (fun e => e = DeleteDirContents ce false \/ e = DeleteDirContents de false)
              (mutations new)
    /\ ((forall history path, o history (Access path) <> 0) ->
        run.1 = 0 /\ mutations new = []).
Proof.
  cbv zeta. unfold clear_app_data, clear_one, delete_dir_contents, bind, call, ret.
  set (ce := create_data_user_package_path uuid userid pkgname +:+ clear_suffix flags).
  set (de := create_data_user_de_package_path uuid userid pkgname +:+ clear_suffix flags).
  destruct (has_flag flags FLAG_CE_STORAGE), (has_flag flags FLAG_DE_STORAGE);
    repeat match goal with
           | |- context [if ?c then _ else _] => destruct c eqn:?
           end;
    cbn [fst snd]; rewrite <- ?(assoc_L (++)); cbn [app];
    (first [ exists []; split; [by rewrite app_nil_r|]
           | eexists; split; [reflexivity|] ]);
    (split; [cbn; repeat constructor; auto|]);
    intros Hmissing;
    repeat match goal with
           | Hacc : (o ?h (Access ?p) =? 0) = true |- _ =>
               apply Z.eqb_eq in Hacc; destruct (Hmissing h p Hacc)
           end;
    done.
Qed.

(** X3: [destroy_app_data] asks for the deletion of contents and
    directory of every enabled class, whatever the first deletion
    answers, and returns 0 exactly when every deletion answered 0. *)
Theorem destroy_app_data_attempts_all (o : oracle) (uuid : option string)
    (pkgname : string) (userid flags : Z) (tr : list event) :
  let ce := DeleteDirContents (create_data_user_package_path uuid userid pkgname) true in
  let de := DeleteDirContents (create_data_user_de_package_path uuid userid pkgname) true in
  let ce_part := if has_flag flags FLAG_CE_STORAGE then [ce] else [] in
  let de_part := if has_flag flags FLAG_DE_STORAGE then [de] else [] in
  let run := destroy_app_data o uuid pkgname userid flags tr in
  run.2 = tr ++ ce_part ++ de_part
  /\ (run.1 = 0 <->
      (has_flag flags FLAG_CE_STORAGE = true -> o tr ce = 0)
      /\ (has_flag flags FLAG_DE_STORAGE = true -> o (tr ++ ce_part) de = 0)).
Proof.
  cbv zeta. unfold destroy_app_data, delete_dir_contents_and_dir, bind, call, ret.
  destruct (has_flag flags FLAG_CE_STORAGE), (has_flag flags FLAG_DE_STORAGE);
    cbn [fst snd app]; rewrite <- ?(assoc_L (++)), ?app_nil_r; cbn [app];
    (split; [reflexivity|]); rewrite ?lor_zero, ?Z.lor_0_l; intuition congruence.
Qed.

(** X4: [delete_user] always asks for the deletion of the user's CE, DE
    and media directories, in this order and whatever the earlier ones
    answer; the configuration directory is deleted as well on internal
    storage and never on another volume.  The result is 0 exactly when
    every deletion answered 0 (and, on internal storage, the
    configuration path could be built); a failure on the configuration
    directory makes it -1. *)
Theorem delete_user_attempts_all (o : oracle) (uuid : option string) (userid : Z)
    (tr : list event) :
  let d1 := DeleteDirContents (create_data_user_path uuid userid) true in
  let d2 := DeleteDirContents (create_data_user_de_path uuid userid) true in
  let d3 := DeleteDirContents (create_data_media_path uuid userid) true in
  let config :=
    match uuid, create_user_config_path userid with
    | None, Some config_path => [DeleteDirContents config_path true]
    | _, _ => []
    end in
  let run := delete_user o uuid userid tr in
  run.2 = tr ++ [d1; d2; d3] ++ config
  /\ (run.1 = 0 <->
      o tr d1 = 0 /\ o (tr ++ [d1]) d2 = 0 /\ o (tr ++ [d1; d2]) d3 = 0
      /\ (uuid = None ->
          exists config_path,
            create_user_config_path userid = Some config_path
            /\ o (tr ++ [d1; d2; d3]) (DeleteDirContents config_path true) = 0)).
Proof.
  cbv zeta. unfold delete_user, delete_dir_contents_and_dir, bind, call, ret.
  rewrite Z.lor_0_l.
  destruct uuid as [u|]; [|destruct (create_user_config_path userid) as [cfg|]];
    cbn [fst snd]; rewrite <- ?(assoc_L (++)); cbn [app]; rewrite ?app_nil_r.
  - split; [reflexivity|]. rewrite !lor_zero. intuition congruence.
  - destruct (negb _) eqn:Hcfg; cbn [fst snd]; (split; [reflexivity|]).
    + apply negb_true_iff, Z.eqb_neq in Hcfg. split; [discriminate|].
      intros (_ & _ & _ & Hc). destruct (Hc eq_refl) as (cfg' & [= <-] & Hz). done.
    + apply negb_false_iff, Z.eqb_eq in Hcfg. rewrite !lor_zero. split.
      * intros ((? & ?) & ?). repeat split; try done. intros _. by exists cfg.
      * intros (? & ? & ? & _). done.
  - split; [reflexivity|]. split; [discriminate|].
    intros (_ & _ & _ & Hc). destruct (Hc eq_refl) as (cfg' & [=] & _).
Qed.

(** X5: for an accepted oat directory [create_oat_dir] makes three calls
    in order: the oat directory prepared with mode 0771 and owner
    [(AID_SYSTEM, AID_INSTALL)], a restorecon of it that does not recurse,
    and the per-instruction-set directory prepared the same way, its name
    being [oat_dir/isa] cut to the path buffer.  A call has failed when it
    answers other than 0.  The result is 0 exactly when none failed;
    otherwise it is -1 and the first call that failed is the last one
    made, a failed restorecon being logged. *)
Theorem create_oat_dir_steps (o : oracle) (oat_dir instruction_set : string)
    (tr : list event) :
  validate_apk_path oat_dir = 0 ->
  let prepare (path : string) := FsPrepareDir path 505 AID_SYSTEM AID_INSTALL in
  let calls :=
    [prepare oat_dir; SelinuxRestorecon oat_dir 0;
     prepare (snprintf PKG_PATH_MAX (oat_dir +:+ "/" +:+ instruction_set))] in
  let failed (k : nat) :=
    match calls !! k with
    | Some call => negb (o (tr ++ take k calls) call =? 0)
    | None => false
    end in
  let run := create_oat_dir o oat_dir instruction_set tr in
  (run.1 = 0 /\ run.2 = tr ++ calls /\ forall k, failed k = false)
  \/ (run.1 = -1
      /\ exists k,
           failed k = true
           /\ (forall j, (j < k)%nat -> failed j = false)
           /\ run.2 = tr ++ take (S k) calls
                      ++ (if (k =? 1)%nat
                          then [Log ("cannot restorecon dir '" +:+ oat_dir +:+ "'")]
                          else [])).
Proof.
  intros Hvalid. cbv zeta. unfold create_oat_dir, bind, call, log, ret.
  rewrite Hvalid. unfold truthy. cbn [Z.eqb negb].
  change oat_dir_mode with 505.
  repeat match goal with
         | |- context [if negb ?c then _ else _] => destruct (negb c) eqn:?
         end;
    cbn [fst snd]; flatten_histories;
    first
      [ left; split; [reflexivity|]; split; [by rewrite ?app_nil_r|];
        intros [|[|[|k]]]; cbn; rewrite ?app_nil_r; done
      | right; split; [reflexivity|];
        first
          [ exists 0%nat; split; [cbn; by rewrite ?app_nil_r|];
            split; [intros j Hj; lia|by rewrite ?app_nil_r]
          | exists 1%nat; split; [cbn; by rewrite ?app_nil_r|];
            split; [intros [|j] Hj; [cbn; by rewrite ?app_nil_r|lia]|reflexivity]
          | exists 2%nat; split; [cbn; by rewrite ?app_nil_r|];
            split; [intros [|[|j]] Hj; [cbn; by rewrite ?app_nil_r..|lia]
                   |by rewrite ?app_nil_r]
          ] ].
Qed.

End LifecycleFacts.

Section LifecycleExamples.
Import Example MoreExamples Trace Lifecycle.

(** On the example device: [/data/app/com.x-1/oat] for [arm64]. *)
Lemma create_oat_dir_steps_witness :
  let run := create_oat_dir (failing []) "/data/app/com.x-1/oat" "arm64" [] in
  validate_apk_path "/data/app/com.x-1/oat" = 0
  /\ run.1 = 0
  /\ run.2 = [FsPrepareDir "/data/app/com.x-1/oat" 505 1000 1012;
              SelinuxRestorecon "/data/app/com.x-1/oat" 0;
              FsPrepareDir "/data/app/com.x-1/oat/arm64" 505 1000 1012].
Proof.
  cbv zeta.
  assert (Hvalid : validate_apk_path "/data/app/com.x-1/oat" = 0) by reflexivity.
  split; [exact Hvalid|].
  assert (Hzero : (create_oat_dir (failing []) "/data/app/com.x-1/oat" "arm64" []).1 = 0)
    by (vm_compute; reflexivity).
  split; [exact Hzero|].
  destruct (create_oat_dir_steps (failing []) "/data/app/com.x-1/oat" "arm64" [] Hvalid)
    as [(_ & Htr & _)|(Hfail & _)].
  - cbv zeta in Htr. rewrite Htr. vm_compute. reflexivity.
  - cbv zeta in Hfail. rewrite Hzero in Hfail. discriminate Hfail.
Defined.

End LifecycleExamples.

(** ** Path validation and the plain system calls *)

Section ValidationFacts.
Context `{InstalldDeps} `{InstalldMoreDeps}.
Import Trace Lifecycle Fs Boot.

(** X6: a caller-supplied path that the validator rejects makes the
    command return -1 before anything on disk is touched:
    [create_oat_dir] and [rm_package_dir] make no call that changes the
    disk, [rm_dex] and [link_file] leave the file system as it was. *)
Theorem rejected_path_changes_nothing (o : oracle) (path other : string)
    (linkable : bool) (tr : list event) (fs : Fs.t) :
  (validate_apk_path path <> 0 ->
   (create_oat_dir o path other tr).1 = -1
   /\ mutations (create_oat_dir o path other tr).2 = mutations tr
   /\ (rm_package_dir o path tr).1 = -1
   /\ mutations (rm_package_dir o path tr).2 = mutations tr)
  /\ (validate_apk_path path <> 0 -> validate_system_app_path path <> 0 ->
      (RmDex.rm_dex path other fs).1 = (-1, fs))
  /\ (validate_apk_path_subdirs (snprintf PKG_PATH_MAX (path +:+ "/" +:+ other)) <> 0 ->
      forall to_base, link_file linkable other path to_base fs = (-1, fs))
  /\ (validate_apk_path_subdirs (snprintf PKG_PATH_MAX (path +:+ "/" +:+ other)) <> 0 ->
      forall from_base, link_file linkable other from_base path fs = (-1, fs)).
Proof.
  assert (Htruthy : forall z, z <> 0 -> truthy z = true).
  { intros z Hz. unfold truthy. by apply negb_true_iff, Z.eqb_neq. }
  split; [intros Hv|split; [intros Hv Hs|split; [intros Hv to_base|intros Hv from_base]]].
  - unfold create_oat_dir, rm_package_dir, mutations.
    rewrite (Htruthy _ Hv). cbn. by rewrite List.filter_app, app_nil_r.
  - unfold RmDex.rm_dex. by rewrite (Htruthy _ Hv), (Htruthy _ Hs).
  - unfold link_file. by rewrite (Htruthy _ Hv).
  - unfold link_file. rewrite (Htruthy _ Hv). by destruct (truthy _).
Qed.

Lemma unlink_cases (path : string) (fs : Fs.t) :
  let removable :=
    exists ino, names fs !! path = Some ino
                /\ match inodes fs !! ino with
                   | Some nd => st_isdir nd = false
                   | None => True
                   end in
  (removable
   /\ unlink path fs
      = (Ok, Make (delete path (names fs)) (inodes fs) (next_ino fs) (clock fs)))
  \/ (~ removable /\ exists errno, unlink path fs = (Errno errno, fs)).
Proof.
  cbv zeta. unfold unlink.
  destruct (names fs !! path) as [ino|] eqn:Hn.
  - destruct (inodes fs !! ino) as [nd|] eqn:Hi.
    + destruct (st_isdir nd) eqn:Hd.
      * right. split; [|by eexists].
        intros (ino' & [= <-] & Hnd). rewrite Hi in Hnd. congruence.
      * left. split; [|done]. exists ino. by rewrite Hi.
    + left. split; [|done]. exists ino. by rewrite Hi.
  - right. split; [|by eexists]. by intros (ino & [=] & _).
Qed.

(** X7: for an instruction set whose marker path fits the path buffer,
    [mark_boot_complete] returns 0 exactly when the boot marker is on disk
    and is not a directory; the marker is then gone, every other name is
    as before, and a second call returns -1.  When it returns -1 nothing
    has changed.  A marker path that does not fit overruns the buffer:
    the call has no defined result. *)
Theorem mark_boot_complete_once (instruction_set : string) (fs : Fs.t) :
  let marker := boot_marker_path instruction_set in
  (strlen marker < PKG_PATH_MAX ->
   exists run,
     mark_boot_complete instruction_set fs = Some run
     /\ (run.1 = 0 <->
         exists ino, names fs !! marker = Some ino
                     /\ match inodes fs !! ino with
                        | Some nd => st_isdir nd = false
                        | None => True
                        end)
     /\ (run.1 = 0 \/ run.1 = -1)
     /\ (run.1 = 0 ->
         names run.2 !! marker = None
         /\ (forall other, other <> marker -> names run.2 !! other = names fs !! other)
         /\ mark_boot_complete instruction_set run.2 = Some (-1, run.2))
     /\ (run.1 = -1 -> run.2 = fs))
  /\ (PKG_PATH_MAX <= strlen marker -> mark_boot_complete instruction_set fs = None).
Proof.
  cbv zeta. unfold mark_boot_complete.
  set (marker := boot_marker_path instruction_set).
  split.
  - intros Hfits. rewrite (proj2 (Z.leb_gt _ _) Hfits). eexists. split; [reflexivity|].
    destruct (unlink_cases marker fs) as [[Hrem ->]|[Hnot [errno ->]]]; cbn [fst snd].
    + split; [by split|]. split; [auto|]. split; [|done]. intros _.
      split; [apply lookup_delete_eq|].
      split; [intros other Hne; by apply lookup_delete_ne|].
      unfold unlink. cbn. by rewrite lookup_delete_eq.
    + split; [split; [done|by intros ?]|]. split; [auto|]. split; done.
  - intros Hlong. by rewrite (proj2 (Z.leb_le _ _) Hlong).
Qed.


(** X9: when the cache file is on disk as a regular file, [rm_dex]
    returns 0 and the file's name is gone, the other names staying;
    whatever happens, [rm_dex] removes no name other than the cache
    path. *)
Theorem rm_dex_removes_cache_file (path instruction_set dex_path : string) (fs : Fs.t)
    (nd : inode) :
  validate_apk_path path = 0 \/ validate_system_app_path path = 0 ->
  create_cache_path path instruction_set = Some dex_path ->
  stat dex_path fs = Some nd ->
  st_isdir nd = false ->
  let run := RmDex.rm_dex path instruction_set fs in
  run.1.1 = 0
  /\ names run.1.2 !! dex_path = None
  /\ (forall other, other <> dex_path -> names run.1.2 !! other = names fs !! other)
  /\ run.2 = [].
Proof.
  intros Hvalid Hpath Hstat Hd. cbv zeta. unfold RmDex.rm_dex.
  assert (truthy (validate_apk_path path) && truthy (validate_system_app_path path) = false)
    as ->.
  { unfold truthy. destruct Hvalid as [-> | ->]; simpl; [done|].
    by rewrite andb_false_r. }
  rewrite Hpath.
  pose proof (unlink_gone dex_path fs) as Hgone.
  pose proof (unlink_names_other dex_path) as Hother.
  unfold not_a_directory in Hgone. rewrite Hstat in Hgone. specialize (Hgone Hd).
  unfold stat in Hstat. unfold unlink in *.
  destruct (names fs !! dex_path) as [ino|]; [|done].
  rewrite Hstat, Hd in *. cbn in *.
  split; [done|]. split; [done|]. split; [|done].
  intros other Hne. by apply lookup_delete_ne.
Qed.

End ValidationFacts.

Section ValidationExamples.
Import Example MoreExamples Fs Boot.

Lemma rm_dex_removes_cache_file_witness :
  let run := RmDex.rm_dex "/data/app/a.apk" "arm64" disk_with_apk_and_stale_output in
  (validate_apk_path "/data/app/a.apk" = 0 \/ validate_system_app_path "/data/app/a.apk" = 0)
  /\ create_cache_path "/data/app/a.apk" "arm64" = Some out_name
  /\ stat out_name disk_with_apk_and_stale_output = Some stale_inode
  /\ st_isdir stale_inode = false
  /\ run.1.1 = 0
  /\ names run.1.2 !! out_name = None.
Proof.
  cbv zeta.
  assert (H1 : validate_apk_path "/data/app/a.apk" = 0
               \/ validate_system_app_path "/data/app/a.apk" = 0) by (left; reflexivity).
  assert (H2 : create_cache_path "/data/app/a.apk" "arm64" = Some out_name) by reflexivity.
  assert (H3 : stat out_name disk_with_apk_and_stale_output = Some stale_inode)
    by (vm_compute; reflexivity).
  assert (H4 : st_isdir stale_inode = false) by reflexivity.
  do 4 (split; [done|]).
  destruct (rm_dex_removes_cache_file _ _ _ _ _ H1 H2 H3 H4) as (Hz & Hgone & _).
  by split.
Defined.

(** The end of the first boot on the example device. *)
Lemma mark_boot_complete_once_witness :
  strlen (boot_marker_path "arm64") < PKG_PATH_MAX
  /\ exists run,
       mark_boot_complete "arm64" booting_disk = Some run
       /\ run.1 = 0
       /\ names run.2 !! boot_marker_path "arm64" = None
       /\ mark_boot_complete "arm64" run.2 = Some (-1, run.2).
Proof.
  assert (Hfits : strlen (boot_marker_path "arm64") < PKG_PATH_MAX) by (by vm_compute).
  split; [exact Hfits|].
  destruct (proj1 (mark_boot_complete_once "arm64" booting_disk) Hfits)
    as (run & Hrun & Hiff & _ & Hzero & _).
  assert (Hres : run.1 = 0).
  { apply Hiff. exists 1%nat. split; [by vm_compute|]. by vm_compute. }
  exists run. split; [exact Hrun|]. split; [exact Hres|].
  destruct (Hzero Hres) as (Hgone & _ & Hagain). by split.
Defined.

End ValidationExamples.

(** ** idmap and the frame of dexopt *)

Section IdmapFacts.
Context `{InstalldDeps}.
Import Fs Dexopt IdmapCmd.

Lemma output_file_stat (path : string) (fd : nat) (mode uid gid : Z) (fs : Fs.t) :
  output_file path fd mode uid gid fs ->
  exists nd, stat path fs = Some nd
             /\ st_isdir nd = false /\ st_mode nd = mode
             /\ st_uid nd = uid /\ st_gid nd = gid.
Proof.
  intros (Hn & _ & nd & Hi & Hrest). exists nd. unfold stat. by rewrite Hn, Hi.
Qed.

(** X10: when [idmap] returns 0, the idmap path computed from the overlay
    names a regular file of mode 0644 owned by [(AID_SYSTEM, uid)], and no
    other name on disk has changed. *)
Theorem idmap_success_file (SIZE_MAX : Z) (e : env) (target_apk : string)
    (overlay_apk : option string) (uid : Z) (fs fs' : Fs.t) :
  idmap SIZE_MAX e target_apk overlay_apk uid fs = (0, fs') ->
  exists idmap_path nd,
    idmap_path_of SIZE_MAX overlay_apk = Some idmap_path
    /\ stat idmap_path fs' = Some nd
    /\ st_isdir nd = false /\ st_mode nd = 420
    /\ st_uid nd = AID_SYSTEM /\ st_gid nd = uid
    /\ (forall other, other <> idmap_path -> names fs' !! other = names fs !! other).
Proof.
  unfold idmap, idmap_fail. intros Hrun.
  destruct (idmap_path_of SIZE_MAX overlay_apk) as [idmap_path|]; [|discriminate].
  destruct (open_creat_excl _ idmap_path 420 _) as [[idmap_fd fs1]|] eqn:Hcreat;
    [|discriminate].
  destruct (fchown_fails e); [discriminate|].
  destruct (fchmod_fails e); [discriminate|].
  destruct (negb _); [discriminate|].
  injection Hrun as <-.
  apply output_file_created in Hcreat as Hfile.
  eapply (output_file_fchown _ _ _ _ _ AID_SYSTEM uid) in Hfile.
  eapply (output_file_fchmod _ _ _
            (Z.lor (Z.lor (Z.lor S_IRUSR S_IWUSR) S_IRGRP) S_IROTH)) in Hfile.
  assert (Hnames : forall fs2 other,
             names fs2 = names (fchmod idmap_fd
                                  (Z.lor (Z.lor (Z.lor S_IRUSR S_IWUSR) S_IRGRP) S_IROTH)
                                  (fchown idmap_fd AID_SYSTEM uid fs1)) ->
             other <> idmap_path -> names fs2 !! other = names fs !! other).
  { intros fs2 other -> Hne. cbn.
    rewrite (creat_names_other _ _ _ _ _ _ _ (not_eq_sym Hne) Hcreat).
    by apply unlink_names_other, not_eq_sym. }
  exists idmap_path.
  destruct (idmap_child e target_apk (default "" overlay_apk) (Z.of_nat idmap_fd)).
  - destruct (output_file_stat _ _ _ _ _ _ Hfile) as (nd & ? & ? & ? & ? & ?).
    exists nd. repeat split; try done. intros other. by apply Hnames.
  - apply (output_file_touched _ _ idmap_fd _ _ _ _
             (set_times (child_out_times e).1 (child_out_times e).2)) in Hfile;
      [|by intros []].
    destruct (output_file_stat _ _ _ _ _ _ Hfile) as (nd & ? & ? & ? & ? & ?).
    exists nd. repeat split; try done. intros other. by apply Hnames.
Qed.

(** X11: when [idmap] returns -1 although the idmap path could be
    computed, no file is left at that path (unless it named a directory),
    a stale idmap file included, and no other name has changed; when the
    path cannot be computed (relative or over-long overlay path) the disk
    is as before. *)
Theorem idmap_failure_rollback (SIZE_MAX : Z) (e : env) (target_apk : string)
    (overlay_apk : option string) (uid : Z) (fs fs' : Fs.t) :
  idmap SIZE_MAX e target_apk overlay_apk uid fs = (-1, fs') ->
  match idmap_path_of SIZE_MAX overlay_apk with
  | None => fs' = fs
  | Some idmap_path =>
      (not_a_directory idmap_path fs -> names fs' !! idmap_path = None)
      /\ (forall other, other <> idmap_path -> names fs' !! other = names fs !! other)
  end.
Proof.
  unfold idmap, idmap_fail. intros Hrun.
  destruct (idmap_path_of SIZE_MAX overlay_apk) as [idmap_path|];
    [|by injection Hrun as <-].
  destruct (open_creat_excl _ idmap_path 420 _) as [[idmap_fd fs1]|] eqn:Hcreat.
  2:{ injection Hrun as <-. split; [apply unlink_gone|].
      intros other Hne. by apply unlink_names_other, not_eq_sym. }
  apply output_file_created in Hcreat as Hfile.
  assert (Hfail : forall fs2 mode u g,
             output_file idmap_path idmap_fd mode u g fs2 ->
             names fs2 = names fs1 ->
             (not_a_directory idmap_path fs ->
              names (unlink idmap_path fs2).2 !! idmap_path = None)
             /\ (forall other, other <> idmap_path ->
                               names (unlink idmap_path fs2).2 !! other = names fs !! other)).
  { intros fs2 mode u g Hfile2 Hnames. split.
    - intros _. by eapply output_file_unlinked.
    - intros other Hne. rewrite unlink_names_other, Hnames by (by apply not_eq_sym).
      rewrite (creat_names_other _ _ _ _ _ _ _ (not_eq_sym Hne) Hcreat).
      by apply unlink_names_other, not_eq_sym. }
  destruct (fchown_fails e); [injection Hrun as <-; by eapply Hfail|].
  eapply (output_file_fchown _ _ _ _ _ AID_SYSTEM uid) in Hfile.
  destruct (fchmod_fails e); [injection Hrun as <-; by eapply Hfail|].
  eapply (output_file_fchmod _ _ _
            (Z.lor (Z.lor (Z.lor S_IRUSR S_IWUSR) S_IRGRP) S_IROTH)) in Hfile.
  destruct (negb _); [|discriminate].
  injection Hrun as <-.
  destruct (idmap_child e target_apk (default "" overlay_apk) (Z.of_nat idmap_fd)).
  - by eapply Hfail.
  - apply (output_file_touched _ _ idmap_fd _ _ _ _
             (set_times (child_out_times e).1 (child_out_times e).2)) in Hfile;
      [|by intros []].
    by eapply Hfail.
Qed.

End IdmapFacts.

Section DexoptFrame.
Context `{InstalldDeps}.
Import Fs Dexopt.

(** The names on disk after a call without profiles. *)
Lemma dexopt_names_frame (e : env) (apk_path : string) (uid : Z)
    (pkgname instruction_set : string) (dexopt_needed : Z) (oat_dir : option string)
    (dexopt_flags : Z) (volume_uuid : option string) (fs : Fs.t) :
  let run := dexopt e apk_path uid pkgname instruction_set dexopt_needed oat_dir
               dexopt_flags volume_uuid false fs in
  match dexopt_out_path oat_dir apk_path instruction_set with
  | None => run.2 = fs
  | Some out_path =>
      (forall other,
          other <> out_path -> other <> swap_file_name_of out_path ->
          names run.2 !! other = names fs !! other)
      /\ (forall ino,
            names run.2 !! swap_file_name_of out_path = Some ino ->
            names fs !! swap_file_name_of out_path = Some ino)
  end.
Proof.
  cbv zeta. unfold dexopt. cbv zeta. cbn [andb].
  destruct (_ <=? strlen apk_path).
  { by destruct (dexopt_out_path oat_dir apk_path instruction_set). }
  destruct (dexopt_out_path oat_dir apk_path instruction_set) as [out_path|]; [|done].
  pose proof (swap_name_differs out_path) as Hswapne.
  destruct (dexopt_input_file _ _ _ _) as [input_file| |code]; try done.
  destruct (open_rdonly input_file fs) as [input_fd|]; [|done].
  assert (H0 : (forall other, other <> out_path ->
                  names (unlink out_path fs).2 !! other = names fs !! other)).
  { intros other Hne. by apply unlink_names_other, not_eq_sym. }
  destruct (open_creat_excl _ out_path 420 _) as [[out_fd fs1]|] eqn:Hcreat.
  2:{ cbn. split; [by intros other Hne _; apply H0|].
      intros ino. by rewrite H0. }
  assert (H1 : forall other, other <> out_path -> names fs1 !! other = names fs !! other).
  { intros other Hne.
    rewrite (creat_names_other _ _ _ _ _ _ _ (not_eq_sym Hne) Hcreat). by apply H0. }
  assert (Hfail : forall fs2,
             (forall other, other <> out_path -> other <> swap_file_name_of out_path ->
                            names fs2 !! other = names fs !! other) ->
             (forall ino, names fs2 !! swap_file_name_of out_path = Some ino ->
                          names fs !! swap_file_name_of out_path = Some ino) ->
             (forall other, other <> out_path -> other <> swap_file_name_of out_path ->
                names (dexopt_fail (Some out_fd) out_path fs2).2 !! other
                = names fs !! other)
             /\ (forall ino,
                   names (dexopt_fail (Some out_fd) out_path fs2).2
                     !! swap_file_name_of out_path = Some ino ->
                   names fs !! swap_file_name_of out_path = Some ino)).
  { intros fs2 Hother Hswap. cbn. split.
    - intros other Hne1 Hne2. rewrite unlink_names_other by (by apply not_eq_sym).
      by apply Hother.
    - intros ino. rewrite unlink_names_other by (by apply not_eq_sym). apply Hswap. }
  destruct (fchmod_fails e).
  { apply Hfail; [by intros other ? _; apply H1|]. intros ino. by rewrite H1. }
  destruct (fchown_fails e).
  { apply Hfail; [by intros other ? _; apply H1|]. intros ino. by rewrite H1. }
  destruct (dexopt_swap e out_path _) as [swap_fd fs2] eqn:Hswap.
  assert (Hfs2 : fs2 = (dexopt_swap e out_path
                          (fchown out_fd AID_SYSTEM uid
                             (fchmod out_fd
                                (Z.lor (Z.lor (Z.lor S_IRUSR S_IWUSR) S_IRGRP)
                                   (if has_flag dexopt_flags DEXOPT_PUBLIC
                                    then S_IROTH else 0)) fs1))).2)
    by (by rewrite Hswap).
  assert (H2 : forall other, other <> out_path -> other <> swap_file_name_of out_path ->
                             names fs2 !! other = names fs !! other).
  { intros other Hne1 Hne2. rewrite Hfs2, dexopt_swap_names_other by done.
    by apply H1. }
  assert (H3 : forall ino, names fs2 !! swap_file_name_of out_path = Some ino ->
                           names fs !! swap_file_name_of out_path = Some ino).
  { intros ino. rewrite Hfs2. intros Hino%dexopt_swap_leaves_no_swap.
    cbn in Hino. by rewrite H1 in Hino. }
  destruct (wait_child e _ =? 0).
  - cbn [snd]. rewrite utime_names, child_effects_names. by split.
  - apply Hfail; by rewrite child_effects_names.
Qed.

(** X13: the child of [dexopt] reaches [execv] only after [setgid],
    [setuid], [capset], the scheduling change (when BOOTCOMPLETE) and the
    lock on the output all succeeded and the instruction set is shorter
    than seven characters; it then runs patchoat for the two patchoat
    cases and dex2oat for compilation, the program being its own first
    argument. *)
Theorem dexopt_child_discipline (e : env) (dexopt_needed input_fd out_fd : Z)
    (input_file out_path : string) (swap_fd : Z) (instruction_set : string)
    (vm_safe_mode debuggable boot_complete use_jit : bool)
    (profile_files_fd reference_profile_files_fd : list Z) (bin : string)
    (argv : list string) :
  dexopt_child e dexopt_needed input_fd out_fd input_file out_path swap_fd
    instruction_set vm_safe_mode debuggable boot_complete use_jit
    profile_files_fd reference_profile_files_fd = ChildExec bin argv ->
  setgid_fails e = false /\ setuid_fails e = false /\ capset_fails e = false
  /\ flock_fails e = false
  /\ (boot_complete = true ->
      set_sched_policy_fails e = false /\ setpriority_fails e = false)
  /\ strlen instruction_set < 7
  /\ head argv = Some bin
  /\ ((bin = "/system/bin/patchoat"
       /\ (dexopt_needed = DEXOPT_PATCHOAT_NEEDED
           \/ dexopt_needed = DEXOPT_SELF_PATCHOAT_NEEDED))
      \/ (bin = "/system/bin/dex2oat" /\ dexopt_needed = DEXOPT_DEX2OAT_NEEDED)).
Proof.
  unfold dexopt_child, SetDex2OatAndPatchOatScheduling, Argv.run_patchoat, Argv.run_dex2oat.
  change Argv.MAX_INSTRUCTION_SET_LEN with 7.
  destruct (setgid_fails e); [discriminate|].
  destruct (setuid_fails e); [discriminate|].
  destruct (capset_fails e); [discriminate|].
  intros Hexec.
  assert (Hsched : boot_complete = true ->
                   set_sched_policy_fails e = false /\ setpriority_fails e = false).
  { intros ->. by destruct (set_sched_policy_fails e), (setpriority_fails e). }
  assert (Hgo : (if boot_complete
                 then if set_sched_policy_fails e then Some 70
                      else if setpriority_fails e then Some 71 else None
                 else None) = None).
  { destruct boot_complete; [|done]. by destruct (Hsched eq_refl) as [-> ->]. }
  rewrite Hgo in Hexec.
  destruct (flock_fails e); [discriminate|].
  destruct (7 <=? strlen instruction_set) eqn:Hisa; [|apply Z.leb_gt in Hisa].
  { by destruct (_ || _), (dexopt_needed =? DEXOPT_DEX2OAT_NEEDED). }
  do 5 (split; [done|]). split; [done|].
  destruct ((dexopt_needed =? DEXOPT_PATCHOAT_NEEDED)
            || (dexopt_needed =? DEXOPT_SELF_PATCHOAT_NEEDED)) eqn:Hpatch.
  - injection Hexec as <- <-. split; [done|]. left. split; [done|].
    apply orb_true_iff in Hpatch as [?%Z.eqb_eq|?%Z.eqb_eq]; auto.
  - destruct (dexopt_needed =? DEXOPT_DEX2OAT_NEEDED) eqn:Hdex; [|discriminate].
    apply Z.eqb_eq in Hdex.
    destruct (negb _); [discriminate|].
    repeat match type of Hexec with
           | context [let '(_, _) := ?p in _] => destruct p
           end.
    injection Hexec as <- <-. split; [done|]. right. done.
Qed.

End DexoptFrame.

Section IdmapExamples.
Import Example Fs Dexopt IdmapCmd.

(** Scenario 6 of the specification on the example device. *)
Lemma idmap_success_file_witness :
  let run := idmap (2 ^ 64 - 1) (calm ∅ 0) "/system/app/T.apk"
               (Some "/vendor/overlay/O.apk") 10000 disk_with_apk in
  run.1 = 0
  /\ idmap_path_of (2 ^ 64 - 1) (Some "/vendor/overlay/O.apk")
     = Some "/data/resource-cache/vendor@overlay@O.apk@idmap"
  /\ exists nd,
       stat "/data/resource-cache/vendor@overlay@O.apk@idmap" run.2 = Some nd
       /\ st_mode nd = 420 /\ st_uid nd = 1000 /\ st_gid nd = 10000.
Proof.
  cbv zeta.
  assert (Hrun : idmap (2 ^ 64 - 1) (calm ∅ 0) "/system/app/T.apk"
                   (Some "/vendor/overlay/O.apk") 10000 disk_with_apk
                 = (0, (idmap (2 ^ 64 - 1) (calm ∅ 0) "/system/app/T.apk"
                          (Some "/vendor/overlay/O.apk") 10000 disk_with_apk).2))
    by (vm_compute; reflexivity).
  split; [by rewrite Hrun|].
  destruct (idmap_success_file _ _ _ _ _ _ _ Hrun)
    as (idmap_path & nd & Hpath & Hstat & _ & Hmode & Huid & Hgid & _).
  assert (Hp : idmap_path_of (2 ^ 64 - 1) (Some "/vendor/overlay/O.apk")
               = Some "/data/resource-cache/vendor@overlay@O.apk@idmap")
    by (vm_compute; reflexivity).
  split; [exact Hp|]. rewrite Hp in Hpath. injection Hpath as <-.
  exists nd. by repeat split.
Defined.

(** The compiler of an idmap fails on the example device. *)
Lemma idmap_failure_rollback_witness :
  let run := idmap (2 ^ 64 - 1) (calm ∅ 1) "/system/app/T.apk"
               (Some "/vendor/overlay/O.apk") 10000 disk_with_apk in
  run.1 = -1
  /\ not_a_directory "/data/resource-cache/vendor@overlay@O.apk@idmap" disk_with_apk
  /\ names run.2 !! "/data/resource-cache/vendor@overlay@O.apk@idmap" = None.
Proof.
  cbv zeta.
  assert (Hrun : idmap (2 ^ 64 - 1) (calm ∅ 1) "/system/app/T.apk"
                   (Some "/vendor/overlay/O.apk") 10000 disk_with_apk
                 = (-1, (idmap (2 ^ 64 - 1) (calm ∅ 1) "/system/app/T.apk"
                           (Some "/vendor/overlay/O.apk") 10000 disk_with_apk).2))
    by (vm_compute; reflexivity).
  assert (Hnd : not_a_directory "/data/resource-cache/vendor@overlay@O.apk@idmap"
                  disk_with_apk) by (vm_compute; exact I).
  split; [by rewrite Hrun|]. split; [exact Hnd|].
  pose proof (idmap_failure_rollback _ _ _ _ _ _ _ Hrun) as Hroll.
  assert (Hp : idmap_path_of (2 ^ 64 - 1) (Some "/vendor/overlay/O.apk")
               = Some "/data/resource-cache/vendor@overlay@O.apk@idmap")
    by (vm_compute; reflexivity).
  rewrite Hp in Hroll. destruct Hroll as [Hgone _]. by apply Hgone.
Defined.

(** A compilation on the example device reaches the exec of dex2oat. *)
Lemma dexopt_child_discipline_witness :
  exists argv,
    dexopt_child (calm ∅ 0) DEXOPT_DEX2OAT_NEEDED 1 2 "/data/app/a.apk" out_name (-1)
      "arm64" false false true false [] [] = ChildExec "/system/bin/dex2oat" argv
    /\ setgid_fails (calm ∅ 0) = false
    /\ head argv = Some "/system/bin/dex2oat".
Proof.
  eexists. 
  assert (Hexec : dexopt_child (calm ∅ 0) DEXOPT_DEX2OAT_NEEDED 1 2 "/data/app/a.apk"
                    out_name (-1) "arm64" false false true false [] []
                  = ChildExec "/system/bin/dex2oat"
                      ["/system/bin/dex2oat"; "--zip-fd=1";
                       "--zip-location=/data/app/a.apk"; "--oat-fd=2";
                       "--oat-location=" +:+ out_name; "--instruction-set=arm64"])
    by (vm_compute; reflexivity).
  split; [exact Hexec|].
  destruct (dexopt_child_discipline _ _ _ _ _ _ _ _ _ _ _ _ _ _ _ _ Hexec)
    as (Hgid & _ & _ & _ & _ & _ & Hhead & _).
  by split.
Defined.

End IdmapExamples.

(** ** The argument vector of dex2oat *)

Section ArgvSizeFacts.
Import Props Argv ArgvSize.

Lemma length_slot {A} (b : bool) (l : list A) :
  Z.of_nat (length (if b then l else [])) = if b then Z.of_nat (length l) else 0.
Proof. by destruct b. Qed.

Lemma length_profile_args {A B} (f g : A -> B) (ps rs : list A) :
  length ps = length rs ->
  Z.of_nat (length (flat_map (fun '(p, r) => [f p; g r]) (zip ps rs)))
  = Z.of_nat (length ps) + Z.of_nat (length rs).
Proof.
  revert rs. induction ps as [|p ps IH]; intros [|r rs]; try done.
  intros [= Hlen]. cbn [zip zip_with flat_map app length].
  rewrite !Nat2Z.inj_succ, IH by done. lia.
Qed.

Lemma length_flags (n_flags : Z) (dex2oat_flags : string) :
  Z.of_nat (length (if truthy (if n_flags <=? 0 then 0 else split_count dex2oat_flags)
                    then split dex2oat_flags else []))
  = if n_flags <=? 0 then 0 else split_count dex2oat_flags.
Proof.
  destruct (n_flags <=? 0); [reflexivity|].
  unfold truthy, split_count, split.
  destruct (Z.eqb_spec (Z.of_nat (length (strtok_all " "%char dex2oat_flags None))) 0)
    as [->|_]; reflexivity.
Qed.

(** X14: when [run_dex2oat] reaches [execv], the arguments it has stored
    and the final NULL fill the array [argv] exactly: the number of slots
    the declaration computes is the number of arguments plus one, for
    every setting of the properties and every token count of
    "dalvik.vm.dex2oat-flags". *)
Theorem run_dex2oat_fills_argv (ps : gmap string string) (zip_fd oat_fd : Z)
    (input_file_name output_file_name : string) (swap_fd : Z) (instruction_set : string)
    (vm_safe_mode debuggable post_bootcomplete use_jit : bool)
    (profile_files_fd reference_profile_files_fd : list Z)
    (bin : string) (argv : list string) :
  run_dex2oat ps zip_fd oat_fd input_file_name output_file_name swap_fd instruction_set
    vm_safe_mode debuggable post_bootcomplete use_jit
    profile_files_fd reference_profile_files_fd = Some (bin, argv) ->
  Z.of_nat (length argv) + 1
  = run_dex2oat_argv_slots ps swap_fd instruction_set vm_safe_mode debuggable
      post_bootcomplete use_jit profile_files_fd reference_profile_files_fd.
Proof.
  unfold run_dex2oat, run_dex2oat_argv_slots.
  destruct (MAX_INSTRUCTION_SET_LEN <=? strlen instruction_set); [discriminate|].
  destruct (length profile_files_fd =? length reference_profile_files_fd)%nat eqn:Hlen;
    [|discriminate].
  apply Nat.eqb_eq in Hlen. cbn [negb].
  destruct (get_property ps "dalvik.vm.dex2oat-Xms" None) as [n_xms xms].
  destruct (get_property ps "dalvik.vm.dex2oat-Xmx" None) as [n_xmx xmx].
  destruct (get_property ps "dalvik.vm.dex2oat-filter" None) as [n_filter filter].
  destruct (get_property ps (if post_bootcomplete then _ else _) None)
    as [n_threads threads].
  destruct (get_property ps ("dalvik.vm.isa." +:+ instruction_set +:+ ".features") None)
    as [n_features features].
  destruct (get_property ps ("dalvik.vm.isa." +:+ instruction_set +:+ ".variant") None)
    as [n_variant variant].
  destruct (get_property ps "dalvik.vm.dex2oat-flags" None) as [n_flags flags].
  destruct (compiler_filter_chain _ _ _ _ _) as [[have_filter filter_arg] have_skip].
  cbn [fst snd].
  set (dbg := if negb debuggable then _ else debuggable). clearbody dbg.
  intros [= <- <-].
  cbn [length]. rewrite !Nat2Z.inj_succ.
  rewrite !length_app, !Nat2Z.inj_add, length_flags, length_profile_args by done.
  rewrite !length_slot. cbn [length].
  change (Z.of_nat 2) with 2. change (Z.of_nat 1) with 1.
  lia.
Qed.

Lemma chars_append (a b : string) :
  String.list_ascii_of_string (a +:+ b)
  = String.list_ascii_of_string a ++ String.list_ascii_of_string b.
Proof. induction a as [|c a IH]; simpl; [done|]. by f_equal. Qed.

Lemma append_assoc (a b c : string) : (a +:+ b) +:+ c = a +:+ (b +:+ c).
Proof.
  induction a as [|x a IH]; [done|].
  change (String x ((a +:+ b) +:+ c) = String x (a +:+ (b +:+ c))). by rewrite IH.
Qed.

Lemma append_empty_r (a : string) : a +:+ "" = a.
Proof.
  induction a as [|x a IH]; [done|].
  change (String x (a +:+ "") = String x a). by rewrite IH.
Qed.

Lemma strtok_all_tokens (delim : ascii) (s : string) (cur : option string) :
  (forall t, cur = Some t ->
             t <> "" /\ Forall (fun c => c <> delim) (String.list_ascii_of_string t)) ->
  Forall (fun t => t <> "" /\ Forall (fun c => c <> delim) (String.list_ascii_of_string t))
         (strtok_all delim s cur).
Proof.
  revert cur. induction s as [|c s IH]; intros cur Hcur; cbn [strtok_all].
  - destruct cur as [t|]; [|constructor]. constructor; [by apply Hcur|constructor].
  - case_bool_decide as Hc.
    + destruct cur as [t|].
      * constructor; [by apply Hcur|]. by apply IH.
      * by apply IH.
    + apply IH. intros t [= <-]. split.
      * intros Hempty. apply (f_equal String.length) in Hempty.
        rewrite length_append in Hempty. cbn in Hempty. lia.
      * rewrite chars_append. apply Forall_app. split.
        -- destruct cur as [t|]; [by apply Hcur|constructor].
        -- cbn. by repeat constructor.
Qed.

Lemma strtok_all_token (delim : ascii) (t rest : string) (cur : option string) :
  t <> "" -> Forall (fun c => c <> delim) (String.list_ascii_of_string t) ->
  strtok_all delim (t +:+ rest) cur = strtok_all delim rest (Some (default "" cur +:+ t)).
Proof.
  revert cur. induction t as [|c t IH]; intros cur Hne Hfree; [done|].
  cbn in Hfree. apply Forall_cons in Hfree as [Hc Hfree].
  change (String c t +:+ rest) with (String c (t +:+ rest)).
  cbn [strtok_all]. rewrite bool_decide_false by done.
  destruct t as [|c' t].
  - reflexivity.
  - rewrite IH by done. cbn [default from_option id]. by rewrite append_assoc.
Qed.

(** X15: [split] hands on only proper tokens: none is empty and none
    contains a blank, however many blanks the property value has at its
    ends or between the words; [split_count] is their number. *)
Theorem split_tokens_clean (buf : string) :
  Forall (fun t => t <> "" /\ space_free t) (split buf)
  /\ split_count buf = Z.of_nat (length (split buf)).
Proof.
  split; [|reflexivity]. unfold split, space_free. by apply strtok_all_tokens.
Qed.

(** X16: [split] undoes joining with single blanks: a list of non-empty,
    blank-free options written into "dalvik.vm.dex2oat-flags" separated by
    blanks comes back as that list, in order. *)
Theorem split_join_round_trip (tokens : list string) :
  Forall (fun t => t <> "" /\ space_free t) tokens ->
  split (join_tokens tokens) = tokens
  /\ split_count (join_tokens tokens) = Z.of_nat (length tokens).
Proof.
  intros Htokens.
  assert (Hsplit : split (join_tokens tokens) = tokens); [|split; [done|]].
  2:{ unfold split_count. fold (split (join_tokens tokens)). by rewrite Hsplit. }
  unfold split. induction Htokens as [|t rest [Hne Hfree] Hrest IH]; [done|].
  destruct rest as [|t' rest].
  - cbn [join_tokens].
    transitivity (strtok_all " "%char (t +:+ "") None); [by rewrite append_empty_r|].
    rewrite strtok_all_token by done. reflexivity.
  - change (join_tokens (t :: t' :: rest))
      with (t +:+ " " +:+ join_tokens (t' :: rest)).
    rewrite strtok_all_token by done.
    change (" " +:+ join_tokens (t' :: rest))
      with (String " "%char (join_tokens (t' :: rest))).
    cbn [strtok_all default from_option id].
    rewrite bool_decide_true by done. by rewrite IH.
Qed.

End ArgvSizeFacts.

Section ArgvSizeExamples.
Import Props Argv ArgvSize Example.

(** A compilation with two extra options, a thread count and one pair of
    profiles. *)
Lemma run_dex2oat_fills_argv_witness :
  let ps : gmap string string :=
    <[ "dalvik.vm.dex2oat-flags" := " --no-watch-dog  --verbose " ]>
      {[ "dalvik.vm.dex2oat-threads" := "4" ]} in
  exists argv,
    run_dex2oat ps 5 6 "/data/app/a.apk" out_name 7 "arm64" false true true false [8] [9]
    = Some ("/system/bin/dex2oat", argv)
    /\ length argv = 13%nat
    /\ run_dex2oat_argv_slots ps 7 "arm64" false true true false [8] [9] = 14.
Proof.
  cbv zeta.
  destruct (run_dex2oat (<[ "dalvik.vm.dex2oat-flags" := " --no-watch-dog  --verbose " ]>
                           {[ "dalvik.vm.dex2oat-threads" := "4" ]})
              5 6 "/data/app/a.apk" out_name 7 "arm64" false true true false [8] [9])
    as [[bin argv]|] eqn:Hrun; [|by vm_compute in Hrun].
  assert (Hbin : bin = "/system/bin/dex2oat") by (vm_compute in Hrun; congruence).
  assert (Hlen : length argv = 13%nat)
    by (vm_compute in Hrun; injection Hrun as _ <-; reflexivity).
  subst bin. exists argv. split; [reflexivity|]. split; [exact Hlen|].
  rewrite <- (run_dex2oat_fills_argv _ _ _ _ _ _ _ _ _ _ _ _ _ _ _ Hrun), Hlen.
  reflexivity.
Defined.

Lemma split_join_round_trip_witness :
  Forall (fun t => t <> "" /\ space_free t) ["--no-watch-dog"; "-j4"]
  /\ split "--no-watch-dog -j4" = ["--no-watch-dog"; "-j4"].
Proof.
  assert (Htokens : Forall (fun t => t <> "" /\ space_free t) ["--no-watch-dog"; "-j4"]).
  { unfold space_free. repeat first [discriminate | constructor | progress cbn]. }
  split; [exact Htokens|].
  exact (proj1 (split_join_round_trip _ Htokens)).
Defined.

End ArgvSizeExamples.

(** ** The shape of idmap paths *)

Section FlattenShape.
Import Idmap.

Lemma flatten_path_inv (SIZE_MAX : Z) (prefix suffix : list ascii)
    (overlay_path : option (list ascii)) (idmap_path_is_null : bool) (N : Z)
    (s : list ascii) :
  flatten_path SIZE_MAX prefix suffix overlay_path idmap_path_is_null N = Some s ->
  exists rest,
    overlay_path = Some ("/"%char :: rest) /\ rest <> [] /\ idmap_path_is_null = false
    /\ len prefix + len ("/"%char :: rest) + len suffix <= SIZE_MAX
    /\ len prefix + len ("/"%char :: rest) + len suffix <= N
    /\ s = prefix ++ map slash_to_at (rest ++ suffix).
Proof.
  unfold flatten_path, len.
  destruct overlay_path as [overlay_path|]; [|discriminate].
  destruct idmap_path_is_null; [discriminate|].
  destruct (Z.of_nat (length overlay_path) <? 2) eqn:Hlen; [discriminate|].
  apply Z.ltb_ge in Hlen. cbn [orb].
  case_bool_decide as Hhead; [|discriminate]. cbn [negb].
  destruct overlay_path as [|c [|c' rest]]; cbn [length] in Hlen; [lia|lia|].
  injection Hhead as ->.
  destruct (SIZE_MAX - Z.of_nat (length prefix) <? Z.of_nat (length ("/"%char :: c' :: rest)))
    eqn:Hov1; [discriminate|].
  apply Z.ltb_ge in Hov1. cbn [orb].
  rewrite (Z.mod_small (Z.of_nat (length prefix) + _)) by lia.
  destruct (SIZE_MAX - _ <? Z.of_nat (length suffix)) eqn:Hov2; [discriminate|].
  apply Z.ltb_ge in Hov2.
  rewrite Z.mod_small by lia.
  destruct (N <? _) eqn:HN; [discriminate|].
  apply Z.ltb_ge in HN.
  intros [= <-]. exists (c' :: rest).
  split; [done|]. split; [done|]. split; [done|]. split; [lia|]. split; [lia|].
  cbn [drop].
  rewrite (take_ge (prefix ++ _)); last first.
  { rewrite length_app. cbn [length] in *. rewrite length_app. lia. }
  by rewrite Nat2Z.id, take_app_length, drop_app_length.
Qed.

(** X17: whenever [flatten_path] succeeds, the overlay path was absolute
    and at least two characters long, and the string left in the buffer is
    the prefix followed by the rest of the path and the suffix with every
    '/' replaced: it is shorter than the buffer (room for the terminator)
    and holds no '/' after the prefix, so that it names a file directly
    under the prefix directory. *)
Theorem flatten_path_result (SIZE_MAX : Z) (prefix suffix : list ascii)
    (overlay_path : option (list ascii)) (idmap_path_is_null : bool) (N : Z)
    (s : list ascii) :
  flatten_path SIZE_MAX prefix suffix overlay_path idmap_path_is_null N = Some s ->
  exists rest,
    overlay_path = Some ("/"%char :: rest) /\ rest <> []
    /\ s = prefix ++ map slash_to_at (rest ++ suffix)
    /\ len s < N
    /\ Forall (fun c => c <> "/"%char) (drop (length prefix) s).
Proof.
  intros (rest & Hpath & Hrest & _ & _ & HN & ->)%flatten_path_inv.
  exists rest. split; [done|]. split; [done|]. split; [done|]. split.
  - unfold len in *. rewrite length_app, length_map, length_app.
    cbn [length] in HN. lia.
  - rewrite drop_app_length. apply slash_to_at_result.
Qed.

Lemma slash_to_at_inj (a b : list ascii) :
  Forall (fun c => c <> "@"%char) a -> Forall (fun c => c <> "@"%char) b ->
  map slash_to_at a = map slash_to_at b -> a = b.
Proof.
  intros Ha. revert b. induction Ha as [|x a Hx _ IH]; intros [|y b] Hb; try done.
  apply Forall_cons in Hb as [Hy Hb]. cbn [map]. intros [= Hxy Hab].
  f_equal; [|by apply IH].
  unfold slash_to_at in Hxy. repeat case_bool_decide; congruence.
Qed.

(** X18: two overlay paths without '@' never share an idmap file: if
    [flatten_path] succeeds on both with the same prefix and suffix and
    leaves the same string, the paths are equal. *)
Theorem flatten_path_injective (SIZE_MAX : Z) (prefix suffix p q : list ascii)
    (N N' : Z) (s : list ascii) :
  Forall (fun c => c <> "@"%char) p -> Forall (fun c => c <> "@"%char) q ->
  flatten_path SIZE_MAX prefix suffix (Some p) false N = Some s ->
  flatten_path SIZE_MAX prefix suffix (Some q) false N' = Some s ->
  p = q.
Proof.
  intros Hp Hq (rp & [= ->] & _ & _ & _ & _ & ->)%flatten_path_inv
         (rq & [= ->] & _ & _ & _ & _ & Heq)%flatten_path_inv.
  apply app_inv_head in Heq. rewrite !map_app in Heq.
  apply app_inv_tail in Heq.
  apply Forall_cons in Hp as [_ Hp]. apply Forall_cons in Hq as [_ Hq].
  f_equal. symmetry. by apply slash_to_at_inj.
Qed.

End FlattenShape.

Section FlattenShapeExamples.
Import Idmap.

Lemma flatten_path_result_witness :
  flatten_path (2 ^ 64 - 1) (chars "/data/resource-cache/") (chars "@idmap")
    (Some (chars "/vendor/overlay/O.apk")) false 4096
  = Some (chars "/data/resource-cache/vendor@overlay@O.apk@idmap")
  /\ len (chars "/data/resource-cache/vendor@overlay@O.apk@idmap") < 4096
  /\ Forall (fun c => c <> "/"%char) (chars "vendor@overlay@O.apk@idmap").
Proof.
  assert (Hrun : flatten_path (2 ^ 64 - 1) (chars "/data/resource-cache/") (chars "@idmap")
                   (Some (chars "/vendor/overlay/O.apk")) false 4096
                 = Some (chars "/data/resource-cache/vendor@overlay@O.apk@idmap"))
    by (vm_compute; reflexivity).
  split; [exact Hrun|].
  destruct (flatten_path_result _ _ _ _ _ _ _ Hrun) as (rest & _ & _ & _ & Hlen & Hfree).
  split; [exact Hlen|exact Hfree].
Defined.

Lemma flatten_path_injective_witness :
  flatten_path (2 ^ 64 - 1) (chars "/data/resource-cache/") (chars "@idmap")
    (Some (chars "/vendor/overlay/O.apk")) false 4096
  = flatten_path (2 ^ 64 - 1) (chars "/data/resource-cache/") (chars "@idmap")
      (Some (chars "/vendor/overlay/O.apk")) false 128
  /\ chars "/vendor/overlay/O.apk" = chars "/vendor/overlay/O.apk".
Proof.
  assert (Hp : Forall (fun c => c <> "@"%char) (chars "/vendor/overlay/O.apk"))
    by (repeat first [discriminate | constructor | progress cbn]).
  assert (Hrun : forall N, N = 4096 \/ N = 128 ->
            flatten_path (2 ^ 64 - 1) (chars "/data/resource-cache/") (chars "@idmap")
              (Some (chars "/vendor/overlay/O.apk")) false N
            = Some (chars "/data/resource-cache/vendor@overlay@O.apk@idmap"))
    by (intros N [-> | ->]; vm_compute; reflexivity).
  split; [by rewrite !Hrun by auto|].
  exact (flatten_path_injective _ _ _ _ _ _ _ _ Hp Hp (Hrun 4096 (or_introl eq_refl))
           (Hrun 128 (or_intror eq_refl))).
Defined.

End FlattenShapeExamples.

(** ** The collection protocol of free_cache *)

Section FreeCacheProtocol.
Context `{InstalldDeps}.
Import Cache CacheProtocol.

Lemma sweep_collecting (body : string -> dirent -> list event * string)
    (tmpdir : string) (entries : list dirent) :
  (forall buf de, Forall collecting (body buf de).1) ->
  Forall collecting (sweep body tmpdir entries).
Proof.
  intros Hbody. revert tmpdir.
  induction entries as [|de entries IH]; intros tmpdir; [constructor|].
  cbn [sweep]. specialize (Hbody tmpdir de).
  destruct (body tmpdir de) as [evs tmpdir']. apply Forall_app. split; [done|apply IH].
Qed.

Lemma sweep_dir_collecting (e : env) (body : string -> dirent -> list event * string)
    (tmpdir : string) :
  (forall buf de, Forall collecting (body buf de).1) ->
  Forall collecting (sweep_dir e body tmpdir).
Proof.
  intros Hbody. unfold sweep_dir.
  destruct (readdir_all e tmpdir); [by apply sweep_collecting|constructor].
Qed.

Lemma sweep_user_entry_collecting (base buf : string) (de : dirent) :
  Forall collecting (sweep_user_entry base buf de).1.
Proof.
  unfold sweep_user_entry, collecting.
  destruct (d_type de =? DT_DIR); [|constructor].
  destruct (skip_dot_names _); [constructor|].
  destruct (_ <? _); cbn; (constructor; [|constructor]); [left|right]; eauto.
Qed.

Lemma sweep_media_entry_collecting (e : env) (base buf : string) (de : dirent) :
  Forall collecting (sweep_media_entry e base buf de).1.
Proof.
  unfold sweep_media_entry, collecting.
  destruct (d_type de =? DT_DIR); [|constructor].
  destruct (not_a_user _); [constructor|].
  destruct (_ <? _); [|cbn; (constructor; [|constructor]); right; eauto].
  destruct (lookup_media_dir e _ "Android") as [dir|]; [|constructor].
  destruct (lookup_media_dir e dir "data"); cbn; [|constructor].
  constructor; [|constructor]. left; eauto.
Qed.

(** X19: [free_cache] touches the cache collector only when the disk has
    less free space than asked for: with a failing first measurement it
    returns -1 and with enough free space 0, both without a single call.
    Otherwise the calls are bracketed: the collection is started first,
    then roots are added (or warnings logged), then the files are cleared
    exactly once, for the data path and the requested size, and the
    collection is finished last; the result is 0 exactly when the second
    measurement reaches the requested size, and -1 otherwise. *)
Theorem free_cache_protocol (e : env) (uuid : option string) (free_size : Z) :
  let run := free_cache e uuid free_size in
  (disk_free_before e < 0 /\ run = (-1, []))
  \/ (0 <= disk_free_before e /\ free_size <= disk_free_before e /\ run = (0, []))
  \/ (0 <= disk_free_before e < free_size
      /\ (exists added,
            run.2 = [StartCacheCollection] ++ added
                    ++ [ClearCacheFiles (create_data_path uuid) free_size;
                        FinishCacheCollection]
            /\ Forall collecting added)
      /\ (free_size <= disk_free_after e -> run.1 = 0)
      /\ (disk_free_after e < free_size -> run.1 = -1)).
Proof.
  cbv zeta. unfold free_cache.
  destruct (disk_free_before e <? 0) eqn:Havail;
    [apply Z.ltb_lt in Havail; by left|apply Z.ltb_ge in Havail].
  destruct (free_size <=? disk_free_before e) eqn:Henough;
    [apply Z.leb_le in Henough; right; by left|apply Z.leb_gt in Henough].
  right. right. split; [lia|]. cbn [fst snd]. split.
  - match goal with
    | |- exists added, [StartCacheCollection] ++ ?a ++ ?b ++ ?c ++ _ = _ /\ _ =>
        exists (a ++ b ++ c)
    end.
    split.
    + by rewrite <- !app_assoc.
    + apply Forall_app. split; [|apply Forall_app; split].
      * destruct uuid; [constructor|]. constructor; [|constructor]. left; eauto.
      * apply sweep_dir_collecting, sweep_user_entry_collecting.
      * apply sweep_dir_collecting, sweep_media_entry_collecting.
  - split; intros Hafter.
    + by rewrite (proj2 (Z.leb_le _ _) Hafter).
    + by rewrite (proj2 (Z.leb_gt _ _) Hafter).
Qed.

End FreeCacheProtocol.

(** ** Existing files are left alone *)

Section FrameFacts.
Context `{InstalldDeps}.
Import Fs Dexopt IdmapCmd Frame.

Lemma same_file_refl (nd : inode) : same_file nd nd.
Proof. by repeat split. Qed.

Lemma keeps_files_refl (n : nat) (fs : Fs.t) : keeps_files n fs fs.
Proof. intros i nd _ Hnd. exists nd. split; [done|apply same_file_refl]. Qed.

Lemma keeps_files_trans (n : nat) (fs1 fs2 fs3 : Fs.t) :
  keeps_files n fs1 fs2 -> keeps_files n fs2 fs3 -> keeps_files n fs1 fs3.
Proof.
  intros H12 H23 i nd Hi Hnd.
  destruct (H12 i nd Hi Hnd) as (nd2 & Hnd2 & (? & ? & ? & ? & ?)).
  destruct (H23 i nd2 Hi Hnd2) as (nd3 & Hnd3 & (? & ? & ? & ? & ?)).
  exists nd3. split; [done|]. repeat split; congruence.
Qed.

Lemma keeps_files_inodes (n : nat) (fs fs' : Fs.t) :
  inodes fs' = inodes fs -> keeps_files n fs fs'.
Proof.
  intros Heq i nd _ Hnd. exists nd. rewrite Heq. split; [done|apply same_file_refl].
Qed.

Lemma keeps_files_unlink (n : nat) (path : string) (fs : Fs.t) :
  keeps_files n fs (unlink path fs).2.
Proof. apply keeps_files_inodes, unlink_inodes. Qed.

Lemma keeps_files_creat (n : nat) (creatable : bool) (path : string) (mode : Z)
    (fs fs' : Fs.t) (fd : nat) :
  (n <= next_ino fs)%nat ->
  open_creat_excl creatable path mode fs = Some (fd, fs') ->
  keeps_files n fs fs'.
Proof.
  intros Hn (-> & _ & _ & Hi & _)%open_creat_excl_Some i nd Hlt Hnd.
  exists nd. rewrite Hi, lookup_insert_ne by lia. split; [done|apply same_file_refl].
Qed.

Lemma keeps_files_new (n : nat) (f : inode -> inode) (fd : nat) (fs : Fs.t) :
  (n <= fd)%nat -> keeps_files n fs (on_inode f fd fs).
Proof.
  intros Hn i nd Hlt Hnd. exists nd. cbn. rewrite lookup_alter_ne by lia.
  split; [done|apply same_file_refl].
Qed.

Lemma keeps_files_atime (n : nat) (atime : Z) (fd : nat) (fs : Fs.t) :
  keeps_files n fs (on_inode (set_atime atime) fd fs).
Proof.
  intros i nd Hlt Hnd. cbn. destruct (decide (fd = i)) as [->|Hne].
  - exists (set_atime atime nd). rewrite lookup_alter_eq, Hnd. by repeat split.
  - exists nd. rewrite lookup_alter_ne by done. split; [done|apply same_file_refl].
Qed.

Lemma keeps_files_swap (n : nat) (e : env) (out_path : string) (fs : Fs.t) :
  (n <= next_ino fs)%nat -> keeps_files n fs (dexopt_swap e out_path fs).2.
Proof.
  intros Hn. unfold dexopt_swap.
  destruct (Swap.ShouldUseSwapFileForDexopt (props e)); [|apply keeps_files_refl].
  destruct (_ <=? PKG_PATH_MAX); [|apply keeps_files_refl].
  pose proof (unlink_inodes (swap_file_name_of out_path) fs) as [_ Hnext].
  destruct (open_creat_excl _ _ _ _) as [[swap_fd fs2]|] eqn:Hcreat; cbn [snd].
  - eapply keeps_files_trans; [apply keeps_files_unlink|].
    eapply keeps_files_trans; [|apply keeps_files_unlink].
    eapply keeps_files_creat; [|exact Hcreat]. lia.
  - apply keeps_files_unlink.
Qed.

(** What a call without profiles does to the file bodies that were in
    the store when it began. *)
Lemma dexopt_keeps_bodies (e : env) (apk_path : string) (uid : Z)
    (pkgname instruction_set : string) (dexopt_needed : Z) (oat_dir : option string)
    (dexopt_flags : Z) (volume_uuid : option string) (fs : Fs.t) :
  keeps_files (next_ino fs) fs
    (dexopt e apk_path uid pkgname instruction_set dexopt_needed oat_dir
       dexopt_flags volume_uuid false fs).2.
Proof.
  unfold dexopt. cbv zeta. cbn [andb].
  destruct (_ <=? strlen apk_path); [apply keeps_files_refl|].
  destruct (dexopt_out_path oat_dir apk_path instruction_set) as [out_path|];
    [|apply keeps_files_refl].
  destruct (dexopt_input_file _ _ _ _) as [input_file| |code];
    try apply keeps_files_refl.
  destruct (open_rdonly input_file fs) as [input_fd|]; [|apply keeps_files_refl].
  pose proof (unlink_inodes out_path fs) as [_ Hnext0].
  destruct (open_creat_excl _ out_path 420 _) as [[out_fd fs1]|] eqn:Hcreat;
    [|apply keeps_files_unlink].
  assert (H1 : keeps_files (next_ino fs) fs fs1).
  { eapply keeps_files_trans; [apply keeps_files_unlink|].
    eapply keeps_files_creat; [|exact Hcreat]. lia. }
  apply output_file_created in Hcreat as Hfile.
  apply open_creat_excl_Some in Hcreat as (Hfd & _ & _ & _ & Hnext1).
  assert (Hnew : (next_ino fs <= out_fd)%nat) by lia.
  assert (Hfail : forall fs2,
             keeps_files (next_ino fs) fs fs2 ->
             keeps_files (next_ino fs) fs (dexopt_fail (Some out_fd) out_path fs2).2).
  { intros fs2 H2. cbn. eapply keeps_files_trans; [exact H2|apply keeps_files_unlink]. }
  destruct (fchmod_fails e); [by apply Hfail|].
  eapply (output_file_fchmod _ _ _
            (Z.lor (Z.lor (Z.lor S_IRUSR S_IWUSR) S_IRGRP)
               (if has_flag dexopt_flags DEXOPT_PUBLIC then S_IROTH else 0))) in Hfile.
  destruct (fchown_fails e).
  { apply Hfail. eapply keeps_files_trans; [exact H1|]. by apply keeps_files_new. }
  eapply (output_file_fchown _ _ _ _ _ AID_SYSTEM uid) in Hfile.
  destruct (dexopt_swap e out_path _) as [swap_fd fs2] eqn:Hswap.
  assert (Hfs2 : fs2 = (dexopt_swap e out_path
                          (fchown out_fd AID_SYSTEM uid
                             (fchmod out_fd
                                (Z.lor (Z.lor (Z.lor S_IRUSR S_IWUSR) S_IRGRP)
                                   (if has_flag dexopt_flags DEXOPT_PUBLIC
                                    then S_IROTH else 0)) fs1))).2)
    by (by rewrite Hswap).
  apply (dexopt_swap_keeps_output e) in Hfile. rewrite <- Hfs2 in Hfile.
  assert (H2 : keeps_files (next_ino fs) fs fs2).
  { rewrite Hfs2.
    eapply keeps_files_trans; [exact H1|].
    eapply keeps_files_trans; [by apply keeps_files_new|].
    eapply keeps_files_trans; [by apply keeps_files_new|].
    apply keeps_files_swap. cbn. lia. }
  set (ce := dexopt_child _ _ _ _ _ _ _ _ _ _ _ _ _ _) in *.
  assert (H3 : keeps_files (next_ino fs) fs (child_effects e ce input_fd out_fd fs2)).
  { eapply keeps_files_trans; [exact H2|]. unfold child_effects.
    destruct ce; [apply keeps_files_refl|].
    eapply keeps_files_trans; [apply keeps_files_atime|by apply keeps_files_new]. }
  destruct (wait_child e ce =? 0); [|by apply Hfail].
  cbn [snd]. eapply keeps_files_trans; [exact H3|].
  apply (child_effects_keeps_output e ce input_fd out_fd) in Hfile.
  destruct Hfile as (Hname & _). unfold utime. rewrite Hname.
  by apply keeps_files_new.
Qed.

(** What [idmap] does to the file bodies that were in the store when it
    began. *)
Lemma idmap_keeps_bodies (SIZE_MAX : Z) (e : env) (target_apk : string)
    (overlay_apk : option string) (uid : Z) (fs : Fs.t) (i : nat) :
  (i < next_ino fs)%nat ->
  inodes (idmap SIZE_MAX e target_apk overlay_apk uid fs).2 !! i = inodes fs !! i.
Proof.
  intros Hi. unfold idmap, idmap_fail.
  destruct (idmap_path_of SIZE_MAX overlay_apk) as [idmap_path|]; [|done].
  pose proof (unlink_inodes idmap_path fs) as [Hinodes0 Hnext0].
  destruct (open_creat_excl _ idmap_path 420 _) as [[idmap_fd fs1]|] eqn:Hcreat;
    [|cbn; by rewrite Hinodes0].
  apply open_creat_excl_Some in Hcreat as (Hfd & _ & _ & Hinodes1 & _).
  assert (H1 : inodes fs1 !! i = inodes fs !! i).
  { rewrite Hinodes1, lookup_insert_ne, Hinodes0 by lia. done. }
  assert (Hne : idmap_fd <> i) by lia.
  assert (Hunlink : forall fs2, inodes fs2 !! i = inodes fs !! i ->
                                inodes (unlink idmap_path fs2).2 !! i = inodes fs !! i).
  { intros fs2 <-. by destruct (unlink_inodes idmap_path fs2) as [-> _]. }
  destruct (fchown_fails e); [by apply Hunlink|].
  destruct (fchmod_fails e).
  { apply Hunlink. cbn. by rewrite lookup_alter_ne. }
  assert (H2 : forall fs2,
             fs2 = fchmod idmap_fd
                     (Z.lor (Z.lor (Z.lor S_IRUSR S_IWUSR) S_IRGRP) S_IROTH)
                     (fchown idmap_fd AID_SYSTEM uid fs1) ->
             inodes match idmap_child e target_apk (default "" overlay_apk)
                            (Z.of_nat idmap_fd) with
                    | ChildExit _ => fs2
                    | ChildExec _ _ =>
                        on_inode (set_times (child_out_times e).1 (child_out_times e).2)
                          idmap_fd fs2
                    end !! i = inodes fs !! i).
  { intros fs2 ->. destruct (idmap_child _ _ _ _); cbn; by rewrite !lookup_alter_ne. }
  destruct (negb _); cbn [snd]; [apply Hunlink|]; by apply H2.
Qed.

Lemma idmap_names_other (SIZE_MAX : Z) (e : env) (target_apk : string)
    (overlay_apk : option string) (uid : Z) (fs : Fs.t) (other : string) :
  idmap_path_of SIZE_MAX overlay_apk <> Some other ->
  names (idmap SIZE_MAX e target_apk overlay_apk uid fs).2 !! other = names fs !! other.
Proof.
  intros Hother. unfold idmap, idmap_fail.
  destruct (idmap_path_of SIZE_MAX overlay_apk) as [idmap_path|]; [|done].
  assert (Hne : idmap_path <> other) by congruence.
  destruct (open_creat_excl _ idmap_path 420 _) as [[idmap_fd fs1]|] eqn:Hcreat;
    [|cbn; by apply unlink_names_other].
  assert (H1 : names fs1 !! other = names fs !! other).
  { rewrite (creat_names_other _ _ _ _ _ _ _ Hne Hcreat). by apply unlink_names_other. }
  destruct (fchown_fails e); [cbn; by rewrite unlink_names_other|].
  destruct (fchmod_fails e); [cbn; by rewrite unlink_names_other|].
  destruct (idmap_child e target_apk (default "" overlay_apk) (Z.of_nat idmap_fd));
    destruct (negb _); cbn; by rewrite ?unlink_names_other.
Qed.

(** A path that named a file keeps doing so when its name and the body
    behind it are kept. *)
Lemma stat_kept (fs fs' : Fs.t) (other : string) (nd : inode) :
  (forall path ino, names fs !! path = Some ino -> (ino < next_ino fs)%nat) ->
  names fs' !! other = names fs !! other ->
  keeps_files (next_ino fs) fs fs' ->
  stat other fs = Some nd ->
  exists nd', stat other fs' = Some nd' /\ same_file nd nd'.
Proof.
  intros Hwf Hname Hkeeps Hstat. unfold stat in *. rewrite Hname.
  destruct (names fs !! other) as [ino|] eqn:Hino; [|done].
  by apply (Hkeeps ino nd (Hwf other ino Hino)).
Qed.

(** X12: a call of [dexopt] without profiles, whatever its outcome, adds
    and removes no name on disk other than the derived output path and
    that path with [.swap] appended, and it never leaves a swap file of
    its own: the swap name exists afterwards only if that same entry
    existed before.  When no output path can be derived the disk is
    untouched. *)
Theorem dexopt_frame (e : env) (apk_path : string) (uid : Z)
    (pkgname instruction_set : string) (dexopt_needed : Z) (oat_dir : option string)
    (dexopt_flags : Z) (volume_uuid : option string) (fs : Fs.t) :
  let run := dexopt e apk_path uid pkgname instruction_set dexopt_needed oat_dir
               dexopt_flags volume_uuid false fs in
  (dexopt_out_path oat_dir apk_path instruction_set = None -> run.2 = fs)
  /\ (forall out_path other,
        dexopt_out_path oat_dir apk_path instruction_set = Some out_path ->
        other <> out_path -> other <> swap_file_name_of out_path ->
        names run.2 !! other = names fs !! other)
  /\ (forall out_path ino,
        dexopt_out_path oat_dir apk_path instruction_set = Some out_path ->
        names run.2 !! swap_file_name_of out_path = Some ino ->
        names fs !! swap_file_name_of out_path = Some ino).
Proof.
  cbv zeta.
  pose proof (dexopt_names_frame e apk_path uid pkgname instruction_set dexopt_needed
                oat_dir dexopt_flags volume_uuid fs) as Hnames.
  cbv zeta in Hnames.
  destruct (dexopt_out_path oat_dir apk_path instruction_set) as [out_path|].
  - destruct Hnames as [Hother Hswap]. split; [done|].
    split; intros ? ? [= <-]; [apply Hother|apply Hswap].
  - split; [done|]. split; intros ? ? [=].
Qed.



End FrameFacts.

Section FrameExamples.
Import Example Fs Dexopt IdmapCmd Frame.



End FrameExamples.

(** ** Compiling and removing again *)

Section DexoptRmDex.
Context `{InstalldDeps}.
Import Fs Dexopt.

Lemma dexopt_success_regular (e : env) (apk_path : string) (uid : Z)
    (pkgname instruction_set : string) (dexopt_needed : Z) (oat_dir : option string)
    (dexopt_flags : Z) (volume_uuid : option string) (use_profiles : bool)
    (fs fs' : Fs.t) :
  dexopt e apk_path uid pkgname instruction_set dexopt_needed oat_dir dexopt_flags
    volume_uuid use_profiles fs = (Returned 0, fs') ->
  (use_profiles = true -> profile_files e <> []) ->
  exists out_path nd,
    dexopt_out_path oat_dir apk_path instruction_set = Some out_path
    /\ stat out_path fs' = Some nd /\ st_isdir nd = false.
Proof.
  intros Hrun Hfork. unfold dexopt in Hrun. cbv zeta in Hrun.
  destruct (use_profiles && _) eqn:Hskip.
  { apply andb_true_iff in Hskip as [-> Hempty].
    apply bool_decide_eq_true in Hempty. apply fmap_nil_inv in Hempty.
    by destruct (Hfork eq_refl). }
  destruct (_ <=? strlen apk_path); [discriminate|].
  destruct (dexopt_out_path oat_dir apk_path instruction_set) as [out_path|];
    [|discriminate].
  destruct (dexopt_input_file _ _ _ _) as [input_file| |code]; try discriminate.
  destruct (open_rdonly input_file fs) as [input_fd|]; [|discriminate].
  destruct (open_creat_excl _ out_path 420 _) as [[out_fd fs1]|] eqn:Hcreat;
    [|discriminate].
  destruct (fchmod_fails e); [discriminate|].
  destruct (fchown_fails e); [discriminate|].
  destruct (dexopt_swap e out_path _) as [swap_fd fs2] eqn:Hswap.
  destruct (wait_child e _ =? 0); [|discriminate].
  injection Hrun as <-.
  exists out_path. eexists. split; [done|]. split.
  - apply output_file_utime with (fd := out_fd).
    apply child_effects_keeps_output.
    replace fs2 with (dexopt_swap e out_path
                        (fchown out_fd AID_SYSTEM uid
                           (fchmod out_fd
                              (Z.lor (Z.lor (Z.lor S_IRUSR S_IWUSR) S_IRGRP)
                                 (if has_flag dexopt_flags DEXOPT_PUBLIC
                                  then S_IROTH else 0)) fs1))).2
      by (by rewrite Hswap).
    apply dexopt_swap_keeps_output.
    apply output_file_fchown with (uid := 0) (gid := 0).
    apply output_file_fchmod with (mode := 420).
    by eapply output_file_created.
  - reflexivity.
Qed.

(** X22: [rm_dex] undoes a compilation into the dalvik cache, for a
    package path that [rm_dex] accepts (as an apk path or as a system app
    path): after a [dexopt] of that path without oat directory (or with
    one that begins with '!') that forked the compiler and returned 0,
    [rm_dex] on the same path and instruction set returns 0 without an
    error line, the output file is gone, and no other name is touched. *)
Theorem dexopt_then_rm_dex (e : env) (apk_path : string) (uid : Z)
    (pkgname instruction_set : string) (dexopt_needed : Z) (oat_dir : option string)
    (dexopt_flags : Z) (volume_uuid : option string) (use_profiles : bool)
    (fs fs' : Fs.t) :
  match oat_dir with
  | Some dir => first_char dir = "!"%char
  | None => True
  end ->
  validate_apk_path apk_path = 0 \/ validate_system_app_path apk_path = 0 ->
  dexopt e apk_path uid pkgname instruction_set dexopt_needed oat_dir dexopt_flags
    volume_uuid use_profiles fs = (Returned 0, fs') ->
  (use_profiles = true -> profile_files e <> []) ->
  let run := RmDex.rm_dex apk_path instruction_set fs' in
  exists out_path,
    create_cache_path apk_path instruction_set = Some out_path
    /\ is_Some (stat out_path fs')
    /\ run.1.1 = 0 /\ run.2 = []
    /\ names run.1.2 !! out_path = None
    /\ (forall other, other <> out_path -> names run.1.2 !! other = names fs' !! other).
Proof.
  intros Hdir Hvalid Hrun Hfork. cbv zeta.
  destruct (dexopt_success_regular _ _ _ _ _ _ _ _ _ _ _ _ Hrun Hfork)
    as (out_path & nd & Hout & Hstat & Hd).
  assert (Hcache : create_cache_path apk_path instruction_set = Some out_path).
  { unfold dexopt_out_path in Hout. destruct oat_dir as [dir|]; [|done].
    by rewrite bool_decide_true in Hout by done. }
  exists out_path. split; [done|]. split; [by rewrite Hstat|].
  unfold RmDex.rm_dex.
  assert (truthy (validate_apk_path apk_path)
          && truthy (validate_system_app_path apk_path) = false) as ->.
  { unfold truthy. destruct Hvalid as [-> | ->]; simpl; [done|].
    by rewrite andb_false_r. }
  rewrite Hcache.
  pose proof (unlink_gone out_path fs') as Hgone.
  unfold not_a_directory in Hgone. rewrite Hstat in Hgone. specialize (Hgone Hd).
  pose proof (unlink_names_other out_path) as Hother.
  destruct (unlink_cases out_path fs') as [[_ Hok]|[Hno _]].
  - rewrite Hok in *. cbn in *. split; [done|]. split; [done|]. split; [done|].
    intros other Hne. by apply lookup_delete_ne.
  - destruct Hno. unfold stat in Hstat.
    destruct (names fs' !! out_path) as [ino|]; [|done].
    exists ino. split; [done|]. by rewrite Hstat.
Qed.

End DexoptRmDex.

Section DexoptRmDexExamples.
Import Example Fs Dexopt.

Lemma dexopt_then_rm_dex_witness :
  let run := dexopt (calm ∅ 0) "/data/app/a.apk" 10042 "com.x" "arm64"
               DEXOPT_DEX2OAT_NEEDED None DEXOPT_PUBLIC None false disk_with_apk in
  run.1 = Returned 0
  /\ (validate_apk_path "/data/app/a.apk" = 0
      \/ validate_system_app_path "/data/app/a.apk" = 0)
  /\ is_Some (stat out_name run.2)
  /\ (RmDex.rm_dex "/data/app/a.apk" "arm64" run.2).1.1 = 0
  /\ names (RmDex.rm_dex "/data/app/a.apk" "arm64" run.2).1.2 !! out_name = None.
Proof.
  cbv zeta.
  assert (Hrun : dexopt (calm ∅ 0) "/data/app/a.apk" 10042 "com.x" "arm64"
                   DEXOPT_DEX2OAT_NEEDED None DEXOPT_PUBLIC None false disk_with_apk
                 = (Returned 0,
                    (dexopt (calm ∅ 0) "/data/app/a.apk" 10042 "com.x" "arm64"
                       DEXOPT_DEX2OAT_NEEDED None DEXOPT_PUBLIC None false
                       disk_with_apk).2)).
  { vm_compute. reflexivity. }
  assert (Hfork : false = true -> profile_files (calm ∅ 0) <> []) by discriminate.
  assert (Hvalid : validate_apk_path "/data/app/a.apk" = 0
                   \/ validate_system_app_path "/data/app/a.apk" = 0)
    by (left; vm_compute; reflexivity).
  split; [by rewrite Hrun|]. split; [exact Hvalid|].
  destruct (dexopt_then_rm_dex _ _ _ _ _ _ None _ _ _ _ _ I Hvalid Hrun Hfork)
    as (out_path & Hcache & Hstat & Hres & _ & Hgone & _).
  vm_compute in Hcache. injection Hcache as <-.
  split; [exact Hstat|]. split; [exact Hres|exact Hgone].
Defined.

End DexoptRmDexExamples.

(** ** A move in which nothing fails *)

Section MoveSuccess.
Context `{InstalldDeps}.
Import Trace AppData Move MoveProtocol.

Variable o : oracle.
Hypothesis calm : forall history e, o history e = 0.

(** What a part of a successful move leaves in the history: no copy and
    no deletion. *)
Local Abbreviation quiet := (fun new : list event => copies new = [] /\ deletions new = []).

Lemma runs_call_calm (e : event) :
  runs (call o e) (fun z new => z = 0 /\ new = [e]).
Proof. intros tr. exists [e]. cbn. by rewrite calm. Qed.

Lemma create_app_data_calm (uuid : option string) (pkgname : string)
    (userid flags appid : Z) (seinfo : option string) :
  runs (create_app_data o uuid pkgname userid flags appid seinfo)
       (fun r new => r = 0 /\ quiet new).
Proof.
  unfold create_app_data. cbv zeta.
  destruct (has_flag flags FLAG_CE_STORAGE), (has_flag flags FLAG_DE_STORAGE);
    repeat first
      [ apply runs_ret; by repeat split
      | eapply runs_bind; [apply runs_call_calm|intros ? ? [-> ->]; cbn [Z.eqb Z.ltb Z.compare negb]] ].
Qed.

Lemma restorecon_app_data_calm (uuid : option string) (pkgName : string)
    (userid flags appid : Z) (seinfo : string) :
  runs (restorecon_app_data o uuid (Some pkgName) userid flags appid (Some seinfo))
       (fun r new => r = 0 /\ quiet new).
Proof.
  intros tr. unfold restorecon_app_data, bind, call, ret, log. cbv zeta.
  destruct (has_flag flags FLAG_CE_STORAGE), (has_flag flags FLAG_DE_STORAGE);
    repeat (rewrite calm; cbn [Z.ltb Z.compare fst snd]); cbn [fst snd];
    rewrite <- ?(assoc_L (++)); cbn [app];
    (first [ exists []; split; [by rewrite app_nil_r|]
           | eexists; split; [reflexivity|] ]);
    by repeat split.
Qed.

Lemma copy_app_calm (from_uuid to_uuid : option string) (data_app_name : string) :
  runs (copy_app o from_uuid to_uuid data_app_name)
       (fun ok new =>
          ok = true
          /\ copies new = [cp_argv (create_data_app_package_path from_uuid data_app_name)
                                   (create_data_app_path to_uuid)]
          /\ deletions new = []).
Proof.
  unfold copy_app. cbv zeta.
  eapply runs_bind; [apply runs_call_calm|intros ? ? [-> ->]; cbn [Z.eqb negb]].
  eapply runs_bind; [apply runs_call_calm|intros ? ? [-> ->]; cbn [Z.eqb negb]].
  by apply runs_ret.
Qed.

Lemma copy_users_calm (from_uuid to_uuid : option string) (package_name : string)
    (appid : Z) (seinfo : string) (users : list Z) :
  runs (copy_users o from_uuid to_uuid package_name appid (Some seinfo) users)
       (fun ok new =>
          ok = true
          /\ copies new
             = map (fun user =>
                      cp_argv (create_data_user_package_path from_uuid user package_name)
                              (create_data_user_path to_uuid user)) users
          /\ deletions new = []).
Proof.
  induction users as [|user rest IH]; [by apply runs_ret|].
  cbn [copy_users]. cbv zeta.
  eapply runs_bind; [apply runs_call_calm|intros ? ? [-> ->]; cbn [Z.eqb negb]].
  eapply runs_bind; [apply runs_call_calm|intros ? ? [-> ->]; cbn [Z.eqb negb]].
  eapply runs_bind; [apply create_app_data_calm|intros ? new1 (-> & Hc1 & Hd1)].
  cbn [Z.eqb negb].
  eapply runs_bind; [apply runs_call_calm|intros ? ? [-> ->]; cbn [Z.eqb negb]].
  eapply runs_bind; [apply restorecon_app_data_calm|intros ? new2 (-> & Hc2 & Hd2)].
  cbn [Z.eqb negb].
  eapply runs_weaken; [apply IH|]. intros ok new3 (-> & Hc3 & Hd3).
  split; [done|]. unfold copies, deletions in *.
  rewrite !omap_app, Hc1, Hc2, Hc3, Hd1, Hd2, Hd3. done.
Qed.

(** X23: a move in which every call answers 0 and a seinfo tag is given
    returns 0.  It has then run [cp -F -p -R -P -d] once for the app
    directory into the destination's app directory and once for every
    known user's package directory into that user's destination
    directory, in this order, and has deleted nothing. *)
Theorem move_complete_app_success (from_uuid to_uuid : option string)
    (package_name data_app_name : string) (appid : Z) (seinfo : string)
    (tr : list event) :
  let run := move_complete_app o from_uuid to_uuid package_name data_app_name appid
               (Some seinfo) tr in
  run.1 = 0
  /\ exists new,
       run.2 = tr ++ new
       /\ copies new
          = cp_argv (create_data_app_package_path from_uuid data_app_name)
                    (create_data_app_path to_uuid)
            :: map (fun user =>
                      cp_argv (create_data_user_package_path from_uuid user package_name)
                              (create_data_user_path to_uuid user))
                   (get_known_users from_uuid)
       /\ deletions new = [].
Proof.
  cbv zeta.
  assert (Hruns : runs (move_complete_app o from_uuid to_uuid package_name data_app_name
                          appid (Some seinfo))
                    (fun r new =>
                       r = 0
                       /\ copies new
                          = cp_argv (create_data_app_package_path from_uuid data_app_name)
                                    (create_data_app_path to_uuid)
                            :: map (fun user =>
                                      cp_argv (create_data_user_package_path from_uuid user
                                                 package_name)
                                              (create_data_user_path to_uuid user))
                                   (get_known_users from_uuid)
                       /\ deletions new = [])).
  { unfold move_complete_app. cbv zeta.
    eapply runs_bind; [apply copy_app_calm|].
    intros ok new1 (-> & Hc1 & Hd1).
    eapply runs_bind; [apply copy_users_calm|].
    intros ok new2 (-> & Hc2 & Hd2). apply runs_ret. rewrite app_nil_r.
    split; [done|]. unfold copies, deletions in *.
    rewrite !omap_app, Hc1, Hc2, Hd1, Hd2. done. }
  destruct (Hruns tr) as (new & Htr & Hres & Hc & Hd). split; [done|]. by exists new.
Qed.

End MoveSuccess.

Section MoveSuccessExamples.
Import Example Trace Move MoveProtocol.

(** A move of the example package to the volume [vol] with helpers that
    all answer 0. *)
Lemma move_complete_app_success_witness :
  let run := move_complete_app (fun _ _ => 0) None (Some "vol") "com.x" "com.x-1" 10042
               (Some "default") [] in
  (forall (history : list event) (e : event), (fun _ _ => 0) history e = 0)
  /\ run.1 = 0
  /\ length (copies run.2) = S (length (get_known_users None)).
Proof.
  cbv zeta.
  assert (Hcalm : forall (history : list event) (e : event),
             (fun (_ : list event) (_ : event) => 0) history e = 0) by reflexivity.
  split; [exact Hcalm|].
  destruct (move_complete_app_success (fun _ _ => 0) Hcalm None (Some "vol") "com.x"
              "com.x-1" 10042 "default" [])
    as (Hres & new & Htr & Hcopies & _).
  split; [exact Hres|].
  rewrite Htr, app_nil_l, Hcopies. cbn [length]. by rewrite length_map.
Defined.

End MoveSuccessExamples.
